(** * onnxruntime-training-examples: the AzureML environment adapter and
      the BERT multi-file data loader

    A shallow embedding of
    - [huggingface-gpt2/.../transformers/azureml_adapter.py] and
    - [nvidia-bert/bert_runner/bert_dataset.py]
    together with the properties their design document states about them. *)

From Stdlib Require Import ZArith Ascii String Lia.
From stdpp Require Import gmap strings list pretty.

Local Open Scope string_scope.

(** * The pieces of the Python runtime both files rely on *)

(** Exceptions.  [KeyError], [ValueError], [IndexError], [RuntimeError],
    [OSError], [AttributeError] and [ZeroDivisionError] are the built-in
    classes the statements of
    the two files can raise.  [ConfigurationError] is the class the design
    document names; no statement of the source raises it and no built-in class
    derives from it. *)
Inductive exn : Type :=
  | KeyError (key : string)
  | ValueError (msg : string)
  | IndexError (msg : string)
  | RuntimeError (msg : string)
  | OSError (path : string)
  | AttributeError (attr : string)
  | ZeroDivisionError (msg : string)
  | ConfigurationError.

(** A statement block over a mutable state [St]: it ends normally with a
    value or raises, and in both cases leaves a state behind. *)
Definition py (St A : Type) : Type := St → (exn + A) * St.

Definition ret {St A} (a : A) : py St A := λ s, (inr a, s).
Definition raise {St A} (e : exn) : py St A := λ s, (inl e, s).
Definition bind {St A B} (k : A → py St B) (m : py St A) : py St B :=
  λ s, match m s with
       | (inr a, s') => k a s'
       | (inl e, s') => (inl e, s')
       end.

#[global] Instance py_ret St : MRet (py St) := λ A, @ret St A.
#[global] Instance py_bind St : MBind (py St) := λ A B, @bind St A B.

Definition returns {St A} (r : (exn + A) * St) : bool :=
  match r.1 with inr _ => true | inl _ => false end.

(** ** [str.split(sep)] for a one-character separator *)
Fixpoint split (sep : ascii) (s : string) : list string :=
  match s with
  | EmptyString => [""]
  | String c s' =>
      if Ascii.eqb c sep then "" :: split sep s'
      else match split sep s' with
           | w :: ws => String c w :: ws
           | [] => [String c ""]
           end
  end.

Fixpoint contains (sep : ascii) (s : string) : bool :=
  match s with
  | EmptyString => false
  | String c s' => Ascii.eqb c sep || contains sep s'
  end.

(** ** [int(s)] on a [str], base ten

    A [string] holds the UTF-8 encoding of the Python [str], which is how
    the values of [os.environ] reach a POSIX process; bytes that are no
    UTF-8 stand for the lone surrogates Python decodes them to.  [int]
    first rewrites the text: a character below 128 is kept, a Unicode white
    space becomes a blank, a Unicode decimal digit becomes the ASCII digit
    of its value, and with any other character the text is no number.  What
    is then read is ASCII: white space at both ends is dropped, one sign is
    allowed, and single underscores may separate digits. *)

(** [Py_ISSPACE]: the white space of ASCII. *)
Definition is_space (c : ascii) : bool :=
  let n := nat_of_ascii c in
  ((9 <=? n) && (n <=? 13) || (n =? 32))%nat.

Definition digit_of (c : ascii) : option Z :=
  let n := nat_of_ascii c in
  if ((48 <=? n) && (n <=? 57))%nat then Some (Z.of_nat (n - 48)) else None.

Fixpoint int_digits (cs : list ascii) (acc : Z) (after_digit : bool) : option Z :=
  match cs with
  | [] => if after_digit then Some acc else None
  | c :: cs' =>
      match digit_of c with
      | Some d => int_digits cs' (10 * acc + d)%Z true
      | None =>
          if Ascii.eqb c "_" && after_digit then int_digits cs' acc false
          else None
      end
  end.

Fixpoint lstrip (cs : list ascii) : list ascii :=
  match cs with
  | c :: cs' => if is_space c then lstrip cs' else cs
  | [] => []
  end.

Definition strip (cs : list ascii) : list ascii :=
  rev (lstrip (rev (lstrip cs))).

(** [Py_UNICODE_ISSPACE] on a code point above ASCII. *)
Definition unicode_space (cp : N) : bool :=
  existsb (N.eqb cp) [0x85; 0xA0; 0x1680; 0x2028; 0x2029; 0x202F; 0x205F; 0x3000]%N
  || (0x2000 <=? cp)%N && (cp <=? 0x200A)%N.

(** The zeros of the runs of ten decimal digits of Unicode 14.0, the
    character database of CPython 3.11. *)
Definition decimal_zeros : list N :=
  [0x660; 0x6F0; 0x7C0; 0x966; 0x9E6; 0xA66; 0xAE6; 0xB66; 0xBE6; 0xC66; 0xCE6;
   0xD66; 0xDE6; 0xE50; 0xED0; 0xF20; 0x1040; 0x1090; 0x17E0; 0x1810; 0x1946;
   0x19D0; 0x1A80; 0x1A90; 0x1B50; 0x1BB0; 0x1C40; 0x1C50; 0xA620; 0xA8D0;
   0xA900; 0xA9D0; 0xA9F0; 0xAA50; 0xABF0; 0xFF10; 0x104A0; 0x10D30; 0x11066;
   0x110F0; 0x11136; 0x111D0; 0x112F0; 0x11450; 0x114D0; 0x11650; 0x116C0;
   0x11730; 0x118E0; 0x11950; 0x11C50; 0x11D50; 0x11DA0; 0x16A60; 0x16AC0;
   0x16B50; 0x1D7CE; 0x1D7D8; 0x1D7E2; 0x1D7EC; 0x1D7F6; 0x1E140; 0x1E2F0;
   0x1E950; 0x1FBF0]%N.

(** [Py_UNICODE_TODECIMAL] *)
Definition unicode_decimal (cp : N) : option N :=
  (λ z, cp - z)%N <$> find (λ z, (z <=? cp) && (cp <? z + 10))%N decimal_zeros.

(** What a character above ASCII becomes: a blank, an ASCII digit, or
    nothing. *)
Definition to_ascii (cp : N) : option ascii :=
  if unicode_space cp then Some " "%char
  else (λ d, ascii_of_N (48 + d)) <$> unicode_decimal cp.

(** The low six bits of a continuation byte of UTF-8. *)
Definition continuation (b : ascii) : option N :=
  let n := N_of_ascii b in
  if ((128 <=? n) && (n <? 192))%N then Some (n - 128)%N else None.

(** [_PyUnicode_TransformDecimalAndSpaceToASCII], on the UTF-8 encoding:
    the text [int] reads, or nothing when a character is neither ASCII, nor
    white space, nor a decimal digit.  A code point is taken from one to
    four bytes; an encoding longer than needed, a surrogate and a value
    above 0x10FFFF are no UTF-8. *)
Fixpoint transform_decimal_and_space_to_ascii (bs : list ascii)
    : option (list ascii) :=
  match bs with
  | [] => Some []
  | b0 :: r0 =>
      let n0 := N_of_ascii b0 in
      if (n0 <? 128)%N then cons b0 <$> transform_decimal_and_space_to_ascii r0
      else
        match r0 with
        | b1 :: r1 =>
            if (n0 <? 224)%N then
              c1 ← continuation b1;
              let cp := ((n0 - 192) * 64 + c1)%N in
              if (n0 <? 192)%N || (cp <? 128)%N then None
              else a ← to_ascii cp;
                   cons a <$> transform_decimal_and_space_to_ascii r1
            else
              match r1 with
              | b2 :: r2 =>
                  if (n0 <? 240)%N then
                    c1 ← continuation b1; c2 ← continuation b2;
                    let cp := ((n0 - 224) * 4096 + c1 * 64 + c2)%N in
                    if (cp <? 2048)%N || (55296 <=? cp)%N && (cp <? 57344)%N
                    then None
                    else a ← to_ascii cp;
                         cons a <$> transform_decimal_and_space_to_ascii r2
                  else
                    match r2 with
                    | b3 :: r3 =>
                        c1 ← continuation b1; c2 ← continuation b2;
                        c3 ← continuation b3;
                        let cp := ((n0 - 240) * 262144 + c1 * 4096
                                   + c2 * 64 + c3)%N in
                        if (cp <? 65536)%N || (1114111 <? cp)%N then None
                        else a ← to_ascii cp;
                             cons a <$> transform_decimal_and_space_to_ascii r3
                    | [] => None
                    end
              | [] => None
              end
        | [] => None
        end
  end.

Definition py_int (s : string) : option Z :=
  cs ← transform_decimal_and_space_to_ascii (list_ascii_of_string s);
  match strip cs with
  | c :: cs =>
      if Ascii.eqb c "-" then Z.opp <$> int_digits cs 0%Z false
      else if Ascii.eqb c "+" then int_digits cs 0%Z false
      else int_digits (c :: cs) 0%Z false
  | [] => None
  end.

(** [str(n)] on an [int]. *)
Definition py_str (n : Z) : string := pretty n.

(** * azureml_adapter.py *)
Module AzuremlAdapter.

(** The process-wide state the module touches: [os.environ] and the lines
    written by [print]. *)
Record Process : Type := mkProcess {
  environ : gmap string string;
  stdout : list string
}.

(** [os.environ[name]] *)
Definition environ_get (name : string) : py Process string :=
  λ w, match environ w !! name with
       | Some v => (inr v, w)
       | None => (inl (KeyError name), w)
       end.

(** [os.environ[name] = value] *)
Definition environ_set (name value : string) : py Process unit :=
  λ w, (inr tt, mkProcess (<[name := value]> (environ w)) (stdout w)).

(** [name in os.environ] *)
Definition environ_contains (name : string) : py Process bool :=
  λ w, (inr (bool_decide (is_Some (environ w !! name))), w).

Definition print (line : string) : py Process unit :=
  λ w, (inr tt, mkProcess (environ w) (stdout w ++ [line])).

(** [lst[i]] on a list. *)
Definition getitem {A} (l : list A) (i : nat) : py Process A :=
  match l !! i with
  | Some x => ret x
  | None => raise (IndexError "list index out of range")
  end.

Definition set_environment_variables_for_nccl_backend
    (single_node : bool) (master_port : Z) : py Process unit :=
  rank ← environ_get "OMPI_COMM_WORLD_RANK";
  environ_set "RANK" rank;;
  size ← environ_get "OMPI_COMM_WORLD_SIZE";
  environ_set "WORLD_SIZE" size;;
  (if negb single_node then
     node ← environ_get "AZ_BATCH_MASTER_NODE";
     let master_node_params := split ":" node in
     addr ← getitem master_node_params 0;
     environ_set "MASTER_ADDR" addr;;
     has_port ← environ_contains "MASTER_PORT";
     if negb has_port then environ_set "MASTER_PORT" (py_str master_port)
     else ret tt
   else
     addr ← environ_get "AZ_BATCHAI_MPI_MASTER_NODE";
     environ_set "MASTER_ADDR" addr;;
     environ_set "MASTER_PORT" "54965");;
  old ← environ_get "NCCL_SOCKET_IFNAME";
  print ("NCCL_SOCKET_IFNAME original value = " ++ old);;
  environ_set "NCCL_SOCKET_IFNAME" "^docker0,lo";;
  v ← environ_get "RANK"; print ("RANK = " ++ v);;
  v ← environ_get "WORLD_SIZE"; print ("WORLD_SIZE = " ++ v);;
  v ← environ_get "MASTER_ADDR"; print ("MASTER_ADDR = " ++ v);;
  v ← environ_get "MASTER_PORT"; print ("MASTER_PORT = " ++ v);;
  v ← environ_get "NCCL_SOCKET_IFNAME";
  print ("NCCL_SOCKET_IFNAME new value = " ++ v).

(** [int(os.environ[name])] *)
Definition int_of_environ (name : string) : py Process Z :=
  v ← environ_get name;
  match py_int v with
  | Some n => ret n
  | None => raise (ValueError ("invalid literal for int() with base 10: " ++ v))
  end.

Definition get_local_rank : py Process Z := int_of_environ "OMPI_COMM_WORLD_LOCAL_RANK".
Definition get_global_size : py Process Z := int_of_environ "OMPI_COMM_WORLD_SIZE".
Definition get_local_size : py Process Z := int_of_environ "OMPI_COMM_WORLD_LOCAL_SIZE".
Definition get_world_size : py Process Z := int_of_environ "WORLD_SIZE".
Definition get_world_rank : py Process Z := int_of_environ "RANK".

(** ** The vocabulary of the statements about the adapter *)

(** The launcher variable the master address is taken from. *)
Definition master_variable (single_node : bool) : string :=
  if single_node then "AZ_BATCHAI_MPI_MASTER_NODE" else "AZ_BATCH_MASTER_NODE".

(** The environment once [MASTER_PORT] has been dealt with. *)
Definition port_after (single_node : bool) (master_port : Z)
    (env : gmap string string) : gmap string string :=
  if single_node then <["MASTER_PORT" := "54965"]> env
  else match env !! "MASTER_PORT" with
       | Some _ => env
       | None => <["MASTER_PORT" := py_str master_port]> env
       end.

(** The master address taken from the value of [master_variable]. *)
Definition addr_of (single_node : bool) (node : string) : string :=
  if single_node then node else default "" (head (split ":" node)).

(** The variables the configuring call reads before it writes them. *)
Definition required (single_node : bool) : list string :=
  ["OMPI_COMM_WORLD_RANK"; "OMPI_COMM_WORLD_SIZE"; master_variable single_node;
   "NCCL_SOCKET_IFNAME"].

Definition all_set (names : list string) (w : Process) : bool :=
  forallb (λ n, bool_decide (is_Some (environ w !! n))) names.

(** The five accessors, the variable each reads, and the function each is. *)
Inductive accessor : Type :=
  LocalRank | GlobalSize | LocalSize | WorldSize | WorldRank.

Definition variable_of (a : accessor) : string :=
  match a with
  | LocalRank => "OMPI_COMM_WORLD_LOCAL_RANK"
  | GlobalSize => "OMPI_COMM_WORLD_SIZE"
  | LocalSize => "OMPI_COMM_WORLD_LOCAL_SIZE"
  | WorldSize => "WORLD_SIZE"
  | WorldRank => "RANK"
  end.

Definition call (a : accessor) : py Process Z :=
  match a with
  | LocalRank => get_local_rank
  | GlobalSize => get_global_size
  | LocalSize => get_local_size
  | WorldSize => get_world_size
  | WorldRank => get_world_rank
  end.

(** A call into the module. *)
Inductive operation : Type :=
  | Configure (single_node : bool) (master_port : Z)
  | Access (a : accessor).

(** What an operation raised, if it raised. *)
Definition raised (op : operation) (w : Process) : option exn :=
  match op with
  | Configure single_node master_port =>
      match (set_environment_variables_for_nccl_backend single_node master_port w).1 with
      | inl e => Some e
      | inr _ => None
      end
  | Access a =>
      match (call a w).1 with
      | inl e => Some e
      | inr _ => None
      end
  end.

(** The launcher's rank or world size is absent when the configuring call
    is made; the variable behind an accessor is unset or holds what [int]
    does not parse. *)
Definition missing_or_unparseable (op : operation) (w : Process) : Prop :=
  match op with
  | Configure _ _ =>
      environ w !! "OMPI_COMM_WORLD_RANK" = None
      ∨ environ w !! "OMPI_COMM_WORLD_SIZE" = None
  | Access a =>
      match environ w !! variable_of a with
      | None => True
      | Some v => py_int v = None
      end
  end.

(** An environment as the launcher leaves it, for the examples. *)
Definition launcher_environment : gmap string string :=
  list_to_map [("OMPI_COMM_WORLD_RANK", "0"); ("OMPI_COMM_WORLD_SIZE", "4");
               ("AZ_BATCH_MASTER_NODE", "10.0.0.4");
               ("AZ_BATCHAI_MPI_MASTER_NODE", "10.0.0.4");
               ("NCCL_SOCKET_IFNAME", "eth0")].

(** The variable [name] is set to [value]. *)
Definition holds (name value : string) (w : Process) : Prop :=
  environ w !! name = Some value.

(** [m] keeps [I]: [I] holds of the state [m] leaves, raised or not. *)
Definition keeps {A} (I : Process → Prop) (m : py Process A) : Prop :=
  ∀ w, I w → I (m w).2.

(** ** More vocabulary: what the call reads, writes and prints *)

(** The variable [name] reads [o]: unset for [None]. *)
Definition reads (name : string) (o : option string) (w : Process) : Prop :=
  environ w !! name = o.

(** The variables the configuring call writes. *)
Definition written : list string :=
  ["RANK"; "WORLD_SIZE"; "MASTER_ADDR"; "MASTER_PORT"; "NCCL_SOCKET_IFNAME"].

(** The lines a returning call prints, from the original interface value
    and the four values in effect. *)
Definition report (old rank size addr port : string) : list string :=
  ["NCCL_SOCKET_IFNAME original value = " ++ old;
   "RANK = " ++ rank;
   "WORLD_SIZE = " ++ size;
   "MASTER_ADDR = " ++ addr;
   "MASTER_PORT = " ++ port;
   "NCCL_SOCKET_IFNAME new value = ^docker0,lo"].

(** What a call has printed: the report when it returned, nothing when it
    raised. *)
Definition printed (w : Process) (r : (exn + unit) * Process) : list string :=
  if returns r then
    report (default "" (environ w !! "NCCL_SOCKET_IFNAME"))
           (default "" (environ r.2 !! "RANK"))
           (default "" (environ r.2 !! "WORLD_SIZE"))
           (default "" (environ r.2 !! "MASTER_ADDR"))
           (default "" (environ r.2 !! "MASTER_PORT"))
  else [].

End AzuremlAdapter.

(** * bert_dataset.py *)
Module BertDataset.

(** [args] of [bert_runner.arguments]: the two settings this file reads. *)
Record Args : Type := mkArgs {
  max_seq_length : Z;
  max_predictions_per_seq : Z
}.

(** ** torch on one-dimensional int64 tensors *)
Abbreviation tensor := (list Z) (only parsing).

(** [t[:n]], with Python's reading of a negative bound. *)
Definition slice_to {A} (t : list A) (n : Z) : list A :=
  if (n <? 0)%Z then take (Z.to_nat (Z.of_nat (length t) + n)) t
  else take (Z.to_nat n) t.

(** [mask.nonzero(as_tuple=False)]: the indices at which [mask] holds,
    ascending. *)
Fixpoint nonzero_from (i : nat) (mask : list bool) : list nat :=
  match mask with
  | [] => []
  | b :: mask' =>
      if b then i :: nonzero_from (S i) mask' else nonzero_from (S i) mask'
  end.
Definition nonzero (mask : list bool) : list nat := nonzero_from 0 mask.

(** [t == 0] *)
Definition eq_zero (t : tensor) : list bool := (λ p, (p =? 0)%Z) <$> t.

(** [torch.ones([n], dtype=torch.int64) * -1] *)
Definition ones_times_minus_one (n : Z) : exn + tensor :=
  if (n <? 0)%Z then inl (RuntimeError "negative dimension")
  else inr (replicate (Z.to_nat n) (-1)%Z).

(** An index into a dimension of [size] entries: negative indices count from
    the end, anything outside [-size, size) is refused. *)
Definition wrap_index (size : nat) (i : Z) : exn + nat :=
  if ((i <? - Z.of_nat size) || (Z.of_nat size <=? i))%Z
  then inl (IndexError "index out of range in self")
  else inr (Z.to_nat (if (i <? 0)%Z then i + Z.of_nat size else i)).

(** The writes of [t[idx] = vals], entry by entry in index order. *)
Fixpoint index_put (t : tensor) (idx vals : list Z) : exn + tensor :=
  match idx, vals with
  | i :: idx', v :: vals' =>
      match wrap_index (length t) i with
      | inl e => inl e
      | inr k => index_put (<[k := v]> t) idx' vals'
      end
  | _, _ => inr t
  end.

(** [t[idx] = vals]: [vals] has the shape of [idx] or is broadcast from a
    single entry. *)
Definition setitem (t : tensor) (idx vals : list Z) : exn + tensor :=
  if bool_decide (length vals = length idx) then index_put t idx vals
  else match vals with
       | [v] => index_put t idx (replicate (length idx) v)
       | _ => inl (RuntimeError "shape mismatch")
       end.

(** ** Shard files *)

(** An HDF5 shard: six named columns.  The first five hold one int row per
    sample, the last one a scalar per sample. *)
Record Shard : Type := mkShard {
  input_ids : list (list Z);
  segment_ids : list (list Z);
  input_mask : list (list Z);
  masked_lm_positions : list (list Z);
  masked_lm_ids : list (list Z);
  next_sentence_labels : list Z
}.

(** What [__getitem__] hands to the trainer. *)
Record Sample : Type := mkSample {
  s_input_ids : tensor;
  s_segment_ids : tensor;
  s_input_mask : tensor;
  s_masked_lm_labels : tensor;
  s_next_sentence_labels : Z
}.

Abbreviation Batch := (list Sample) (only parsing).

(** The machine the loader runs on: the shard files on disk, the parsed
    command line, and what [distributed.ensure_no_core_restriction] does
    when called ([None]: it returns). *)
Record Host : Type := mkHost {
  disk : gmap string Shard;
  args : Args;
  core_restriction : option exn
}.

Record BertSingleFileDataset : Type := mkDataset { bulk_data : Shard }.

(** [torch.utils.data.DataLoader(dataset, batch_size, num_workers,
    pin_memory=True, drop_last=True)] *)
Record DataLoader : Type := mkDataLoader {
  dl_dataset : BertSingleFileDataset;
  dl_batch_size : Z;
  dl_num_workers : Z
}.

(** ** The loader object and what surrounds it *)

(** A task handed to the process pool: the arguments of
    [_singlefile_dataloader_factory], and as ghost fields a serial number and
    the shard index it was requested for. *)
Record Task : Type := mkTask {
  t_id : nat;
  t_index : Z;
  t_file : string;
  t_batch_size : Z;
  t_shuffle : bool;
  t_num_workers : Z
}.

(** [concurrent.futures.ProcessPoolExecutor(1)]: one worker, which takes the
    submitted tasks in order.  [queue] holds the tasks submitted and not yet
    awaited, which are the ones that may still be running. *)
Record Pool : Type := mkPool {
  queue : list Task;
  submitted : nat
}.

(** An attribute that [del] can remove from the object. *)
Inductive slot (A : Type) : Type :=
  | Deleted
  | PyNone
  | Obj (a : A).
Arguments Deleted {A}.
Arguments PyNone {A}.
Arguments Obj {A} a.

(** The address of a list object. *)
Abbreviation loc := nat (only parsing).

Record Loader : Type := mkLoader {
  num_workers : Z;
  files : loc;
  batch_size : Z;
  loop : bool;
  shuffle : bool;
  file_index : Z;
  sample_index : Z;
  pool : option Pool;
  dataset : slot DataLoader;
  future_dataset : option Task
}.

(** The state a loader runs in.  [lists] is the store of list objects,
    [py_random] and [np_random] are the draws still to come from [random]
    in the constructing process and from [numpy.random] in the pool worker.
    [peak_in_flight] and [peak_resident] are history variables: the largest
    number of awaited-for loads, and of shard datasets held (the current one
    plus the loads under way), seen so far. *)
Record World : Type := mkWorld {
  host : Host;
  lists : gmap loc (list string);
  py_random : list nat;
  np_random : list nat;
  self : Loader;
  peak_in_flight : nat;
  peak_resident : nat
}.

(** ** Plumbing *)

#[global] Instance sum_ret : MRet (sum exn) := λ A a, inr a.
#[global] Instance sum_bind : MBind (sum exn) := λ A B k m,
  match m with inr a => k a | inl e => inl e end.
#[global] Instance sum_fmap : FMap (sum exn) := λ A B f m,
  match m with inr a => inr (f a) | inl e => inl e end.

Definition lift {St A} (r : exn + A) : py St A := λ s, (r, s).
Definition gets {St A} (f : St → A) : py St A := λ s, (inr (f s), s).
Definition modify {St} (f : St → St) : py St unit := λ s, (inr tt, f s).

(** Run a block and drop what it returned or raised. *)
Definition attempt {St A} (m : py St A) : py St unit := λ s, (inr tt, (m s).2).

Definition with_self (f : Loader → Loader) (w : World) : World :=
  mkWorld (host w) (lists w) (py_random w) (np_random w) (f (self w))
          (peak_in_flight w) (peak_resident w).

Definition set_file_index (v : Z) (s : Loader) : Loader :=
  mkLoader (num_workers s) (files s) (batch_size s) (loop s) (shuffle s)
           v (sample_index s) (pool s) (dataset s) (future_dataset s).
Definition set_sample_index (v : Z) (s : Loader) : Loader :=
  mkLoader (num_workers s) (files s) (batch_size s) (loop s) (shuffle s)
           (file_index s) v (pool s) (dataset s) (future_dataset s).
Definition set_pool (v : option Pool) (s : Loader) : Loader :=
  mkLoader (num_workers s) (files s) (batch_size s) (loop s) (shuffle s)
           (file_index s) (sample_index s) v (dataset s) (future_dataset s).
Definition set_dataset (v : slot DataLoader) (s : Loader) : Loader :=
  mkLoader (num_workers s) (files s) (batch_size s) (loop s) (shuffle s)
           (file_index s) (sample_index s) (pool s) v (future_dataset s).
Definition set_future_dataset (v : option Task) (s : Loader) : Loader :=
  mkLoader (num_workers s) (files s) (batch_size s) (loop s) (shuffle s)
           (file_index s) (sample_index s) (pool s) (dataset s) v.

(** ** Shuffling *)

Definition draw (rng : list nat) : nat * list nat :=
  match rng with
  | r :: rng' => (r, rng')
  | [] => (0, [])
  end.

(** [x[i], x[j] = x[j], x[i]] *)
Definition swap {A} (x : list A) (i j : nat) : list A :=
  match x !! i, x !! j with
  | Some a, Some b => <[j := a]> (<[i := b]> x)
  | _, _ => x
  end.

(** The loop of [random.shuffle] and of [numpy.random.shuffle]:
    [for i in reversed(range(1, len(x))): j = randbelow(i + 1); swap]. *)
Fixpoint shuffle_from {A} (i : nat) (x : list A) (rng : list nat)
    : list A * list nat :=
  match i with
  | 0 => (x, rng)
  | S i' =>
      let '(r, rng') := draw rng in
      let j := r mod (S (S i')) in
      shuffle_from i' (swap x (S i') j) rng'
  end.

Definition shuffled {A} (x : list A) (rng : list nat) : list A * list nat :=
  shuffle_from (length x - 1) x rng.

(** [random.shuffle(x)] on the list object at [l], in the constructing
    process. *)
Definition random_shuffle (l : loc) : py World unit := λ w,
  match lists w !! l with
  | Some x =>
      let '(x', rng') := shuffled x (py_random w) in
      (inr tt, mkWorld (host w) (<[l := x']> (lists w)) rng' (np_random w)
                       (self w) (peak_in_flight w) (peak_resident w))
  | None => (inl (AttributeError "shuffle"), w)
  end.

(** [numpy.random.shuffle(indices)], in the pool worker. *)
Definition numpy_random_shuffle (indices : list nat) : py World (list nat) := λ w,
  let '(x', rng') := shuffled indices (np_random w) in
  (inr x', mkWorld (host w) (lists w) (py_random w) rng' (self w)
                   (peak_in_flight w) (peak_resident w)).

(** [column[indices]] on a numpy array. *)
Fixpoint take_rows {A} (column : list A) (indices : list nat) : exn + list A :=
  match indices with
  | [] => inr []
  | i :: indices' =>
      match column !! i with
      | Some row => cons row <$> take_rows column indices'
      | None => inl (IndexError "index out of bounds")
      end
  end.

(** ** BertSingleFileDataset *)

(** Modelled from the spec: [distributed.ensure_no_core_restriction], whose
    module is not part of the sources at hand; it returns or fails as the
    host says. *)
Definition ensure_no_core_restriction : py World unit := λ w,
  match core_restriction (host w) with
  | Some e => (inl e, w)
  | None => (inr tt, w)
  end.

(** [h5py.File(path, 'r')] followed by the reads of the six columns. *)
Definition h5py_File (path : string) : py World Shard := λ w,
  match disk (host w) !! path with
  | Some data => (inr data, w)
  | None => (inl (OSError path), w)
  end.

Definition BertSingleFileDataset__init__ (hdf5_filepath : string)
    (shuffle : bool) : py World BertSingleFileDataset :=
  ensure_no_core_restriction;;
  hdf5_data ← h5py_File hdf5_filepath;
  if shuffle then
    indices ← numpy_random_shuffle (seq 0 (length (input_ids hdf5_data)));
    c1 ← lift (take_rows (input_ids hdf5_data) indices);
    c2 ← lift (take_rows (segment_ids hdf5_data) indices);
    c3 ← lift (take_rows (input_mask hdf5_data) indices);
    c4 ← lift (take_rows (masked_lm_positions hdf5_data) indices);
    c5 ← lift (take_rows (masked_lm_ids hdf5_data) indices);
    c6 ← lift (take_rows (next_sentence_labels hdf5_data) indices);
    ret (mkDataset (mkShard c1 c2 c3 c4 c5 c6))
  else ret (mkDataset hdf5_data).

Definition BertSingleFileDataset__len__ (ds : BertSingleFileDataset) : nat :=
  length (input_ids (bulk_data ds)).

Definition _get_masked_token_count (a : Args) (masked_lm_positions : tensor) : Z :=
  let padded_mask_indices := nonzero (eq_zero masked_lm_positions) in
  match padded_mask_indices with
  | [] => max_predictions_per_seq a
  | i :: _ => Z.of_nat i
  end.

Definition _build_masked_lm_labels (a : Args)
    (masked_lm_positions masked_lm_ids : tensor) : exn + tensor :=
  let masked_token_count := _get_masked_token_count a masked_lm_positions in
  masked_lm_labels ← ones_times_minus_one (max_seq_length a);
  setitem masked_lm_labels
          (slice_to masked_lm_positions masked_token_count)
          (slice_to masked_lm_ids masked_token_count).

(** [column[index]] *)
Definition row {A} (column : list A) (index : nat) : exn + A :=
  match column !! index with
  | Some r => inr r
  | None => inl (IndexError "index out of bounds")
  end.

Definition BertSingleFileDataset__getitem__ (a : Args)
    (ds : BertSingleFileDataset) (index : nat) : exn + Sample :=
  let d := bulk_data ds in
  ids ← row (input_ids d) index;
  seg ← row (segment_ids d) index;
  mask ← row (input_mask d) index;
  positions ← row (masked_lm_positions d) index;
  values ← row (masked_lm_ids d) index;
  nsl ← row (next_sentence_labels d) index;
  masked_lm_labels ← _build_masked_lm_labels a positions values;
  mret (mkSample ids seg mask masked_lm_labels nsl).

(** ** The batching done by torch's DataLoader *)

Definition DataLoader__init__ (ds : BertSingleFileDataset)
    (batch_size num_workers : Z) : exn + DataLoader :=
  if (num_workers <? 0)%Z then inl (ValueError "num_workers")
  else if (batch_size <=? 0)%Z then inl (ValueError "batch_size")
  else inr (mkDataLoader ds batch_size num_workers).

(** [BatchSampler] with [drop_last=True] over the indices in order: an index
    is appended to the open batch, which is given out when it is full; an
    open batch left at the end is not given out. *)
Fixpoint batch_sampler (size : nat) (sampler : list nat) (batch : list nat)
    : list (list nat) :=
  match sampler with
  | [] => []
  | idx :: sampler' =>
      let batch' := (batch ++ [idx])%list in
      if (length batch' =? size)%nat then batch' :: batch_sampler size sampler' []
      else batch_sampler size sampler' batch'
  end.

(** The index batches an iterator over the loader will ask for. *)
Definition batches_of (dl : DataLoader) : list (list nat) :=
  batch_sampler (Z.to_nat (dl_batch_size dl))
                (seq 0 (BertSingleFileDataset__len__ (dl_dataset dl))) [].

(** One batch: the samples at the indices, in order. *)
Fixpoint fetch (a : Args) (ds : BertSingleFileDataset) (idxs : list nat)
    : exn + Batch :=
  match idxs with
  | [] => inr []
  | i :: idxs' =>
      sample ← BertSingleFileDataset__getitem__ a ds i;
      cons sample <$> fetch a ds idxs'
  end.

Definition _singlefile_dataloader_factory (filepath : string) (batch_size : Z)
    (shuffle : bool) (num_workers : Z) : py World DataLoader :=
  ensure_no_core_restriction;;
  ds ← BertSingleFileDataset__init__ filepath shuffle;
  lift (DataLoader__init__ ds batch_size num_workers).

(** ** The process pool *)

Definition resident_now (s : Loader) : nat :=
  (match dataset s with Obj _ => 1 | _ => 0 end
   + match pool s with Some p => length (queue p) | None => 0 end)%nat.

Definition in_flight_now (s : Loader) : nat :=
  match pool s with Some p => length (queue p) | None => 0 end.

(** Bring the two history variables up to date. *)
Definition record_peaks (w : World) : World :=
  mkWorld (host w) (lists w) (py_random w) (np_random w) (self w)
          (peak_in_flight w `max` in_flight_now (self w))
          (peak_resident w `max` resident_now (self w)).

(** [self.pool.submit(_singlefile_dataloader_factory, file, ...)] *)
Definition submit (index : Z) (file : string) (batch_size : Z) (shuffle : bool)
    (num_workers : Z) : py World Task := λ w,
  match pool (self w) with
  | Some p =>
      let t := mkTask (submitted p) index file batch_size shuffle num_workers in
      let p' := mkPool (queue p ++ [t]) (S (submitted p)) in
      (inr t, record_peaks (with_self (set_pool (Some p')) w))
  | None => (inl (AttributeError "submit"), w)
  end.

Definition run_task (t : Task) : py World DataLoader :=
  _singlefile_dataloader_factory (t_file t) (t_batch_size t) (t_shuffle t)
                                 (t_num_workers t).

Definition is_task (f t : Task) : bool := (t_id t =? t_id f)%nat.

(** The worker on its way to [f]: the tasks queued ahead of [f] are run and
    their outcome stays with their own futures; what is queued behind [f]
    is returned. *)
Fixpoint work_up_to (f : Task) (q : list Task) : py World (list Task) :=
  match q with
  | [] => ret []
  | t :: q' =>
      if is_task f t then ret q'
      else attempt (run_task t);; work_up_to f q'
  end.

(** [future.result(timeout=None)] *)
Definition result (f : Task) : py World DataLoader :=
  s ← gets self;
  match pool s with
  | Some p =>
      if existsb (is_task f) (queue p) then
        q' ← work_up_to f (queue p);
        modify (with_self (set_pool (Some (mkPool q' (submitted p)))))
      else ret tt
  | None => ret tt
  end;;
  run_task f.

(** ** BertMultiFileDataloader *)

(** The constructor.  The attributes are written in one go after the
    shuffle, which reads none of them and cannot fail on a list. *)
Definition BertMultiFileDataloader__init__ (files : loc) (batch_size : Z)
    (shuffle loop : bool) (num_workers : Z) : py World unit :=
  (if shuffle then random_shuffle files else ret tt);;
  modify (with_self (λ _,
    mkLoader num_workers files batch_size loop shuffle 0 0 None PyNone None)).

Definition _create_poolworker_if_not_exists : py World unit :=
  s ← gets self;
  match pool s with
  | None => modify (with_self (set_pool (Some (mkPool [] 0))))
  | Some _ => ret tt
  end.

Definition _destroy_poolworker_if_exists : py World unit :=
  modify (with_self (set_pool None)).

Definition _destroy_datasets_if_exist : py World unit :=
  s ← gets self;
  match dataset s with
  | Deleted => raise (AttributeError "dataset")
  | _ =>
      modify (with_self (set_dataset PyNone));;
      modify (with_self (set_future_dataset None))
  end.

Definition _fetch_future_dataset_or_none (index : Z) : py World unit :=
  s ← gets self;
  fl ← (λ w, match lists w !! files s with
             | Some fl => (inr fl, w)
             | None => (inl (AttributeError "files"), w)
             end);
  if loop s || (index <? Z.of_nat (length fl))%Z then
    match fl with
    | [] => raise (ZeroDivisionError "integer division or modulo by zero")
    | _ =>
        match fl !! Z.to_nat (index `mod` Z.of_nat (length fl)) with
        | Some next_file =>
            f ← submit index next_file (batch_size s) (shuffle s) (num_workers s);
            modify (with_self (set_future_dataset (Some f)))
        | None => raise (IndexError "list index out of range")
        end
    end
  else modify (with_self (set_future_dataset None)).

Definition reset : py World unit :=
  modify (with_self (set_file_index 0));;
  modify (with_self (set_sample_index 0));;
  _destroy_datasets_if_exist;;
  _destroy_poolworker_if_exists.

(** The generator made by [__iter__]: not started, parked at its [yield],
    or done.  A parked generator holds the iterator of the [for] loop: the
    loader it runs over and the index batches still to come.  [src] is a
    ghost field, the shard index that loader was requested for. *)
Inductive Frame : Type :=
  | Created
  | Suspended (src : Z) (dl : DataLoader) (rest : list (list nat))
  | Finished.

(** What resuming the generator gives its caller.  [Unfinished] stands for a
    run that has used up the bound on turns of the [while] loop. *)
Inductive Outcome : Type :=
  | Yield (batch : Batch) (fr : Frame)
  | StopIteration
  | Unfinished.

(** [for batch in self.dataset: yield batch; ...], entered at the head of the
    loop; [continue] is what follows the loop. *)
Definition for_batch_in_dataset (src : Z) (dl : DataLoader)
    (rest : list (list nat)) (continue : py World Outcome) : py World Outcome :=
  match rest with
  | idxs :: rest' =>
      a ← gets (λ w, args (host w));
      batch ← lift (fetch a (dl_dataset dl) idxs);
      ret (Yield batch (Suspended src dl rest'))
  | [] =>
      s ← gets self;
      modify (with_self (set_file_index (file_index s + 1)));;
      modify (with_self (set_sample_index 0));;
      continue
  end.

(** [while self.future_dataset is not None: ...] and the [reset] after it. *)
Fixpoint while_future_dataset (turns : nat) : py World Outcome :=
  match turns with
  | 0 => ret Unfinished
  | S turns' =>
      s ← gets self;
      match future_dataset s with
      | None => reset;; ret StopIteration
      | Some f =>
          match dataset s with
          | Deleted => raise (AttributeError "dataset")
          | _ => modify (with_self (set_dataset Deleted))
          end;;
          dl ← result f;
          modify (with_self (set_dataset (Obj dl)));;
          s ← gets self;
          _fetch_future_dataset_or_none (file_index s + 1);;
          for_batch_in_dataset (t_index f) dl (batches_of dl)
                               (while_future_dataset turns')
      end
  end.

(** Calling [__iter__] makes the generator; nothing of its body runs yet. *)
Definition BertMultiFileDataloader__iter__ : Frame := Created.

(** [next] on the generator. *)
Definition resume (turns : nat) (fr : Frame) : py World Outcome :=
  match fr with
  | Created =>
      _create_poolworker_if_not_exists;;
      s ← gets self;
      _fetch_future_dataset_or_none (file_index s);;
      while_future_dataset turns
  | Suspended src dl rest =>
      s ← gets self;
      modify (with_self (set_sample_index (sample_index s + batch_size s)));;
      for_batch_in_dataset src dl rest (while_future_dataset turns)
  | Finished => ret StopIteration
  end.

(** [for idx, _ in enumerate(self): if count <= idx: break], returning the
    batches that were bound to [_]. *)
Fixpoint forward_enumerate (turns : nat) (count idx : Z) (fr : Frame)
    (steps : nat) : py World (option (list Batch)) :=
  match steps with
  | 0 => ret None
  | S steps' =>
      o ← resume turns fr;
      match o with
      | Unfinished => ret None
      | StopIteration => ret (Some [])
      | Yield b fr' =>
          if (count <=? idx)%Z then ret (Some [b])
          else
            more ← forward_enumerate turns count (idx + 1) fr' steps';
            ret (cons b <$> more)
      end
  end.

(** [forward(count)], with a bound on the turns of its loops; [None] when the
    bound was reached, else the batches it drew and dropped. *)
Definition forward (bound : nat) (count : Z) : py World (option (list Batch)) :=
  drawn ← forward_enumerate bound count 0 BertMultiFileDataloader__iter__ bound;
  match drawn with
  | None => ret None
  | Some bs =>
      _destroy_datasets_if_exist;;
      _destroy_poolworker_if_exists;;
      ret (Some bs)
  end.

(** [list(loader)]: the generator driven until it stops. *)
Fixpoint consume (turns : nat) (fr : Frame) (steps : nat)
    : py World (option (list Batch)) :=
  match steps with
  | 0 => ret None
  | S steps' =>
      o ← resume turns fr;
      match o with
      | Unfinished => ret None
      | StopIteration => ret (Some [])
      | Yield b fr' =>
          more ← consume turns fr' steps';
          ret (cons b <$> more)
      end
  end.

(** ** The vocabulary of the statements about the loader *)

(** The count as the document words it: the first zero among the first
    [max_predictions] entries, else [max_predictions]. *)
Definition masked_token_count_as_specified (a : Args) (masked_positions : tensor) : Z :=
  match list_find (λ p, p = 0%Z)
          (take (Z.to_nat (max_predictions_per_seq a)) masked_positions) with
  | Some (i, _) => Z.of_nat i
  | None => max_predictions_per_seq a
  end.

(** The dense label as the document words it, for the listed positions
    [masked_positions[:masked_token_count]]. *)
Definition dense_label_as_specified (a : Args)
    (masked_positions masked_values labels : tensor) : Prop :=
  let count := _get_masked_token_count a masked_positions in
  let listed := slice_to masked_positions count in
  length labels = Z.to_nat (max_seq_length a)
  ∧ (∀ i p, listed !! i = Some p →
       ∃ v, masked_values !! i = Some v ∧ labels !! Z.to_nat p = Some v)
  ∧ (∀ j, (j < Z.to_nat (max_seq_length a))%nat → Z.of_nat j ∉ listed →
       labels !! j = Some (-1)%Z).

(** [w] with other draws left for the worker. *)
Definition set_np (rng : list nat) (w : World) : World :=
  mkWorld (host w) (lists w) (py_random w) rng (self w)
          (peak_in_flight w) (peak_resident w).

(** The label reconstruction accepts the row. *)
Definition reconstructs (a : Args) (positions values : list Z) : Prop :=
  ∃ labels, _build_masked_lm_labels a positions values = inr labels.

(** A shard of [n] samples: six columns of [n] rows, and in every row
    masked positions that the label reconstruction accepts. *)
Definition well_formed (a : Args) (n : nat) (d : Shard) : Prop :=
  length (input_ids d) = n ∧ length (segment_ids d) = n
  ∧ length (input_mask d) = n ∧ length (masked_lm_positions d) = n
  ∧ length (masked_lm_ids d) = n ∧ length (next_sentence_labels d) = n
  ∧ Forall2 (reconstructs a) (masked_lm_positions d) (masked_lm_ids d).

(** [consume], entered with the outcome of a [next] still to come. *)
Definition consume_from (o : py World Outcome) (turns steps : nat)
    : py World (option (list Batch)) :=
  o ≫= λ o,
    match o with
    | Unfinished => ret None
    | StopIteration => ret (Some [])
    | Yield b fr' =>
        more ← consume turns fr' steps;
        ret (cons b <$> more)
    end.

(** [m] changes nothing but the worker's random draws. *)
Definition only_np {A} (m : py World A) : Prop :=
  ∀ w, ∃ rng, (m w).2 = set_np rng w.

(** One load at most in flight and two datasets at most held, so far and
    now. *)
Definition within_bounds (w : World) : Prop :=
  (peak_in_flight w ≤ 1)%nat ∧ (peak_resident w ≤ 2)%nat
  ∧ (in_flight_now (self w) ≤ 1)%nat ∧ (resident_now (self w) ≤ 2)%nat.

(** The load under way, if there is one, is the only one and is for the
    shard after [src]. *)
Definition prefetch_one_ahead (src : Z) (s : Loader) : Prop :=
  match future_dataset s with
  | Some f => t_index f = (src + 1)%Z ∧ ∃ p, pool s = Some p ∧ queue p = [f]
  | None => in_flight_now s = 0%nat
  end.

(** The loader as the constructor, [reset], [forward] and a finished
    iteration leave it. *)
Definition torn_down (s : Loader) : Prop :=
  pool s = None ∧ dataset s = PyNone ∧ future_dataset s = None.

(** What holds of the loader between two steps of an iteration whose
    generator is [fr]. *)
Definition streaming_invariant (w : World) (fr : Frame) : Prop :=
  within_bounds w
  ∧ match fr with
    | Created => torn_down (self w)
    | Suspended src dl rest =>
        dataset (self w) = Obj dl ∧ file_index (self w) = src
        ∧ prefetch_one_ahead src (self w)
    | Finished => True
    end.

(** One step of the consumer: [next] on the generator, which yields and
    parks it again, or ends it. *)
Inductive iter_step : World * Frame → World * Frame → Prop :=
  | iter_yield turns w fr b fr' w' :
      resume turns fr w = (inr (Yield b fr'), w') →
      iter_step (w, fr) (w', fr')
  | iter_end turns w fr r w' :
      resume turns fr w = (r, w') →
      (∀ b fr', r ≠ inr (Yield b fr')) →
      iter_step (w, fr) (w', Finished).

(** At the head of the [while] loop. *)
Definition loop_head (w : World) : Prop :=
  within_bounds w
  ∧ match future_dataset (self w) with
    | Some f => t_index f = file_index (self w)
                ∧ ∃ p, pool (self w) = Some p ∧ queue p = [f]
    | None => in_flight_now (self w) = 0%nat
    end.

(** What a [next] must establish. *)
Definition step_ok (r : (exn + Outcome) * World) : Prop :=
  match r.1 with
  | inr (Yield b fr') => streaming_invariant r.2 fr'
  | _ => within_bounds r.2
  end.

(** [k] times [next] on the generator, each of them yielding: the batches
    and the parked generator, or [None] when one of them did not yield. *)
Fixpoint draw_batches (turns k : nat) (fr : Frame)
    : py World (option (list Batch * Frame)) :=
  match k with
  | 0 => ret (Some ([], fr))
  | S k' =>
      o ← resume turns fr;
      match o with
      | Yield b fr' =>
          more ← draw_batches turns k' fr';
          ret ((λ r, (b :: r.1, r.2)) <$> more)
      | _ => ret None
      end
  end.

(** [draw_batches], entered with the outcome of a [next] still to come. *)
Definition then_draw (o : py World Outcome) (turns k : nat)
    : py World (option (list Batch * Frame)) :=
  o ≫= λ o,
    match o with
    | Yield b fr' =>
        more ← draw_batches turns k fr';
        ret ((λ r, (b :: r.1, r.2)) <$> more)
    | _ => ret None
    end.

(** The state [forward] leaves once its loop has ended in [w]. *)
Definition torn (w : World) : World :=
  with_self (set_pool None)
    (with_self (set_future_dataset None) (with_self (set_dataset PyNone) w)).

(** [self.dataset] is a loader object. *)
Definition holds_dataset (s : Loader) : Prop :=
  match dataset s with Obj _ => True | _ => False end.

(** A [next] that yields leaves [self.dataset] a loader object. *)
Definition yields_with_dataset (r : (exn + Outcome) * World) : Prop :=
  match r.1 with
  | inr (Yield _ _) => holds_dataset (self r.2)
  | _ => True
  end.

(** ** A small installation to run the loader on *)

(** A shard of [n] samples, each with one masked position. *)
Definition example_shard (n : nat) : Shard :=
  let ks := (λ i, Z.of_nat i) <$> seq 0 n in
  mkShard ((λ k, [k; k; k; k]%Z) <$> ks) ((λ _, [0; 0; 1; 1]%Z) <$> ks)
          ((λ _, [1; 1; 1; 1]%Z) <$> ks) ((λ _, [2; 0]%Z) <$> ks)
          ((λ k, [k + 10; 0]%Z) <$> ks) ks.

(** Two shards on disk, of five and of three samples. *)
Definition example_host : Host :=
  mkHost (<["a.h5" := example_shard 5]> {["b.h5" := example_shard 3]})
         (mkArgs 4 2) None.

(** Two list objects: at 7 the two-shard list, at 8 a one-shard list. *)
Definition example_world : World :=
  mkWorld example_host (<[7%nat := ["a.h5"; "b.h5"]]> {[8%nat := ["a.h5"]]})
          [0%nat] []
          (mkLoader 0 0 0 false false 0 0 None PyNone None) 0 0.

(** The two-shard loader, batch size 2, just built. *)
Definition example_built : World :=
  (BertMultiFileDataloader__init__ 7 2 false false 1 example_world).2.

(** Projections of the outcome of a run, for the examples. *)
Definition drawn (r : (exn + option (list Batch)) * World) : option nat :=
  match r.1 with
  | inr (Some bs) => Some (length bs)
  | _ => None
  end.

Definition cursor (w : World) : Z * Z :=
  (file_index (self w), sample_index (self w)).

Definition yielded (r : (exn + Outcome) * World) : option Batch :=
  match r.1 with
  | inr (Yield b _) => Some b
  | _ => None
  end.

Definition parked (r : (exn + Outcome) * World) : Frame :=
  match r.1 with
  | inr (Yield _ fr) => fr
  | _ => Finished
  end.

Definition drawn_batches (r : (exn + option (list Batch * Frame)) * World)
    : list Batch * Frame :=
  match r.1 with
  | inr (Some x) => x
  | _ => ([], Finished)
  end.

(** ** More vocabulary: shards and passes over them *)

(** Six columns of [n] rows. *)
Definition six_columns (n : nat) (d : Shard) : Prop :=
  length (input_ids d) = n ∧ length (segment_ids d) = n
  ∧ length (input_mask d) = n ∧ length (masked_lm_positions d) = n
  ∧ length (masked_lm_ids d) = n ∧ length (next_sentence_labels d) = n.

(** The shard file is on disk, with six columns of as many rows, in each of
    which the label reconstruction accepts the masked positions. *)
Definition loadable (h : Host) (path : string) : Prop :=
  ∃ d, disk h !! path = Some d ∧ well_formed (args h) (length (input_ids d)) d.

(** The number of samples in a shard file. *)
Definition samples_in (h : Host) (path : string) : nat :=
  match disk h !! path with
  | Some d => length (input_ids d)
  | None => 0
  end.

(** The number of whole batches in the shard files of a list. *)
Definition batches_in (h : Host) (size : Z) (fl : list string) : nat :=
  sum_list ((λ path, samples_in h path / Z.to_nat size)%nat <$> fl).

(** [chunk] is one pass over the shard file [path]: the batches, in order,
    of a dataset [d'] of as many rows as the file has, which is the file's
    content when nothing is shuffled. *)
Definition shard_chunk (h : Host) (size : Z) (sh : bool) (nw : Z)
    (path : string) (chunk : list Batch) : Prop :=
  ∃ d d', disk h !! path = Some d
    ∧ (sh = false → d' = d)
    ∧ length (input_ids d') = length (input_ids d)
    ∧ Forall2 (λ idxs b, fetch (args h) (mkDataset d') idxs = inr b)
              (batches_of (mkDataLoader (mkDataset d') size nw)) chunk.

(** The load pending for the shard of index [j], if the list has one. *)
Definition pending (fl : list string) (size : Z) (sh : bool) (nw : Z) (j : nat)
    (s : Loader) : Prop :=
  match fl !! j with
  | Some path =>
      ∃ t p, future_dataset s = Some t ∧ t_file t = path
           ∧ t_batch_size t = size ∧ t_shuffle t = sh ∧ t_num_workers t = nw
           ∧ pool s = Some p ∧ queue p = [t]
  | None => future_dataset s = None
  end.

(** A non-looping loader over the list [fl], on the host [h], with the
    cursor at shard [i]. *)
Definition set_up (h : Host) (fl : list string) (size : Z) (sh : bool) (nw : Z)
    (i : nat) (w : World) : Prop :=
  host w = h ∧ lists w !! files (self w) = Some fl ∧ loop (self w) = false
  ∧ batch_size (self w) = size ∧ shuffle (self w) = sh
  ∧ num_workers (self w) = nw
  ∧ file_index (self w) = Z.of_nat i ∧ dataset (self w) ≠ Deleted.

(** Such a loader with the load for shard [j] pending. *)
Definition at_shard (h : Host) (fl : list string) (size : Z) (sh : bool) (nw : Z)
    (i j : nat) (w : World) : Prop :=
  set_up h fl size sh nw i w ∧ pending fl size sh nw j (self w).

(** The run gave [first], then one pass over each of the files [rest], and
    left the loader reset. *)
Definition finishes (h : Host) (size : Z) (sh : bool) (nw : Z)
    (first : list Batch) (rest : list string)
    (r : (exn + option (list Batch)) * World) : Prop :=
  ∃ chunks, r.1 = inr (Some (first ++ concat chunks)%list)
    ∧ Forall2 (shard_chunk h size sh nw) rest chunks
    ∧ torn_down (self r.2) ∧ cursor r.2 = (0, 0)%Z.

(** What a [next] gives when the iteration cannot end: never
    [StopIteration], and a parked generator with a load pending. *)
Definition goes_on (r : (exn + Outcome) * World) : Prop :=
  match r.1 with
  | inr StopIteration => False
  | inr (Yield _ fr') =>
      fr' ≠ Finished ∧ loop (self r.2) = true
      ∧ is_Some (future_dataset (self r.2))
  | _ => True
  end.

(** What a [next] leaves when the iteration ends: the loader reset. *)
Definition ends_reset (r : (exn + Outcome) * World) : Prop :=
  match r.1 with
  | inr StopIteration => torn_down (self r.2) ∧ cursor r.2 = (0, 0)%Z
  | inr (Yield _ fr') => fr' ≠ Finished
  | _ => True
  end.

(** The batches of a run that ended. *)
Definition consumed (r : (exn + option (list Batch)) * World) : list Batch :=
  match r.1 with
  | inr (Some bs) => bs
  | _ => []
  end.

End BertDataset.

(** * Proofs *)

(** ** Running a block *)

Lemma bind_eq {St A B} (m : py St A) (k : A → py St B) (s : St) :
  (m ≫= k) s = match m s with (inr a, s') => k a s' | (inl e, s') => (inl e, s') end.
Proof. reflexivity. Qed.

Lemma run_ret {St A} (a : A) (s : St) : ret a s = (inr a, s).
Proof. reflexivity. Qed.

(** * The environment adapter *)
Module AdapterProperties.
Import AzuremlAdapter.

Lemma split_cons sep s : ∃ w ws, split sep s = w :: ws.
Proof.
  induction s as [|c s [w [ws IH]]]; simpl; [by eauto|].
  destruct (Ascii.eqb c sep); [by eauto|]. rewrite IH. by eauto.
Qed.

Lemma split_without_separator sep s : contains sep s = false → split sep s = [s].
Proof.
  induction s as [|c s IH]; simpl; [done|].
  intros [Hc Hs]%orb_false_iff. rewrite Hc, (IH Hs). done.
Qed.

(** Lookups through a chain of writes. *)
Ltac look :=
  repeat first [ rewrite lookup_insert_eq
               | rewrite lookup_insert_ne by discriminate ].

Lemma run_get n w :
  environ_get n w = match environ w !! n with Some v => (inr v, w) | None => (inl (KeyError n), w) end.
Proof. reflexivity. Qed.

Lemma run_set n v w :
  environ_set n v w = (inr tt, mkProcess (<[n := v]> (environ w)) (stdout w)).
Proof. reflexivity. Qed.

Lemma run_print l w : print l w = (inr tt, mkProcess (environ w) (stdout w ++ [l])).
Proof. reflexivity. Qed.

Lemma run_contains n w :
  environ_contains n w = (inr (bool_decide (is_Some (environ w !! n))), w).
Proof. reflexivity. Qed.

Lemma run_getitem {A} (l : list A) i x w : l !! i = Some x → getitem l i w = (inr x, w).
Proof. unfold getitem. by intros ->. Qed.

(** Symbolic execution of the adapter's statements. *)
Ltac run :=
  repeat first
    [ rewrite bind_eq | rewrite run_set | rewrite run_print
    | rewrite run_contains | rewrite run_get | rewrite run_ret
    | progress (cbn [environ stdout negb]) | progress look
    | match goal with
      | H : environ ?w !! ?n = _ |- context [environ ?w !! ?n] => rewrite H
      end ].

Lemma configure_runs single_node port w rank size node old :
  environ w !! "OMPI_COMM_WORLD_RANK" = Some rank →
  environ w !! "OMPI_COMM_WORLD_SIZE" = Some size →
  environ w !! master_variable single_node = Some node →
  environ w !! "NCCL_SOCKET_IFNAME" = Some old →
  ∃ w', set_environment_variables_for_nccl_backend single_node port w = (inr tt, w')
      ∧ environ w' =
          <["NCCL_SOCKET_IFNAME" := "^docker0,lo"]>
            (port_after single_node port
               (<["MASTER_ADDR" := addr_of single_node node]>
                  (<["WORLD_SIZE" := size]> (<["RANK" := rank]> (environ w))))).
Proof.
  intros Hr Hs Hn Ho. unfold set_environment_variables_for_nccl_backend.
  destruct single_node; cbn [negb]; simpl in Hn.
  - run. eexists; split; reflexivity.
  - destruct (split_cons ":" node) as (addr & rest & Hsplit).
    unfold addr_of, port_after. rewrite Hsplit. simpl head. simpl default.
    run. rewrite Hsplit, (run_getitem (addr :: rest) 0 addr) by done.
    run.
    destruct (environ w !! "MASTER_PORT") as [p|] eqn:Hp.
    + rewrite bool_decide_eq_true_2 by eauto.
      run. eexists; split; reflexivity.
    + rewrite bool_decide_eq_false_2 by (intros [? ?]; done).
      run. eexists; split; reflexivity.
Qed.

Lemma configure_raises single_node port w :
  all_set (required single_node) w = false →
  ∃ name w', name ∈ required single_node ∧ environ w !! name = None
    ∧ set_environment_variables_for_nccl_backend single_node port w
      = (inl (KeyError name), w').
Proof.
  unfold all_set, required. cbn [forallb]. intros Hall.
  unfold set_environment_variables_for_nccl_backend.
  destruct (environ w !! "OMPI_COMM_WORLD_RANK") as [rank|] eqn:Hr.
  2:{ exists "OMPI_COMM_WORLD_RANK". run. eexists. split_and!; [set_solver|done|done]. }
  destruct (environ w !! "OMPI_COMM_WORLD_SIZE") as [size|] eqn:Hs.
  2:{ exists "OMPI_COMM_WORLD_SIZE". run. eexists. split_and!; [set_solver|done|done]. }
  destruct (environ w !! master_variable single_node) as [node|] eqn:Hn.
  2:{ exists (master_variable single_node).
      destruct single_node; cbn [negb]; simpl in Hn; run;
        eexists; (split_and!; [set_solver|done|done]). }
  destruct (environ w !! "NCCL_SOCKET_IFNAME") as [old|] eqn:Ho.
  { exfalso. rewrite !bool_decide_eq_true_2 in Hall by eauto. done. }
  exists "NCCL_SOCKET_IFNAME".
  destruct single_node; cbn [negb]; simpl in Hn.
  - run. eexists. split_and!; [set_solver|done|done].
  - destruct (split_cons ":" node) as (addr & rest & Hsplit).
    run. rewrite Hsplit, (run_getitem (addr :: rest) 0 addr) by done. run.
    destruct (environ w !! "MASTER_PORT") as [p|] eqn:Hp.
    + rewrite bool_decide_eq_true_2 by eauto. run.
      eexists. split_and!; [set_solver|done|done].
    + rewrite bool_decide_eq_false_2 by (intros [? ?]; done). run.
      eexists. split_and!; [set_solver|done|done].
Qed.

Lemma all_set_lookup names w n :
  all_set names w = true → n ∈ names → is_Some (environ w !! n).
Proof.
  unfold all_set. rewrite forallb_forall. intros H Hn.
  apply list_elem_of_In in Hn. apply H in Hn. by apply bool_decide_eq_true_1 in Hn.
Qed.

Lemma run_int_of_environ name w :
  int_of_environ name w =
    match environ w !! name with
    | None => (inl (KeyError name), w)
    | Some v =>
        match py_int v with
        | Some n => (inr n, w)
        | None => (inl (ValueError ("invalid literal for int() with base 10: " ++ v)), w)
        end
    end.
Proof.
  unfold int_of_environ. rewrite bind_eq, run_get.
  destruct (environ w !! name) as [v|]; [|done]. by destruct (py_int v).
Qed.

Lemma call_eq a : call a = int_of_environ (variable_of a).
Proof. by destruct a. Qed.

(** ** What [int] refuses *)

Lemma lstrip_keeps c cs : c ∈ cs → is_space c = false → c ∈ lstrip cs.
Proof.
  intros Hin Hc. induction cs as [|c' cs IH]; [done|]. simpl.
  destruct (is_space c') eqn:Hc'; [|done].
  apply elem_of_cons in Hin as [->|Hin]; [congruence|by apply IH].
Qed.

Lemma strip_keeps c cs : c ∈ cs → is_space c = false → c ∈ strip cs.
Proof.
  intros Hin Hc. unfold strip.
  rewrite list_elem_of_In, <- in_rev, <- list_elem_of_In. apply lstrip_keeps; [|done].
  rewrite list_elem_of_In, <- in_rev, <- list_elem_of_In. by apply lstrip_keeps.
Qed.

Lemma int_digits_refuses c cs acc b :
  c ∈ cs → digit_of c = None → c ≠ "_"%char → int_digits cs acc b = None.
Proof.
  intros Hin Hd Hu. revert acc b.
  induction cs as [|c' cs IH]; intros acc b; [by apply elem_of_nil in Hin|].
  simpl. apply elem_of_cons in Hin as [<-|Hin].
  - rewrite Hd. apply Ascii.eqb_neq in Hu. by rewrite Hu.
  - destruct (digit_of c'); [by apply IH|].
    destruct (Ascii.eqb c' "_" && b); [by apply IH|done].
Qed.

Lemma continuation_above b k : continuation b = Some k → (128 ≤ N_of_ascii b)%N.
Proof.
  unfold continuation. destruct (N.leb_spec 128 (N_of_ascii b)); [done|].
  by rewrite andb_false_l.
Qed.

(** [int] leaves plain ASCII as it is. *)
Lemma transform_ascii cs :
  Forall (λ c, (N_of_ascii c < 128)%N) cs →
  transform_decimal_and_space_to_ascii cs = Some cs.
Proof.
  induction 1 as [|c cs Hc _ IH]; [done|]. simpl.
  destruct (N.ltb_spec (N_of_ascii c) 128); [|lia]. by rewrite IH.
Qed.

(** The ASCII characters of a text are still there in what [int] reads. *)
Lemma transform_keeps c : ∀ n bs cs,
  (length bs ≤ n)%nat →
  transform_decimal_and_space_to_ascii bs = Some cs →
  c ∈ bs → (N_of_ascii c < 128)%N → c ∈ cs.
Proof.
  induction n as [|n IH]; intros bs cs Hlen Hrun Hin Hc.
  { destruct bs; [by apply elem_of_nil in Hin|simpl in Hlen; lia]. }
  destruct bs as [|b0 r0]; [by apply elem_of_nil in Hin|].
  simpl in Hlen. simpl in Hrun.
  destruct (N.ltb_spec (N_of_ascii b0) 128) as [H0|H0].
  { destruct (transform_decimal_and_space_to_ascii r0) as [cs0|] eqn:Hr0; [|done].
    injection Hrun as <-. apply elem_of_cons in Hin as [->|Hin]; [by left|].
    right. apply (IH r0); [lia|done..]. }
  apply elem_of_cons in Hin as [->|Hin]; [lia|].
  destruct r0 as [|b1 r1]; [done|]. simpl in Hlen.
  destruct (N.ltb_spec (N_of_ascii b0) 224) as [_|_].
  { destruct (continuation b1) as [c1|] eqn:H1; [|done].
    apply continuation_above in H1. cbn [mbind option_bind] in Hrun.
    destruct (_ || _); [done|].
    destruct (to_ascii _) as [a|]; [|done]. cbn [mbind option_bind] in Hrun.
    destruct (transform_decimal_and_space_to_ascii r1) as [cs1|] eqn:Hr1; [|done].
    injection Hrun as <-. apply elem_of_cons in Hin as [->|Hin]; [lia|].
    right. apply (IH r1); [lia|done..]. }
  apply elem_of_cons in Hin as [->|Hin].
  { destruct r1 as [|b2 r2]; [done|].
    destruct (N.ltb_spec (N_of_ascii b0) 240) as [_|_].
    - destruct (continuation b1) as [c1|] eqn:H1; [|done].
      apply continuation_above in H1. lia.
    - destruct r2 as [|b3 r3]; [done|].
      destruct (continuation b1) as [c1|] eqn:H1; [|done].
      apply continuation_above in H1. lia. }
  destruct r1 as [|b2 r2]; [done|]. simpl in Hlen.
  destruct (N.ltb_spec (N_of_ascii b0) 240) as [_|_].
  { destruct (continuation b1) as [c1|] eqn:H1; [|done].
    destruct (continuation b2) as [c2|] eqn:H2; [|done].
    apply continuation_above in H2. cbn [mbind option_bind] in Hrun.
    destruct (_ || _); [done|].
    destruct (to_ascii _) as [a|]; [|done]. cbn [mbind option_bind] in Hrun.
    destruct (transform_decimal_and_space_to_ascii r2) as [cs1|] eqn:Hr1; [|done].
    injection Hrun as <-. apply elem_of_cons in Hin as [->|Hin]; [lia|].
    right. apply (IH r2); [lia|done..]. }
  apply elem_of_cons in Hin as [->|Hin].
  { destruct r2 as [|b3 r3]; [done|].
    destruct (continuation b1) as [c1|] eqn:H1; [|done].
    destruct (continuation b2) as [c2|] eqn:H2; [|done].
    apply continuation_above in H2. lia. }
  destruct r2 as [|b3 r3]; [done|]. simpl in Hlen.
  destruct (continuation b1) as [c1|] eqn:H1; [|done].
  destruct (continuation b2) as [c2|] eqn:H2; [|done].
  destruct (continuation b3) as [c3|] eqn:H3; [|done].
  apply continuation_above in H3. cbn [mbind option_bind] in Hrun.
  destruct (_ || _); [done|].
  destruct (to_ascii _) as [a|]; [|done]. cbn [mbind option_bind] in Hrun.
  destruct (transform_decimal_and_space_to_ascii r3) as [cs1|] eqn:Hr1; [|done].
  injection Hrun as <-. apply elem_of_cons in Hin as [->|Hin]; [lia|].
  right. apply (IH r3); [lia|done..].
Qed.

(** A value with an ASCII character that is no digit, sign, underscore or
    white space is not a number for [int]. *)
Lemma py_int_refuses s c :
  c ∈ list_ascii_of_string s → (N_of_ascii c < 128)%N →
  is_space c = false → digit_of c = None →
  c ≠ "_"%char → c ≠ "+"%char → c ≠ "-"%char →
  py_int s = None.
Proof.
  intros Hin Hascii Hsp Hd Hu Hplus Hminus. unfold py_int.
  destruct (transform_decimal_and_space_to_ascii (list_ascii_of_string s))
    as [cs0|] eqn:Hcs0; [|done]. cbn [mbind option_bind].
  apply (transform_keeps c _ _ _ (Nat.le_refl _) Hcs0) in Hin; [|done].
  pose proof (strip_keeps c _ Hin Hsp) as Hin'.
  destruct (strip cs0) as [|c0 cs]; [done|].
  destruct (Ascii.eqb_spec c0 "-") as [->|H1].
  { apply elem_of_cons in Hin' as [?|Hin']; [done|].
    by rewrite (int_digits_refuses c cs _ _ Hin' Hd Hu). }
  destruct (Ascii.eqb_spec c0 "+") as [->|H2].
  { apply elem_of_cons in Hin' as [?|Hin']; [done|].
    by rewrite (int_digits_refuses c cs _ _ Hin' Hd Hu). }
  by apply (int_digits_refuses c).
Qed.

Example py_int_examples :
  py_int <$> ["4"; " 12 "; "-7"; "1_000"; ""; "four"; "1 2"; "0x10"; "3.0"]
  = [Some 4; Some 12; Some (-7); Some 1000; None; None; None; None; None]%Z.
Proof. reflexivity. Qed.

(** Beyond ASCII digits and blanks: the file separator (byte 28) is no white
    space for [int]; ARABIC-INDIC DIGIT THREE (U+0663, bytes 217 163) is a
    three; a no-break space (U+00A0, bytes 194 160) is dropped before a
    digit, and so is an em space (U+2003, bytes 226 128 131); FULLWIDTH
    DIGIT FIVE (U+FF15, bytes 239 188 149) is a five; SUPERSCRIPT TWO
    (U+00B2) is no decimal digit; a byte that is no UTF-8 is refused. *)
Example py_int_beyond_ascii :
  py_int <$> [String "028" "5";
              String "217" (String "163" "");
              String "194" (String "160" "5");
              String "226" (String "128" (String "131" "7"));
              String "-" (String "239" (String "188" (String "149" "")));
              String "194" (String "178" "");
              String "255" "5"]
  = [None; Some 3; Some 5; Some 7; Some (-5); None; None]%Z.
Proof. vm_compute. reflexivity. Qed.

(** ** Missing variables, malformed descriptors *)

(** C1, as stated, fails: with the launcher's rank variable absent,
    [set_environment_variables_for_nccl_backend] raises the built-in
    [KeyError], which is not a [ConfigurationError]. *)
Lemma configure_without_rank_raises_KeyError :
  raised (Configure false 6105) (mkProcess ∅ [])
    = Some (KeyError "OMPI_COMM_WORLD_RANK")
  ∧ raised (Configure false 6105) (mkProcess ∅ []) ≠ Some ConfigurationError.
Proof. split; [reflexivity|discriminate]. Qed.

(** C1, amended: when the launcher's rank or world-size variable is absent
    the configuring call raises, and when the variable behind an accessor is
    unset, or set to something [int] does not parse, the accessor raises;
    what is raised is [KeyError] naming an unset variable, or for the
    unparseable value [ValueError]. *)
Theorem missing_or_unparseable_raises (op : operation) (w : Process) :
  missing_or_unparseable op w →
  ∃ e, raised op w = Some e
     ∧ ((∃ name, e = KeyError name ∧ environ w !! name = None)
        ∨ (∃ msg a v, e = ValueError msg ∧ op = Access a
             ∧ environ w !! variable_of a = Some v ∧ py_int v = None)).
Proof.
  destruct op as [single_node port|a]; simpl.
  - intros Hmiss.
    destruct (configure_raises single_node port w) as (name & w' & _ & Hname & Hrun).
    { unfold all_set, required. cbn [forallb].
      destruct Hmiss as [-> | ->];
        rewrite (bool_decide_eq_false_2 (is_Some None)) by (by intros [? ?]);
        [done|apply andb_false_r]. }
    rewrite Hrun. simpl. eauto 10.
  - rewrite call_eq, run_int_of_environ.
    destruct (environ w !! variable_of a) as [v|] eqn:Hv.
    + intros Hp. rewrite Hp. simpl. eexists. split; [done|]. right.
      exists ("invalid literal for int() with base 10: " ++ v), a, v. done.
    + intros _. simpl. eexists. split; [done|]. left. eauto.
Qed.

Lemma missing_or_unparseable_raises_witness :
  missing_or_unparseable (Access WorldSize)
    (mkProcess {[ "WORLD_SIZE" := "four" ]} [])
  ∧ ∃ e, raised (Access WorldSize) (mkProcess {[ "WORLD_SIZE" := "four" ]} [])
           = Some e
       ∧ ((∃ name, e = KeyError name
             ∧ environ (mkProcess {[ "WORLD_SIZE" := "four" ]} []) !! name = None)
          ∨ (∃ msg a v, e = ValueError msg ∧ Access WorldSize = Access a
               ∧ environ (mkProcess {[ "WORLD_SIZE" := "four" ]} [])
                   !! variable_of a = Some v ∧ py_int v = None)).
Proof.
  split; [reflexivity|].
  apply (missing_or_unparseable_raises (Access WorldSize)). reflexivity.
Defined.

(** Neither call ever raises the document's [ConfigurationError]. *)
Lemma never_ConfigurationError op w : raised op w ≠ Some ConfigurationError.
Proof.
  destruct op as [single_node port|a]; simpl.
  - destruct (all_set (required single_node) w) eqn:Hall.
    + pose proof (λ n, all_set_lookup _ _ n Hall) as Hl.
      destruct (Hl "OMPI_COMM_WORLD_RANK") as [rank Hr]; [set_solver|].
      destruct (Hl "OMPI_COMM_WORLD_SIZE") as [size Hs]; [set_solver|].
      destruct (Hl (master_variable single_node)) as [node Hn]; [set_solver|].
      destruct (Hl "NCCL_SOCKET_IFNAME") as [old Ho]; [set_solver|].
      destruct (configure_runs single_node port w _ _ _ _ Hr Hs Hn Ho) as (w' & -> & _).
      done.
    + destruct (configure_raises single_node port w Hall) as (name & w' & _ & _ & ->).
      done.
  - rewrite call_eq, run_int_of_environ.
    destruct (environ w !! variable_of a) as [v|]; [|done].
    by destruct (py_int v).
Qed.

(** C2, as stated, fails: a descriptor without a colon is accepted. *)
Lemma configure_accepts_descriptor_without_separator :
  contains ":" "10.0.0.4" = false
  ∧ (set_environment_variables_for_nccl_backend false 6105
       (mkProcess launcher_environment [])).1 = inr tt
  ∧ environ (set_environment_variables_for_nccl_backend false 6105
       (mkProcess launcher_environment [])).2 !! "MASTER_ADDR" = Some "10.0.0.4".
Proof. vm_compute. done. Qed.

(** C2, amended: with [single_node=False] and a master-node descriptor that
    holds no colon, the call does not fail on that account: when the
    variables it reads are set it returns, and the whole descriptor is the
    master address. *)
Theorem descriptor_without_separator_is_address (port : Z) (w : Process)
    (node : string) :
  all_set (required false) w = true →
  environ w !! "AZ_BATCH_MASTER_NODE" = Some node →
  contains ":" node = false →
  ∃ w', set_environment_variables_for_nccl_backend false port w = (inr tt, w')
      ∧ environ w' !! "MASTER_ADDR" = Some node.
Proof.
  intros Hall Hn Hc. pose proof (λ n, all_set_lookup _ _ n Hall) as Hl.
  destruct (Hl "OMPI_COMM_WORLD_RANK") as [rank Hr]; [set_solver|].
  destruct (Hl "OMPI_COMM_WORLD_SIZE") as [size Hs]; [set_solver|].
  destruct (Hl "NCCL_SOCKET_IFNAME") as [old Ho]; [set_solver|].
  destruct (configure_runs false port w _ _ _ _ Hr Hs Hn Ho) as (w' & Hrun & Henv).
  exists w'. split; [done|]. rewrite Henv.
  unfold port_after, addr_of. rewrite (split_without_separator _ _ Hc). simpl.
  rewrite lookup_insert_ne by done.
  rewrite !lookup_insert_ne by done.
  destruct (environ w !! "MASTER_PORT");
    rewrite ?(lookup_insert_ne _ "MASTER_PORT") by done; by rewrite lookup_insert_eq.
Qed.

Lemma descriptor_without_separator_is_address_witness :
  all_set (required false) (mkProcess launcher_environment []) = true
  ∧ environ (mkProcess launcher_environment []) !! "AZ_BATCH_MASTER_NODE"
      = Some "10.0.0.4"
  ∧ contains ":" "10.0.0.4" = false
  ∧ ∃ w', set_environment_variables_for_nccl_backend false 6105
            (mkProcess launcher_environment []) = (inr tt, w')
        ∧ environ w' !! "MASTER_ADDR" = Some "10.0.0.4".
Proof.
  split_and!; [reflexivity..|].
  apply (descriptor_without_separator_is_address 6105
           (mkProcess launcher_environment []) "10.0.0.4"); reflexivity.
Defined.

(** ** Values the call leaves alone *)

Lemma keeps_bind I {A B} (m : py Process A) (k : A → py Process B) :
  keeps I m → (∀ a, keeps I (k a)) → keeps I (m ≫= k).
Proof.
  intros Hm Hk w Hw. specialize (Hm w Hw). rewrite bind_eq.
  destruct (m w) as [[e|a] w']; [done|]. by apply Hk.
Qed.

Lemma keeps_get I name : keeps I (environ_get name).
Proof. intros w Hw. rewrite run_get. by destruct (environ w !! name). Qed.

Lemma keeps_ret I {A} (a : A) : keeps I (ret a).
Proof. by intros w Hw. Qed.

Lemma keeps_getitem I {A} (l : list A) i : keeps I (getitem l i).
Proof. intros w Hw. unfold getitem. by destruct (l !! i). Qed.

Lemma keeps_print name value line : keeps (holds name value) (print line).
Proof. by intros w Hw. Qed.

Lemma keeps_set_other name value n v :
  n ≠ name → keeps (holds name value) (environ_set n v).
Proof. intros Hne w Hw. unfold holds in *. simpl. by rewrite lookup_insert_ne. Qed.

Lemma keeps_set_if_absent name value v :
  keeps (holds name value)
        (environ_contains name ≫= λ has : bool,
           if negb has then environ_set name v else ret ()).
Proof.
  intros w Hw. unfold holds in *. rewrite bind_eq, run_contains, Hw.
  by rewrite bool_decide_eq_true_2 by eauto.
Qed.

Ltac keeps_auto :=
  repeat first
    [ apply keeps_set_if_absent
    | apply keeps_bind; [|intros ?]
    | apply keeps_get | apply keeps_ret | apply keeps_getitem
    | apply keeps_print | apply keeps_set_other; discriminate ].

(** C8: a [MASTER_PORT] set beforehand is still there, with the same value,
    after the call with [single_node=False], whatever port was passed and
    whether the call returned or raised. *)
Theorem master_port_not_overwritten (master_port : Z) (w : Process) (p : string) :
  environ w !! "MASTER_PORT" = Some p →
  environ (set_environment_variables_for_nccl_backend false master_port w).2
    !! "MASTER_PORT" = Some p.
Proof.
  revert w. change (keeps (holds "MASTER_PORT" p)
                      (set_environment_variables_for_nccl_backend false master_port)).
  unfold set_environment_variables_for_nccl_backend. cbn [negb]. keeps_auto.
Qed.

Lemma master_port_not_overwritten_witness :
  environ (mkProcess (<["MASTER_PORT" := "29500"]> launcher_environment) [])
    !! "MASTER_PORT" = Some "29500"
  ∧ returns (set_environment_variables_for_nccl_backend false 6105
       (mkProcess (<["MASTER_PORT" := "29500"]> launcher_environment) [])) = true
  ∧ environ (set_environment_variables_for_nccl_backend false 6105
       (mkProcess (<["MASTER_PORT" := "29500"]> launcher_environment) [])).2
      !! "MASTER_PORT" = Some "29500".
Proof.
  split_and!; [reflexivity..|].
  apply (master_port_not_overwritten 6105
           (mkProcess (<["MASTER_PORT" := "29500"]> launcher_environment) [])
           "29500").
  reflexivity.
Defined.

(** The port passed in is used when none was set. *)
Lemma master_port_default (master_port : Z) (w : Process) :
  all_set (required false) w = true → environ w !! "MASTER_PORT" = None →
  environ (set_environment_variables_for_nccl_backend false master_port w).2
    !! "MASTER_PORT" = Some (py_str master_port).
Proof.
  intros Hall Hp. pose proof (λ n, all_set_lookup _ _ n Hall) as Hl.
  destruct (Hl "OMPI_COMM_WORLD_RANK") as [rank Hr]; [set_solver|].
  destruct (Hl "OMPI_COMM_WORLD_SIZE") as [size Hs]; [set_solver|].
  destruct (Hl (master_variable false)) as [node Hn]; [set_solver|].
  destruct (Hl "NCCL_SOCKET_IFNAME") as [old Ho]; [set_solver|].
  destruct (configure_runs false master_port w _ _ _ _ Hr Hs Hn Ho) as (w' & -> & Henv).
  simpl. rewrite Henv. unfold port_after.
  look. rewrite Hp. by look.
Qed.

(** C9, as stated, fails: with [NCCL_SOCKET_IFNAME] unset the call raises
    where it reads the old value to print it. *)
Lemma configure_without_ifname_raises :
  environ (mkProcess (delete "NCCL_SOCKET_IFNAME" launcher_environment) [])
    !! "NCCL_SOCKET_IFNAME" = None
  ∧ (set_environment_variables_for_nccl_backend false 6105
       (mkProcess (delete "NCCL_SOCKET_IFNAME" launcher_environment) [])).1
    = inl (KeyError "NCCL_SOCKET_IFNAME")
  ∧ (set_environment_variables_for_nccl_backend true 6105
       (mkProcess (delete "NCCL_SOCKET_IFNAME" launcher_environment) [])).1
    = inl (KeyError "NCCL_SOCKET_IFNAME").
Proof. vm_compute. done. Qed.

(** C9, amended: for either value of [single_node], when the variables the
    call reads are set, [NCCL_SOCKET_IFNAME] among them with whatever value,
    the call returns and leaves [NCCL_SOCKET_IFNAME] at [^docker0,lo]. *)
Theorem ifname_overwritten (single_node : bool) (master_port : Z) (w : Process) :
  all_set (required single_node) w = true →
  ∃ w', set_environment_variables_for_nccl_backend single_node master_port w
          = (inr tt, w')
      ∧ environ w' !! "NCCL_SOCKET_IFNAME" = Some "^docker0,lo".
Proof.
  intros Hall. pose proof (λ n, all_set_lookup _ _ n Hall) as Hl.
  destruct (Hl "OMPI_COMM_WORLD_RANK") as [rank Hr]; [set_solver|].
  destruct (Hl "OMPI_COMM_WORLD_SIZE") as [size Hs]; [set_solver|].
  destruct (Hl (master_variable single_node)) as [node Hn]; [set_solver|].
  destruct (Hl "NCCL_SOCKET_IFNAME") as [old Ho]; [set_solver|].
  destruct (configure_runs single_node master_port w _ _ _ _ Hr Hs Hn Ho)
    as (w' & Hrun & Henv).
  exists w'. split; [done|]. rewrite Henv. apply lookup_insert_eq.
Qed.

Lemma ifname_overwritten_witness :
  all_set (required true) (mkProcess launcher_environment []) = true
  ∧ ∃ w', set_environment_variables_for_nccl_backend true 6105
            (mkProcess launcher_environment []) = (inr tt, w')
        ∧ environ w' !! "NCCL_SOCKET_IFNAME" = Some "^docker0,lo".
Proof.
  split; [reflexivity|].
  apply (ifname_overwritten true 6105 (mkProcess launcher_environment [])).
  reflexivity.
Defined.

(** Whenever the call returns, the variable holds the pattern. *)
Lemma ifname_after_return single_node master_port w :
  returns (set_environment_variables_for_nccl_backend single_node master_port w) = true →
  environ (set_environment_variables_for_nccl_backend single_node master_port w).2
    !! "NCCL_SOCKET_IFNAME" = Some "^docker0,lo".
Proof.
  destruct (all_set (required single_node) w) eqn:Hall.
  - pose proof (λ n, all_set_lookup _ _ n Hall) as Hl.
    destruct (Hl "OMPI_COMM_WORLD_RANK") as [rank Hr]; [set_solver|].
    destruct (Hl "OMPI_COMM_WORLD_SIZE") as [size Hs]; [set_solver|].
    destruct (Hl (master_variable single_node)) as [node Hn]; [set_solver|].
    destruct (Hl "NCCL_SOCKET_IFNAME") as [old Ho]; [set_solver|].
    destruct (configure_runs single_node master_port w _ _ _ _ Hr Hs Hn Ho)
      as (w' & -> & Henv).
    intros _. simpl. rewrite Henv. apply lookup_insert_eq.
  - destruct (configure_raises single_node master_port w Hall) as (name & w' & _ & _ & ->).
    done.
Qed.

(** ** The other branch, the host part, the variables left alone *)

(** A literal name is, or is not, among a literal list of names. *)
Ltac among :=
  first [ by repeat constructor
        | repeat (apply not_elem_of_cons; split; [discriminate|]);
          apply not_elem_of_nil ].

Lemma all_set_values single_node w :
  all_set (required single_node) w = true →
  ∃ rank size node old,
    environ w !! "OMPI_COMM_WORLD_RANK" = Some rank
    ∧ environ w !! "OMPI_COMM_WORLD_SIZE" = Some size
    ∧ environ w !! master_variable single_node = Some node
    ∧ environ w !! "NCCL_SOCKET_IFNAME" = Some old.
Proof.
  intros Hall. pose proof (λ n, all_set_lookup _ _ n Hall) as Hl.
  destruct (Hl "OMPI_COMM_WORLD_RANK") as [rank Hr]; [among|].
  destruct (Hl "OMPI_COMM_WORLD_SIZE") as [size Hs]; [among|].
  destruct (Hl (master_variable single_node)) as [node Hn]; [among|].
  destruct (Hl "NCCL_SOCKET_IFNAME") as [old Ho]; [among|].
  by exists rank, size, node, old.
Qed.

Lemma port_after_other single_node port env n :
  n ≠ "MASTER_PORT" → port_after single_node port env !! n = env !! n.
Proof.
  intros Hn. unfold port_after. destruct single_node.
  - by rewrite lookup_insert_ne.
  - destruct (env !! "MASTER_PORT"); [done|]. by rewrite lookup_insert_ne.
Qed.

Lemma returns_all_set single_node port w w' :
  set_environment_variables_for_nccl_backend single_node port w = (inr tt, w') →
  all_set (required single_node) w = true.
Proof.
  intros Hrun. destruct (all_set (required single_node) w) eqn:Hall; [done|].
  destruct (configure_raises single_node port w Hall) as (name & w'' & _ & _ & Hr).
  congruence.
Qed.

(** X1: with [single_node=True] and the variables the call reads set, the
    call returns with [MASTER_ADDR] the whole value of
    [AZ_BATCHAI_MPI_MASTER_NODE] and [MASTER_PORT] the fixed [54965],
    whatever [MASTER_PORT] held before and whatever port was passed. *)
Theorem single_node_fixes_port (master_port : Z) (w : Process) (node : string) :
  all_set (required true) w = true →
  environ w !! "AZ_BATCHAI_MPI_MASTER_NODE" = Some node →
  ∃ w', set_environment_variables_for_nccl_backend true master_port w = (inr tt, w')
      ∧ environ w' !! "MASTER_ADDR" = Some node
      ∧ environ w' !! "MASTER_PORT" = Some "54965".
Proof.
  intros Hall Hnode.
  destruct (all_set_values true w Hall) as (rank & size & node' & old & Hr & Hs & Hn & Ho).
  simpl in Hn. rewrite Hnode in Hn. injection Hn as <-.
  destruct (configure_runs true master_port w _ _ _ _ Hr Hs Hnode Ho)
    as (w' & Hrun & Henv).
  exists w'. split; [done|]. rewrite Henv. unfold port_after, addr_of.
  split; by look.
Qed.

Lemma single_node_fixes_port_witness :
  all_set (required true)
    (mkProcess (<["MASTER_PORT" := "29500"]> launcher_environment) []) = true
  ∧ environ (mkProcess (<["MASTER_PORT" := "29500"]> launcher_environment) [])
      !! "AZ_BATCHAI_MPI_MASTER_NODE" = Some "10.0.0.4"
  ∧ ∃ w', set_environment_variables_for_nccl_backend true 6105
            (mkProcess (<["MASTER_PORT" := "29500"]> launcher_environment) [])
          = (inr tt, w')
      ∧ environ w' !! "MASTER_ADDR" = Some "10.0.0.4"
      ∧ environ w' !! "MASTER_PORT" = Some "54965".
Proof.
  split_and!; [reflexivity..|].
  apply (single_node_fixes_port 6105
           (mkProcess (<["MASTER_PORT" := "29500"]> launcher_environment) [])
           "10.0.0.4"); reflexivity.
Defined.

Lemma split_head sep s w ws :
  split sep s = w :: ws →
  contains sep w = false
  ∧ (ws = [] ∧ s = w ∨ ∃ rest, ws ≠ [] ∧ s = w ++ String sep rest).
Proof.
  revert w ws. induction s as [|c s IH]; intros w ws; simpl.
  { intros [= <- <-]. split; [done|]. by left. }
  destruct (Ascii.eqb_spec c sep) as [->|Hc].
  { intros [= <- <-]. split; [done|]. right. exists s. split; [|done].
    destruct (split_cons sep s) as (? & ? & Hs). rewrite Hs. discriminate. }
  destruct (split sep s) as [|w0 ws0] eqn:Hs.
  { destruct (split_cons sep s) as (? & ? & ?). congruence. }
  intros [= <- <-]. destruct (IH w0 ws0 eq_refl) as [Hw0 Hrest]. split.
  - simpl. apply Ascii.eqb_neq in Hc. by rewrite Hc.
  - destruct Hrest as [[-> ->]|(rest & Hne & ->)]; [by left|].
    right. by exists rest.
Qed.

(** X2: with [single_node=False] and the variables the call reads set, the
    call returns with [MASTER_ADDR] the part of [AZ_BATCH_MASTER_NODE] before
    its first colon (all of it when it has none), a text without colon; what
    follows the colon is not used: a [MASTER_PORT] that was unset becomes
    [str(master_port)]. *)
Theorem master_addr_is_host_part (master_port : Z) (w : Process) (node : string) :
  all_set (required false) w = true →
  environ w !! "AZ_BATCH_MASTER_NODE" = Some node →
  ∃ w' addr,
    set_environment_variables_for_nccl_backend false master_port w = (inr tt, w')
    ∧ environ w' !! "MASTER_ADDR" = Some addr
    ∧ contains ":" addr = false
    ∧ (node = addr ∨ ∃ rest, node = addr ++ String ":" rest)
    ∧ (environ w !! "MASTER_PORT" = None →
       environ w' !! "MASTER_PORT" = Some (py_str master_port)).
Proof.
  intros Hall Hnode.
  destruct (all_set_values false w Hall) as (rank & size & node' & old & Hr & Hs & Hn & Ho).
  simpl in Hn. rewrite Hnode in Hn. injection Hn as <-.
  destruct (configure_runs false master_port w _ _ _ _ Hr Hs Hnode Ho)
    as (w' & Hrun & Henv).
  destruct (split_cons ":" node) as (addr & rest & Hsplit).
  destruct (split_head _ _ _ _ Hsplit) as [Haddr Hshape].
  exists w', addr. split; [done|]. rewrite Henv. unfold port_after, addr_of.
  rewrite Hsplit. simpl. split_and!.
  - look. destruct (environ w !! "MASTER_PORT"); by look.
  - done.
  - destruct Hshape as [[_ ->]|(r & _ & ->)]; [by left|right; by exists r].
  - intros Hp. look. rewrite Hp. by look.
Qed.

Lemma master_addr_is_host_part_witness :
  all_set (required false)
    (mkProcess (<["AZ_BATCH_MASTER_NODE" := "10.0.0.4:6000"]> launcher_environment) [])
    = true
  ∧ environ (mkProcess (<["AZ_BATCH_MASTER_NODE" := "10.0.0.4:6000"]>
                          launcher_environment) [])
      !! "AZ_BATCH_MASTER_NODE" = Some "10.0.0.4:6000"
  ∧ ∃ w' addr,
      set_environment_variables_for_nccl_backend false 6105
        (mkProcess (<["AZ_BATCH_MASTER_NODE" := "10.0.0.4:6000"]>
                      launcher_environment) []) = (inr tt, w')
      ∧ environ w' !! "MASTER_ADDR" = Some addr
      ∧ contains ":" addr = false
      ∧ ("10.0.0.4:6000" = addr ∨ ∃ rest, "10.0.0.4:6000" = addr ++ String ":" rest)
      ∧ (environ (mkProcess (<["AZ_BATCH_MASTER_NODE" := "10.0.0.4:6000"]>
                               launcher_environment) []) !! "MASTER_PORT" = None →
         environ w' !! "MASTER_PORT" = Some (py_str 6105)).
Proof.
  split_and!; [reflexivity..|].
  apply (master_addr_is_host_part 6105
           (mkProcess (<["AZ_BATCH_MASTER_NODE" := "10.0.0.4:6000"]>
                         launcher_environment) []) "10.0.0.4:6000"); reflexivity.
Defined.

Example master_addr_example :
  environ (set_environment_variables_for_nccl_backend false 6105
             (mkProcess (<["AZ_BATCH_MASTER_NODE" := "10.0.0.4:6000"]>
                           launcher_environment) [])).2
  !! "MASTER_ADDR" = Some "10.0.0.4".
Proof. vm_compute. reflexivity. Qed.

Lemma keeps_reads_print name o line : keeps (reads name o) (print line).
Proof. by intros w Hw. Qed.

Lemma keeps_reads_set_other name o n v :
  n ≠ name → keeps (reads name o) (environ_set n v).
Proof. intros Hne w Hw. unfold reads in *. simpl. by rewrite lookup_insert_ne. Qed.

Lemma keeps_contains I name : keeps I (environ_contains name).
Proof. by intros w Hw. Qed.

Lemma configure_keeps_other single_node master_port name o :
  name ∉ written →
  keeps (reads name o)
        (set_environment_variables_for_nccl_backend single_node master_port).
Proof.
  intros Hname.
  assert (∀ n, n ∈ written → n ≠ name) as Hne by (intros n Hn ->; done).
  unfold set_environment_variables_for_nccl_backend.
  destruct single_node; cbn [negb];
    repeat first
      [ apply keeps_bind; [|intros ?]
      | apply keeps_get | apply keeps_ret | apply keeps_getitem
      | apply keeps_contains | apply keeps_reads_print
      | apply keeps_reads_set_other; apply Hne; among
      | match goal with |- keeps _ (if negb ?b then _ else _) => destruct b; cbn [negb] end ].
Qed.

(** X3: a variable other than [RANK], [WORLD_SIZE], [MASTER_ADDR],
    [MASTER_PORT] and [NCCL_SOCKET_IFNAME] reads after the call as it did
    before, set or unset, whether the call returned or raised. *)
Theorem other_variables_untouched
    (single_node : bool) (master_port : Z) (w : Process) (name : string) :
  name ∉ written →
  environ (set_environment_variables_for_nccl_backend single_node master_port w).2
    !! name = environ w !! name.
Proof.
  intros Hname.
  by apply (configure_keeps_other single_node master_port name (environ w !! name)).
Qed.

Lemma other_variables_untouched_witness :
  ("OMPI_COMM_WORLD_RANK" ∉ written)
  ∧ environ (set_environment_variables_for_nccl_backend false 6105
               (mkProcess launcher_environment [])).2
      !! "OMPI_COMM_WORLD_RANK"
    = environ (mkProcess launcher_environment []) !! "OMPI_COMM_WORLD_RANK".
Proof.
  split; [among|].
  apply (other_variables_untouched false 6105 (mkProcess launcher_environment [])
           "OMPI_COMM_WORLD_RANK").
  among.
Defined.

(** X4: after a call that returned, [RANK] holds the text of the launcher's
    rank and [get_world_rank()] gives what [int] makes of that text, raising
    where [int] does; [get_world_size()] and [get_global_size()] give the
    same, and [get_global_size()] gives what it gave before the call. *)
Theorem accessors_after_configure
    (single_node : bool) (master_port : Z) (w w' : Process) :
  set_environment_variables_for_nccl_backend single_node master_port w = (inr tt, w') →
  environ w' !! "RANK" = environ w !! "OMPI_COMM_WORLD_RANK"
  ∧ (get_world_rank w').1 = (int_of_environ "OMPI_COMM_WORLD_RANK" w).1
  ∧ get_world_size w' = get_global_size w'
  ∧ (get_global_size w').1 = (get_global_size w).1.
Proof.
  intros Hrun. pose proof (returns_all_set _ _ _ _ Hrun) as Hall.
  destruct (all_set_values _ w Hall) as (rank & size & node & old & Hr & Hs & Hn & Ho).
  destruct (configure_runs single_node master_port w _ _ _ _ Hr Hs Hn Ho)
    as (w'' & Hrun' & Henv).
  rewrite Hrun in Hrun'. injection Hrun' as <-.
  assert (environ w' !! "RANK" = Some rank) as HR.
  { rewrite Henv. look. rewrite port_after_other by done. by look. }
  assert (environ w' !! "WORLD_SIZE" = Some size) as HW.
  { rewrite Henv. look. rewrite port_after_other by done. by look. }
  assert (environ w' !! "OMPI_COMM_WORLD_SIZE" = Some size) as HG.
  { rewrite <- Hs.
    pose proof (configure_keeps_other single_node master_port "OMPI_COMM_WORLD_SIZE"
                  (environ w !! "OMPI_COMM_WORLD_SIZE")) as H.
    specialize (H ltac:(among) w eq_refl).
    by rewrite Hrun in H. }
  split; [congruence|].
  unfold get_world_rank, get_world_size, get_global_size.
  rewrite !run_int_of_environ. rewrite HR, HW, HG, Hs, Hr.
  split_and!; [by destruct (py_int rank)|done|by destruct (py_int size)].
Qed.

Lemma accessors_after_configure_witness :
  set_environment_variables_for_nccl_backend false 6105
    (mkProcess launcher_environment [])
  = (inr tt, (set_environment_variables_for_nccl_backend false 6105
                (mkProcess launcher_environment [])).2)
  ∧ environ (set_environment_variables_for_nccl_backend false 6105
               (mkProcess launcher_environment [])).2 !! "RANK"
    = environ (mkProcess launcher_environment []) !! "OMPI_COMM_WORLD_RANK"
  ∧ (get_world_rank (set_environment_variables_for_nccl_backend false 6105
                       (mkProcess launcher_environment [])).2).1
    = (int_of_environ "OMPI_COMM_WORLD_RANK" (mkProcess launcher_environment [])).1
  ∧ get_world_size (set_environment_variables_for_nccl_backend false 6105
                      (mkProcess launcher_environment [])).2
    = get_global_size (set_environment_variables_for_nccl_backend false 6105
                         (mkProcess launcher_environment [])).2
  ∧ (get_global_size (set_environment_variables_for_nccl_backend false 6105
                        (mkProcess launcher_environment [])).2).1
    = (get_global_size (mkProcess launcher_environment [])).1.
Proof.
  split; [reflexivity|].
  apply (accessors_after_configure false 6105 (mkProcess launcher_environment [])).
  reflexivity.
Defined.

Lemma configure_runs_stdout single_node port w rank size node old :
  environ w !! "OMPI_COMM_WORLD_RANK" = Some rank →
  environ w !! "OMPI_COMM_WORLD_SIZE" = Some size →
  environ w !! master_variable single_node = Some node →
  environ w !! "NCCL_SOCKET_IFNAME" = Some old →
  ∃ w', set_environment_variables_for_nccl_backend single_node port w = (inr tt, w')
      ∧ stdout w' = (stdout w ++
          report old rank size (addr_of single_node node)
            (default "" (environ w' !! "MASTER_PORT")))%list.
Proof.
  intros Hr Hs Hn Ho. unfold set_environment_variables_for_nccl_backend.
  destruct single_node; cbn [negb]; simpl in Hn.
  - run. eexists; split; [reflexivity|]. cbn [environ stdout]. look.
    rewrite <- !app_assoc. reflexivity.
  - destruct (split_cons ":" node) as (addr & rest & Hsplit).
    unfold addr_of. rewrite Hsplit. simpl head. simpl default.
    run. rewrite Hsplit, (run_getitem (addr :: rest) 0 addr) by done.
    run.
    destruct (environ w !! "MASTER_PORT") as [p|] eqn:Hp.
    + rewrite bool_decide_eq_true_2 by eauto.
      run. eexists; split; [reflexivity|]. cbn [environ stdout]. look.
      rewrite Hp. rewrite <- !app_assoc. reflexivity.
    + rewrite bool_decide_eq_false_2 by (intros [? ?]; done).
      run. eexists; split; [reflexivity|]. cbn [environ stdout]. look.
      rewrite <- !app_assoc. reflexivity.
Qed.

Lemma configure_raises_stdout single_node port w :
  all_set (required single_node) w = false →
  stdout (set_environment_variables_for_nccl_backend single_node port w).2 = stdout w.
Proof.
  unfold all_set, required. cbn [forallb]. intros Hall.
  unfold set_environment_variables_for_nccl_backend.
  destruct (environ w !! "OMPI_COMM_WORLD_RANK") as [rank|] eqn:Hr.
  2:{ by run. }
  destruct (environ w !! "OMPI_COMM_WORLD_SIZE") as [size|] eqn:Hs.
  2:{ by run. }
  destruct (environ w !! master_variable single_node) as [node|] eqn:Hn.
  2:{ destruct single_node; cbn [negb]; simpl in Hn; by run. }
  destruct (environ w !! "NCCL_SOCKET_IFNAME") as [old|] eqn:Ho.
  { exfalso. rewrite !bool_decide_eq_true_2 in Hall by eauto. done. }
  destruct single_node; cbn [negb]; simpl in Hn.
  - by run.
  - destruct (split_cons ":" node) as (addr & rest & Hsplit).
    run. rewrite Hsplit, (run_getitem (addr :: rest) 0 addr) by done. run.
    destruct (environ w !! "MASTER_PORT") as [p|] eqn:Hp.
    + rewrite bool_decide_eq_true_2 by eauto. by run.
    + rewrite bool_decide_eq_false_2 by (intros [? ?]; done). by run.
Qed.

(** X5: a call that returns has added six lines to the output, in this
    order: the interface value it found, then [RANK], [WORLD_SIZE],
    [MASTER_ADDR] and [MASTER_PORT] as it leaves them, then the new interface
    value; a call that raises has added nothing. *)
Theorem report_or_nothing (single_node : bool) (master_port : Z) (w : Process) :
  stdout (set_environment_variables_for_nccl_backend single_node master_port w).2
  = (stdout w ++
       printed w (set_environment_variables_for_nccl_backend single_node master_port w))%list.
Proof.
  destruct (all_set (required single_node) w) eqn:Hall.
  - destruct (all_set_values _ w Hall) as (rank & size & node & old & Hr & Hs & Hn & Ho).
    destruct (configure_runs single_node master_port w _ _ _ _ Hr Hs Hn Ho)
      as (w' & Hrun & Henv).
    destruct (configure_runs_stdout single_node master_port w _ _ _ _ Hr Hs Hn Ho)
      as (w'' & Hrun' & Hout).
    rewrite Hrun in Hrun'. injection Hrun' as <-.
    rewrite Hrun. unfold printed, returns. simpl. rewrite Hout, Ho. simpl.
    assert (environ w' !! "RANK" = Some rank) as ->.
    { rewrite Henv. look. rewrite port_after_other by done. by look. }
    assert (environ w' !! "WORLD_SIZE" = Some size) as ->.
    { rewrite Henv. look. rewrite port_after_other by done. by look. }
    assert (environ w' !! "MASTER_ADDR" = Some (addr_of single_node node)) as ->.
    { rewrite Henv. look. rewrite port_after_other by done. by look. }
    done.
  - rewrite (configure_raises_stdout _ _ _ Hall).
    destruct (configure_raises single_node master_port w Hall) as (name & w' & _ & _ & ->).
    unfold printed, returns. simpl. by rewrite app_nil_r.
Qed.

(** X6: with the launcher's rank set and its world size unset the call
    raises [KeyError] for [OMPI_COMM_WORLD_SIZE], for either mode, and what
    it leaves is the environment with [RANK] already written and the output
    as it was: a failing call is not undone. *)
Theorem raises_after_partial_update
    (single_node : bool) (master_port : Z) (w : Process) (rank : string) :
  environ w !! "OMPI_COMM_WORLD_RANK" = Some rank →
  environ w !! "OMPI_COMM_WORLD_SIZE" = None →
  set_environment_variables_for_nccl_backend single_node master_port w
  = (inl (KeyError "OMPI_COMM_WORLD_SIZE"),
     mkProcess (<["RANK" := rank]> (environ w)) (stdout w)).
Proof.
  intros Hr Hs. unfold set_environment_variables_for_nccl_backend. by run.
Qed.

Lemma raises_after_partial_update_witness :
  environ (mkProcess (delete "OMPI_COMM_WORLD_SIZE" launcher_environment) [])
    !! "OMPI_COMM_WORLD_RANK" = Some "0"
  ∧ environ (mkProcess (delete "OMPI_COMM_WORLD_SIZE" launcher_environment) [])
      !! "OMPI_COMM_WORLD_SIZE" = None
  ∧ set_environment_variables_for_nccl_backend false 6105
      (mkProcess (delete "OMPI_COMM_WORLD_SIZE" launcher_environment) [])
    = (inl (KeyError "OMPI_COMM_WORLD_SIZE"),
       mkProcess (<["RANK" := "0"]>
                    (environ (mkProcess (delete "OMPI_COMM_WORLD_SIZE"
                                           launcher_environment) [])))
                 (stdout (mkProcess (delete "OMPI_COMM_WORLD_SIZE"
                                       launcher_environment) []))).
Proof.
  split_and!; [reflexivity..|].
  apply (raises_after_partial_update false 6105
           (mkProcess (delete "OMPI_COMM_WORLD_SIZE" launcher_environment) []) "0");
    reflexivity.
Defined.

(** ** [int] reads back what [str] writes *)

Lemma digit_of_pretty_N_char (m : N) :
  (m < 10)%N → digit_of (pretty_N_char m) = Some (Z.of_N m).
Proof.
  intros Hm.
  assert (m = 0 ∨ m = 1 ∨ m = 2 ∨ m = 3 ∨ m = 4 ∨ m = 5 ∨ m = 6 ∨ m = 7
          ∨ m = 8 ∨ m = 9)%N as H by lia.
  repeat destruct H as [->|H]; try subst m; reflexivity.
Qed.

Lemma digit_not_space c : is_Some (digit_of c) → is_space c = false.
Proof.
  unfold digit_of, is_space. intros [d Hd]. revert Hd.
  destruct (Nat.leb_spec 48 (nat_of_ascii c)); [|done].
  destruct (Nat.leb_spec (nat_of_ascii c) 57); [|done]. intros _.
  destruct (Nat.leb_spec 9 (nat_of_ascii c)); [|lia].
  destruct (Nat.leb_spec (nat_of_ascii c) 13); [lia|].
  destruct (Nat.eqb_spec (nat_of_ascii c) 32); [lia|done].
Qed.

Lemma digit_is_ascii c : is_Some (digit_of c) → (N_of_ascii c < 128)%N.
Proof.
  unfold digit_of, nat_of_ascii. intros [d Hd]. revert Hd.
  destruct (Nat.leb_spec 48 (N.to_nat (N_of_ascii c))); [|done].
  destruct (Nat.leb_spec (N.to_nat (N_of_ascii c)) 57); [|done]. lia.
Qed.

(** The numeral of a positive [x], put before [s]: digits only, at least
    one, and read by [int_digits] as [x] after what was read before. *)
Lemma pretty_N_go_digits (x : N) :
  (0 < x)%N →
  ∃ ds : list ascii,
    ds ≠ []
    ∧ Forall (λ c, is_Some (digit_of c)) ds
    ∧ (∀ s, list_ascii_of_string (pretty_N_go x s)
            = (ds ++ list_ascii_of_string s)%list)
    ∧ ∃ k : nat, ∀ rest acc flag,
        int_digits (ds ++ rest) acc flag
        = int_digits rest (10 ^ Z.of_nat k * acc + Z.of_N x)%Z true.
Proof.
  induction (N.lt_wf_0 x) as [x _ IH]. intros Hx.
  assert (x `mod` 10 < 10)%N as Hm by (apply N.mod_lt; lia).
  pose proof (digit_of_pretty_N_char _ Hm) as Hd.
  assert (x = 10 * (x `div` 10) + x `mod` 10)%N as Hdiv by (apply N.div_mod; lia).
  assert (Hx10 : (x `div` 10 = 0 ∨ 0 < x `div` 10)%N) by lia.
  destruct Hx10 as [H0|Hpos].
  - exists [pretty_N_char (x `mod` 10)]. split_and!; [done|by repeat constructor| |].
    + intros s. by rewrite pretty_N_go_step, H0, pretty_N_go_0.
    + exists 1%nat. intros rest acc flag. simpl. rewrite Hd. f_equal. lia.
  - destruct (IH (x `div` 10)%N) as (ds & Hne & Hall & Hstr & k & Hk);
      [apply N.div_lt; lia|done|].
    exists (ds ++ [pretty_N_char (x `mod` 10)])%list. split_and!.
    + by destruct ds.
    + apply Forall_app. split; [done|]. by repeat constructor.
    + intros s. rewrite pretty_N_go_step, Hstr by done. simpl.
      by rewrite <- app_assoc.
    + exists (S k). intros rest acc flag. rewrite <- app_assoc, Hk. simpl.
      rewrite Hd. f_equal. rewrite Nat2Z.inj_succ, Z.pow_succ_r by lia. lia.
Qed.

Lemma lstrip_digits cs :
  Forall (λ c, is_space c = false) cs → lstrip cs = cs.
Proof. destruct 1 as [|c cs Hc _]; [done|]. simpl. by rewrite Hc. Qed.

Lemma strip_no_space cs :
  Forall (λ c, is_space c = false) cs → strip cs = cs.
Proof.
  intros Hall. unfold strip. rewrite (lstrip_digits cs Hall).
  rewrite lstrip_digits; [apply rev_involutive|].
  apply Forall_forall. intros c Hc. rewrite Forall_forall in Hall. apply Hall.
  by apply list_elem_of_In, in_rev, list_elem_of_In.
Qed.

Lemma py_int_pretty_N_go (x : N) :
  (0 < x)%N →
  py_int (pretty_N_go x "") = Some (Z.of_N x)
  ∧ py_int ("-" +:+ pretty_N_go x "") = Some (- Z.of_N x)%Z.
Proof.
  intros Hx. destruct (pretty_N_go_digits x Hx) as (ds & Hne & Hall & Hstr & k & Hk).
  specialize (Hstr ""). simpl in Hstr. rewrite app_nil_r in Hstr.
  assert (Hsp : Forall (λ c, is_space c = false) ds).
  { eapply Forall_impl; [exact Hall|]. apply digit_not_space. }
  assert (Hascii : Forall (λ c, (N_of_ascii c < 128)%N) ds).
  { eapply Forall_impl; [exact Hall|]. apply digit_is_ascii. }
  specialize (Hk [] 0%Z false). rewrite app_nil_r, Z.mul_0_r in Hk. simpl in Hk.
  split.
  - unfold py_int. rewrite Hstr, transform_ascii by done.
    cbn [mbind option_bind]. rewrite strip_no_space by done.
    destruct ds as [|c ds]; [done|].
    apply Forall_cons in Hall as [[d Hc] _].
    assert (Ascii.eqb c "-" = false) as ->.
    { apply Ascii.eqb_neq. intros ->. done. }
    assert (Ascii.eqb c "+" = false) as ->.
    { apply Ascii.eqb_neq. intros ->. done. }
    done.
  - unfold py_int. unfold String.app. simpl list_ascii_of_string. rewrite Hstr.
    rewrite transform_ascii by (constructor; [by vm_compute|done]).
    cbn [mbind option_bind]. rewrite strip_no_space by (by constructor).
    change (Ascii.eqb "-" "-") with true. cbv iota. by rewrite Hk.
Qed.

Lemma py_int_py_str (n : Z) : py_int (py_str n) = Some n.
Proof.
  unfold py_str, pretty, pretty_Z.
  destruct n as [|p|p]; [done|..];
    unfold pretty, pretty_positive, pretty, pretty_N;
    (rewrite decide_False by done);
    destruct (py_int_pretty_N_go (N.pos p)) as [Hpos Hneg]; done.
Qed.

(** X21: when the variable behind an accessor holds the decimal numeral of
    an integer [n], as [str(n)] writes it, negative or not, the accessor
    returns [n] and leaves the process as it was. *)
Theorem accessor_reads_back_numeral (a : accessor) (w : Process) (n : Z) :
  environ w !! variable_of a = Some (py_str n) →
  call a w = (inr n, w).
Proof.
  intros Hv. by rewrite call_eq, run_int_of_environ, Hv, py_int_py_str.
Qed.

Lemma accessor_reads_back_numeral_witness :
  environ (mkProcess (<["WORLD_SIZE" := py_str 16]> launcher_environment) [])
    !! variable_of WorldSize = Some (py_str 16)
  ∧ call WorldSize (mkProcess (<["WORLD_SIZE" := py_str 16]> launcher_environment) [])
    = (inr 16%Z, mkProcess (<["WORLD_SIZE" := py_str 16]> launcher_environment) []).
Proof.
  split; [reflexivity|].
  apply (accessor_reads_back_numeral WorldSize
           (mkProcess (<["WORLD_SIZE" := py_str 16]> launcher_environment) []) 16).
  reflexivity.
Defined.

(** X22: the [MASTER_PORT] written from [master_port] reads back: with
    [single_node=False], the variables the call reads set and [MASTER_PORT]
    unset, [MASTER_PORT] is set after the call and [int] of it is
    [master_port]. *)
Theorem default_port_reads_back (master_port : Z) (w : Process) :
  all_set (required false) w = true →
  environ w !! "MASTER_PORT" = None →
  py_int <$> (environ (set_environment_variables_for_nccl_backend false master_port w).2
                !! "MASTER_PORT")
  = Some (Some master_port).
Proof.
  intros Hall Hp.
  destruct (all_set_values false w Hall) as (rank & size & node & old & Hr & Hs & Hn & Ho).
  destruct (configure_runs false master_port w _ _ _ _ Hr Hs Hn Ho)
    as (w' & -> & Henv).
  simpl. rewrite Henv. unfold port_after. look. rewrite Hp. look. simpl.
  by rewrite py_int_py_str.
Qed.

Lemma default_port_reads_back_witness :
  all_set (required false) (mkProcess launcher_environment []) = true
  ∧ environ (mkProcess launcher_environment []) !! "MASTER_PORT" = None
  ∧ py_int <$> (environ (set_environment_variables_for_nccl_backend false 6105
                           (mkProcess launcher_environment [])).2
                  !! "MASTER_PORT")
    = Some (Some 6105%Z).
Proof.
  split_and!; [reflexivity..|].
  apply (default_port_reads_back 6105 (mkProcess launcher_environment []));
    reflexivity.
Defined.

End AdapterProperties.

(** * The data loader *)
Module DatasetProperties.
Import BertDataset.

Lemma head_nonzero_from i t :
  head (nonzero_from i (eq_zero t))
  = (λ r, (i + r.1)%nat) <$> list_find (λ p, p = 0%Z) t.
Proof.
  revert i. induction t as [|p t IH]; intros i; [done|].
  simpl. destruct (Z.eqb_spec p 0) as [->|Hp].
  - rewrite decide_True by done. simpl. f_equal. lia.
  - rewrite decide_False by done. rewrite IH.
    destruct (list_find _ t) as [[k x]|]; simpl; [f_equal; lia|done].
Qed.

Lemma masked_token_count_head (a : Args) (masked_positions : tensor) :
  _get_masked_token_count a masked_positions
  = default (max_predictions_per_seq a)
      (Z.of_nat <$> head (nonzero (eq_zero masked_positions))).
Proof.
  unfold _get_masked_token_count.
  by destruct (nonzero (eq_zero masked_positions)).
Qed.

(** C3, amended: the masked token count is the index of the first zero
    entry of the masked positions, wherever in the vector that entry stands,
    and [max_predictions_per_seq] when the vector holds no zero. *)
Theorem masked_token_count_is_first_zero (a : Args) (masked_positions : tensor) :
  _get_masked_token_count a masked_positions
  = match list_find (λ p, p = 0%Z) masked_positions with
    | Some (i, _) => Z.of_nat i
    | None => max_predictions_per_seq a
    end.
Proof.
  rewrite masked_token_count_head. unfold nonzero.
  rewrite head_nonzero_from.
  by destruct (list_find _ masked_positions) as [[k x]|].
Qed.

(** C3, as stated, fails: with [max_predictions_per_seq = 2] and the only
    zero at index 3, beyond the first two entries, the count is 3 where the
    document has 2. *)
Lemma masked_token_count_beyond_cap :
  list_find (λ p, p = 0%Z) (take 2 [5; 3; 7; 0]%Z) = None
  ∧ _get_masked_token_count (mkArgs 6 2) [5; 3; 7; 0]%Z = 3%Z
  ∧ masked_token_count_as_specified (mkArgs 6 2) [5; 3; 7; 0]%Z = 2%Z.
Proof. done. Qed.

(** Where the claim and the code agree: vectors no longer than the cap. *)
Lemma masked_token_count_within_cap (a : Args) (masked_positions : tensor) :
  (Z.of_nat (length masked_positions) ≤ max_predictions_per_seq a)%Z →
  _get_masked_token_count a masked_positions
  = masked_token_count_as_specified a masked_positions.
Proof.
  intros Hlen. rewrite masked_token_count_head. unfold nonzero.
  rewrite head_nonzero_from.
  unfold masked_token_count_as_specified. rewrite take_ge by lia.
  by destruct (list_find _ masked_positions) as [[k x]|].
Qed.

(** ** Label reconstruction *)

Lemma wrap_index_in_range size p :
  (0 ≤ p < Z.of_nat size)%Z → wrap_index size p = inr (Z.to_nat p).
Proof.
  intros Hp. unfold wrap_index.
  destruct (Z.ltb_spec p (- Z.of_nat size)); [lia|].
  destruct (Z.leb_spec (Z.of_nat size) p); [lia|]. simpl.
  destruct (Z.ltb_spec p 0); [lia|done].
Qed.

Lemma index_put_spec (t : tensor) (idx vals : list Z) :
  Forall (λ p, 0 ≤ p < Z.of_nat (length t))%Z idx →
  length vals = length idx →
  ∃ t', index_put t idx vals = inr t'
      ∧ length t' = length t
      ∧ (∀ j, Z.of_nat j ∉ idx → t' !! j = t !! j)
      ∧ (NoDup idx → ∀ i p, idx !! i = Some p →
           ∃ v, vals !! i = Some v ∧ t' !! Z.to_nat p = Some v).
Proof.
  revert t vals. induction idx as [|p idx IH]; intros t vals Hrange Hlen.
  { exists t. destruct vals; [|done]. by split_and!. }
  destruct vals as [|v vals]; [done|]. simpl in Hlen.
  apply Forall_cons in Hrange as [Hp Hrange].
  simpl. rewrite wrap_index_in_range by done.
  destruct (IH (<[Z.to_nat p := v]> t) vals) as (t' & Hrun & Hlen' & Hother & Hlisted);
    [eapply Forall_impl; [exact Hrange|]; intros q Hq;
       by rewrite length_insert
    |lia|].
  exists t'. rewrite length_insert in Hlen'. split_and!; try done.
  - intros j Hj. apply not_elem_of_cons in Hj as [Hjp Hj].
    rewrite (Hother j Hj). apply list_lookup_insert_ne. lia.
  - intros Hnd i q Hi. apply NoDup_cons in Hnd as [Hp' Hnd].
    destruct i as [|i]; simpl in Hi.
    + injection Hi as <-. exists v. split; [done|].
      rewrite Hother by (by rewrite Z2Nat.id by lia).
      apply list_lookup_insert_eq. lia.
    + by apply Hlisted.
Qed.

Lemma slice_to_length {A} (l1 l2 : list A) n :
  length l1 = length l2 → length (slice_to l1 n) = length (slice_to l2 n).
Proof.
  intros H. unfold slice_to. rewrite H.
  destruct (n <? 0)%Z; rewrite !length_take; lia.
Qed.

Lemma slice_to_lookup {A} (l : list A) n i x :
  slice_to l n !! i = Some x → l !! i = Some x.
Proof.
  unfold slice_to. destruct (n <? 0)%Z; intros H;
    apply lookup_take_Some in H; tauto.
Qed.

Lemma slice_to_lookup_both {A} (l1 l2 : list A) n i x y :
  length l1 = length l2 →
  slice_to l1 n !! i = Some x → l2 !! i = Some y → slice_to l2 n !! i = Some y.
Proof.
  unfold slice_to. intros Hlen. rewrite Hlen.
  destruct (n <? 0)%Z; intros [? ?]%lookup_take_Some ?;
    by rewrite lookup_take_lt.
Qed.

(** C4, as stated, fails: with all positions below [max_seq_length], a
    position listed twice holds the later of its two values, not both; and
    a position below [-max_seq_length] makes the reconstruction raise. *)
Lemma repeated_position_holds_one_value :
  Forall (λ p, p < max_seq_length (mkArgs 6 3))%Z [3; 3; 0]%Z
  ∧ _build_masked_lm_labels (mkArgs 6 3) [3; 3; 0]%Z [7; 8; 0]%Z
    = inr [-1; -1; -1; 8; -1; -1]%Z
  ∧ ¬ dense_label_as_specified (mkArgs 6 3) [3; 3; 0]%Z [7; 8; 0]%Z
        [-1; -1; -1; 8; -1; -1]%Z
  ∧ Forall (λ p, p < max_seq_length (mkArgs 6 3))%Z [-7; 0]%Z
  ∧ _build_masked_lm_labels (mkArgs 6 3) [-7; 0]%Z [7; 0]%Z
    = inl (IndexError "index out of range in self").
Proof.
  split_and!; [by repeat constructor|done| |by repeat constructor|done].
  intros (_ & Hlisted & _). destruct (Hlisted 0%nat 3%Z) as (v & Hv & Hl); [done|].
  simpl in Hv, Hl. congruence.
Qed.

(** C4, amended: for masked positions that all lie in
    [0, max_seq_length), of which those listed,
    [masked_positions[:masked_token_count]], are pairwise distinct, and for
    masked values as many as the positions, the label vector is built, has
    length [max_seq_length], holds at every listed position the value at the
    same index of the masked values, and holds -1 everywhere else. *)
Theorem dense_label_of_distinct_positions (a : Args)
    (masked_positions masked_values : tensor) :
  (0 ≤ max_seq_length a)%Z →
  Forall (λ p, 0 ≤ p < max_seq_length a)%Z masked_positions →
  NoDup (slice_to masked_positions
           (_get_masked_token_count a masked_positions)) →
  length masked_values = length masked_positions →
  ∃ labels,
    _build_masked_lm_labels a masked_positions masked_values = inr labels
    ∧ dense_label_as_specified a masked_positions masked_values labels.
Proof.
  intros Hpos Hrange Hnd Hlen.
  unfold _build_masked_lm_labels, dense_label_as_specified.
  set (count := _get_masked_token_count a masked_positions) in *.
  unfold ones_times_minus_one.
  destruct (Z.ltb_spec (max_seq_length a) 0) as [?|_]; [lia|].
  cbn [mbind sum_bind]. unfold setitem.
  rewrite bool_decide_eq_true_2 by (by apply slice_to_length).
  set (blank := replicate (Z.to_nat (max_seq_length a)) (-1)%Z).
  destruct (index_put_spec blank (slice_to masked_positions count)
              (slice_to masked_values count))
    as (labels & Hrun & Hlen' & Hother & Hlisted).
  { unfold blank. rewrite length_replicate, Z2Nat.id by done.
    apply Forall_forall. intros p Hp. rewrite Forall_forall in Hrange.
    apply Hrange. apply list_elem_of_lookup in Hp as [i Hi].
    apply list_elem_of_lookup. exists i. by apply slice_to_lookup in Hi. }
  { by apply slice_to_length. }
  exists labels. unfold blank in *. rewrite length_replicate in Hlen'.
  split_and!; try done.
  - intros i p Hi. destruct (Hlisted Hnd i p Hi) as (v & Hv & Hl).
    exists v. split; [|done]. by apply slice_to_lookup in Hv.
  - intros j Hj Hnot. rewrite (Hother j Hnot). by apply lookup_replicate_2.
Qed.

Lemma dense_label_of_distinct_positions_witness :
  (0 ≤ max_seq_length (mkArgs 6 3))%Z
  ∧ Forall (λ p, 0 ≤ p < max_seq_length (mkArgs 6 3))%Z [5; 3; 0]%Z
  ∧ NoDup (slice_to [5; 3; 0]%Z (_get_masked_token_count (mkArgs 6 3) [5; 3; 0]%Z))
  ∧ length [50; 30; 0]%Z = length [5; 3; 0]%Z
  ∧ ∃ labels,
      _build_masked_lm_labels (mkArgs 6 3) [5; 3; 0]%Z [50; 30; 0]%Z = inr labels
      ∧ dense_label_as_specified (mkArgs 6 3) [5; 3; 0]%Z [50; 30; 0]%Z labels.
Proof.
  assert (Hpos : (0 ≤ max_seq_length (mkArgs 6 3))%Z) by (simpl; lia).
  assert (Hrange : Forall (λ p, 0 ≤ p < max_seq_length (mkArgs 6 3))%Z [5; 3; 0]%Z)
    by (repeat constructor; simpl; lia).
  assert (Hnd : NoDup (slice_to [5; 3; 0]%Z
                         (_get_masked_token_count (mkArgs 6 3) [5; 3; 0]%Z)))
    by (vm_compute; apply (bool_decide_unpack _); vm_compute; exact I).
  split_and!; [done..|].
  apply (dense_label_of_distinct_positions (mkArgs 6 3) [5; 3; 0]%Z [50; 30; 0]%Z);
    done.
Defined.

Example dense_label_example :
  _build_masked_lm_labels (mkArgs 6 3) [5; 3; 0]%Z [50; 30; 0]%Z
  = inr [-1; -1; -1; 30; -1; 50]%Z.
Proof. reflexivity. Qed.

(** ** Running the loader's statements *)

Lemma run_raise {St A} (e : exn) (s : St) : @raise St A e s = (inl e, s).
Proof. reflexivity. Qed.

Lemma run_gets {St A} (f : St → A) (s : St) : gets f s = (inr (f s), s).
Proof. reflexivity. Qed.

Lemma run_modify {St} (f : St → St) (s : St) : modify f s = (inr tt, f s).
Proof. reflexivity. Qed.

Lemma run_lift {St A} (r : exn + A) (s : St) : lift r s = (r, s).
Proof. reflexivity. Qed.

Ltac fields :=
  cbn [self host lists py_random np_random peak_in_flight peak_resident
       with_self set_np set_file_index set_sample_index set_pool set_dataset
       set_future_dataset record_peaks in_flight_now resident_now
       num_workers files batch_size loop shuffle file_index sample_index
       pool dataset future_dataset queue submitted
       t_id t_index t_file t_batch_size t_shuffle t_num_workers
       dl_dataset dl_batch_size dl_num_workers bulk_data
       disk args core_restriction fst snd].

Ltac prim :=
  first [ rewrite bind_eq | rewrite run_ret | rewrite run_raise | rewrite run_gets
        | rewrite run_modify | rewrite run_lift | progress fields ].
Ltac wrun := repeat prim.

(** ** Batching *)

Lemma batch_sampler_spec size sampler batch :
  (0 < size)%nat → (length batch < size)%nat →
  length (batch_sampler size sampler batch)
    = ((length batch + length sampler) / size)%nat
  ∧ Forall (λ b, length b = size
               ∧ Forall (λ i, i ∈ batch ∨ i ∈ sampler) b)
           (batch_sampler size sampler batch).
Proof.
  intros Hsize. revert batch. induction sampler as [|idx sampler IH]; intros batch Hb.
  { simpl. split; [|done]. rewrite Nat.add_0_r. by rewrite Nat.div_small. }
  simpl. rewrite length_app. simpl.
  destruct (Nat.eqb_spec (length batch + 1) size) as [Hfull|Hopen].
  - destruct (IH []) as [Hlen Hall]; [simpl; lia|]. simpl in Hlen. split.
    + simpl. rewrite Hlen.
      replace (length batch + S (length sampler))%nat
        with (length sampler + 1 * size)%nat by lia.
      rewrite Nat.div_add by lia. lia.
    + constructor.
      * split; [rewrite length_app; simpl; lia|].
        apply Forall_forall. intros i Hi. apply elem_of_app in Hi as [?|Hi]; [by left|].
        right. apply list_elem_of_singleton in Hi as ->. by left.
      * eapply Forall_impl; [exact Hall|]. intros b [? Hb']. split; [done|].
        eapply Forall_impl; [exact Hb'|]. intros i [Hi|Hi]; [by apply elem_of_nil in Hi|].
        right. by right.
  - destruct (IH (batch ++ [idx])%list) as [Hlen Hall]; [rewrite length_app; simpl; lia|].
    rewrite length_app in Hlen. simpl in Hlen. split.
    + rewrite Hlen. f_equal. lia.
    + eapply Forall_impl; [exact Hall|]. intros b [? Hb']. split; [done|].
      eapply Forall_impl; [exact Hb'|]. intros i [Hi|Hi].
      * apply elem_of_app in Hi as [?|Hi]; [by left|].
        right. apply list_elem_of_singleton in Hi as ->. by left.
      * right. by right.
Qed.

Lemma batches_of_spec dl :
  (0 < dl_batch_size dl)%Z →
  let n := BertSingleFileDataset__len__ (dl_dataset dl) in
  let size := Z.to_nat (dl_batch_size dl) in
  length (batches_of dl) = (n / size)%nat
  ∧ Forall (λ b, length b = size ∧ Forall (λ i, (i < n)%nat) b) (batches_of dl).
Proof.
  intros Hpos n size. unfold batches_of.
  destruct (batch_sampler_spec size (seq 0 n) []) as [Hlen Hall];
    [lia|simpl; lia|].
  rewrite length_seq in Hlen. simpl in Hlen. split; [done|].
  eapply Forall_impl; [exact Hall|]. intros b [? Hb]. split; [done|].
  eapply Forall_impl; [exact Hb|]. intros i [Hi|Hi]; [by apply elem_of_nil in Hi|].
  apply elem_of_seq in Hi. lia.
Qed.

(** ** Shuffling and loading a shard *)

Lemma swap_Permutation {A} (x : list A) i j : swap x i j ≡ₚ x.
Proof.
  unfold swap. destruct (x !! i) as [a|] eqn:Hi; [|done].
  destruct (x !! j) as [b|] eqn:Hj; [|done].
  by apply Permutation_insert_swap.
Qed.

Lemma shuffle_from_Permutation {A} i (x : list A) rng :
  (shuffle_from i x rng).1 ≡ₚ x.
Proof.
  revert x rng. induction i as [|i IH]; intros x rng; [done|].
  simpl. destruct (draw rng) as [r rng']. rewrite IH. apply swap_Permutation.
Qed.

Lemma shuffled_Permutation {A} (x : list A) rng : (shuffled x rng).1 ≡ₚ x.
Proof. apply shuffle_from_Permutation. Qed.

Lemma take_rows_spec {A} (column : list A) (indices : list nat) :
  Forall (λ i, (i < length column)%nat) indices →
  ∃ rows, take_rows column indices = inr rows
        ∧ Forall2 (λ i r, column !! i = Some r) indices rows.
Proof.
  induction indices as [|i indices IH]; intros Hall; [by exists []|].
  apply Forall_cons in Hall as [Hi Hall]. destruct (IH Hall) as (rows & Hrows & H2).
  simpl. destruct (lookup_lt_is_Some_2 column i Hi) as [r Hr].
  rewrite Hr, Hrows. exists (r :: rows). split; [done|]. by constructor.
Qed.

Lemma rows_Forall2 {A B} (P : A → B → Prop) c1 c2 (indices : list nat) r1 r2 :
  Forall2 P c1 c2 →
  Forall2 (λ i r, c1 !! i = Some r) indices r1 →
  Forall2 (λ i r, c2 !! i = Some r) indices r2 →
  Forall2 P r1 r2.
Proof.
  intros HP H1. revert r2. induction H1 as [|i x indices r1 Hx H1 IH]; intros r2 H2.
  { by apply Forall2_nil_inv_l in H2 as ->. }
  apply Forall2_cons_inv_l in H2 as (y & r2' & Hy & H2 & ->).
  constructor; [|by apply IH].
  by eapply Forall2_lookup_lr.
Qed.

Lemma dataset_init_spec path sh w d n :
  disk (host w) !! path = Some d →
  core_restriction (host w) = None →
  well_formed (args (host w)) n d →
  ∃ d' rng, BertSingleFileDataset__init__ path sh w = (inr (mkDataset d'), set_np rng w)
          ∧ well_formed (args (host w)) n d'.
Proof.
  intros Hd Hg Hwf. unfold BertSingleFileDataset__init__.
  unfold ensure_no_core_restriction at 1. rewrite bind_eq, Hg.
  unfold h5py_File at 1. rewrite bind_eq, Hd.
  destruct sh.
  2:{ exists d, (np_random w). split; [|done]. rewrite run_ret. by destruct w. }
  destruct Hwf as (H1 & H2 & H3 & H4 & H5 & H6 & HF).
  unfold numpy_random_shuffle at 1. rewrite bind_eq.
  pose proof (shuffled_Permutation (seq 0 (length (input_ids d))) (np_random w)) as Hperm.
  destruct (shuffled (seq 0 (length (input_ids d))) (np_random w)) as [indices rng].
  simpl in Hperm.
  assert (Hidx : Forall (λ i, (i < n)%nat) indices).
  { apply Forall_forall. intros i Hi. rewrite Hperm in Hi.
    apply elem_of_seq in Hi. lia. }
  assert (Hlen : length indices = n).
  { by rewrite Hperm, length_seq. }
  destruct (take_rows_spec (input_ids d) indices) as (c1 & E1 & F1); [by rewrite H1|].
  destruct (take_rows_spec (segment_ids d) indices) as (c2 & E2 & F2); [by rewrite H2|].
  destruct (take_rows_spec (input_mask d) indices) as (c3 & E3 & F3); [by rewrite H3|].
  destruct (take_rows_spec (masked_lm_positions d) indices) as (c4 & E4 & F4); [by rewrite H4|].
  destruct (take_rows_spec (masked_lm_ids d) indices) as (c5 & E5 & F5); [by rewrite H5|].
  destruct (take_rows_spec (next_sentence_labels d) indices) as (c6 & E6 & F6); [by rewrite H6|].
  rewrite E1, E2, E3, E4, E5, E6. wrun.
  exists (mkShard c1 c2 c3 c4 c5 c6), rng. split; [done|].
  unfold well_formed. simpl.
  rewrite <- (Forall2_length _ _ _ F1), <- (Forall2_length _ _ _ F2),
    <- (Forall2_length _ _ _ F3), <- (Forall2_length _ _ _ F4),
    <- (Forall2_length _ _ _ F5), <- (Forall2_length _ _ _ F6).
  split_and!; try done. by eapply rows_Forall2.
Qed.

Lemma factory_spec path size sh nw w d n :
  disk (host w) !! path = Some d →
  core_restriction (host w) = None →
  well_formed (args (host w)) n d →
  (0 < size)%Z → (0 ≤ nw)%Z →
  ∃ d' rng,
    _singlefile_dataloader_factory path size sh nw w
      = (inr (mkDataLoader (mkDataset d') size nw), set_np rng w)
    ∧ well_formed (args (host w)) n d'.
Proof.
  intros Hd Hg Hwf Hsize Hnw. unfold _singlefile_dataloader_factory.
  unfold ensure_no_core_restriction at 1. rewrite bind_eq, Hg.
  destruct (dataset_init_spec path sh w d n Hd Hg Hwf) as (d' & rng & Hinit & Hwf').
  rewrite bind_eq, Hinit. exists d', rng. split; [|done].
  rewrite run_lift. unfold DataLoader__init__.
  destruct (Z.ltb_spec nw 0); [lia|]. destruct (Z.leb_spec size 0); [lia|]. done.
Qed.

Lemma getitem_spec a d n i :
  well_formed a n d → (i < n)%nat →
  ∃ sample, BertSingleFileDataset__getitem__ a (mkDataset d) i = inr sample.
Proof.
  intros (H1 & H2 & H3 & H4 & H5 & H6 & HF) Hi.
  unfold BertSingleFileDataset__getitem__, row. simpl.
  destruct (lookup_lt_is_Some_2 (input_ids d) i) as [r1 ->]; [lia|].
  destruct (lookup_lt_is_Some_2 (segment_ids d) i) as [r2 ->]; [lia|].
  destruct (lookup_lt_is_Some_2 (input_mask d) i) as [r3 ->]; [lia|].
  destruct (lookup_lt_is_Some_2 (masked_lm_positions d) i) as [r4 E4]; [lia|].
  destruct (lookup_lt_is_Some_2 (masked_lm_ids d) i) as [r5 E5]; [lia|].
  destruct (lookup_lt_is_Some_2 (next_sentence_labels d) i) as [r6 ->]; [lia|].
  rewrite E4, E5. cbn [mbind sum_bind].
  destruct (Forall2_lookup_lr _ _ _ _ _ _ HF E4 E5) as [labels ->].
  by eexists.
Qed.

Lemma fetch_spec a d n idxs :
  well_formed a n d → Forall (λ i, (i < n)%nat) idxs →
  ∃ b, fetch a (mkDataset d) idxs = inr b ∧ length b = length idxs.
Proof.
  intros Hwf. induction idxs as [|i idxs IH]; intros Hall; [by exists []|].
  apply Forall_cons in Hall as [Hi Hall]. destruct (IH Hall) as (b & Hb & Hlen).
  destruct (getitem_spec a d n i Hwf Hi) as [sample Hs].
  simpl. rewrite Hs. cbn [mbind sum_bind]. rewrite Hb.
  exists (sample :: b). split; [done|]. simpl. by rewrite Hlen.
Qed.

Lemma consume_S turns fr steps :
  consume turns fr (S steps) = consume_from (resume turns fr) turns steps.
Proof. reflexivity. Qed.

Lemma while_S turns :
  while_future_dataset (S turns) =
    (s ← gets self;
     match future_dataset s with
     | None => reset;; ret StopIteration
     | Some f =>
         match dataset s with
         | Deleted => raise (AttributeError "dataset")
         | _ => modify (with_self (set_dataset Deleted))
         end;;
         dl ← result f;
         modify (with_self (set_dataset (Obj dl)));;
         s ← gets self;
         _fetch_future_dataset_or_none (file_index s + 1);;
         for_batch_in_dataset (t_index f) dl (batches_of dl)
                              (while_future_dataset turns)
     end).
Proof. reflexivity. Qed.

Lemma reset_spec w :
  dataset (self w) ≠ Deleted →
  reset w = (inr tt,
             with_self (λ s, mkLoader (num_workers s) (files s) (batch_size s)
                               (loop s) (shuffle s) 0 0 None PyNone None) w).
Proof.
  intros Hd. unfold reset, _destroy_datasets_if_exist, _destroy_poolworker_if_exists.
  wrun. destruct (dataset (self w)) eqn:E; [done|..]; wrun; done.
Qed.

Lemma stream_rest src dl d n t t' rest : ∀ steps w,
  dl_dataset dl = mkDataset d →
  well_formed (args (host w)) n d →
  Forall (Forall (λ i, (i < n)%nat)) rest →
  future_dataset (self w) = None →
  dataset (self w) ≠ Deleted →
  (length rest ≤ steps)%nat →
  ∃ bs w',
    consume_from (for_batch_in_dataset src dl rest (while_future_dataset (S t')))
                 (S t) steps w = (inr (Some bs), w')
    ∧ Forall2 (λ idxs b, length b = length idxs) rest bs.
Proof.
  revert t'. induction rest as [|idxs rest IH]; intros t' steps w Hdl Hwf Hall Hfut Hds Hsteps.
  - unfold consume_from, for_batch_in_dataset. rewrite while_S.
    wrun. rewrite Hfut. wrun. rewrite reset_spec by (fields; done). wrun.
    eexists _, _. split; [done|]. constructor.
  - apply Forall_cons in Hall as [Hidxs Hall].
    destruct (fetch_spec _ d n idxs Hwf Hidxs) as (b & Hb & Hlen).
    destruct steps as [|steps]; [simpl in Hsteps; lia|].
    unfold consume_from, for_batch_in_dataset. wrun. rewrite Hdl, Hb. wrun.
    rewrite consume_S. unfold resume. 
    destruct (IH t steps (with_self (set_sample_index (sample_index (self w) + batch_size (self w))) w))
      as (bs & w' & Hrun & Hbs); try done.
    { simpl in Hsteps. lia. }
    unfold consume_from in *. rewrite bind_eq in Hrun. rewrite bind_eq.
    wrun. 
    destruct (for_batch_in_dataset src dl rest (while_future_dataset (S t)) _) as [[e|o] w''].
    { done. }
    rewrite Hrun. wrun. eexists _, _. split; [done|]. by constructor.
Qed.

(** ** Iterating a single shard *)

Lemma init_spec l size sh lp nw w fl :
  lists w !! l = Some fl →
  ∃ w', BertMultiFileDataloader__init__ l size sh lp nw w = (inr tt, w')
      ∧ host w' = host w
      ∧ self w' = mkLoader nw l size lp sh 0 0 None PyNone None
      ∧ np_random w' = np_random w
      ∧ peak_in_flight w' = peak_in_flight w
      ∧ peak_resident w' = peak_resident w
      ∧ lists w' = (if sh then <[l := (shuffled fl (py_random w)).1]> (lists w)
                    else lists w)
      ∧ py_random w' = (if sh then (shuffled fl (py_random w)).2 else py_random w).
Proof.
  intros Hl. unfold BertMultiFileDataloader__init__. destruct sh.
  - rewrite bind_eq. unfold random_shuffle. rewrite Hl.
    destruct (shuffled fl (py_random w)) as [x' rng']. wrun.
    eexists. split; [done|]. by split_and!.
  - wrun. eexists. split; [done|]. by split_and!.
Qed.

Lemma is_task_refl f : is_task f f = true.
Proof. apply Nat.eqb_refl. Qed.

Lemma result_only_queued f p w :
  pool (self w) = Some p → queue p = [f] →
  result f w
  = run_task f (with_self (set_pool (Some (mkPool [] (submitted p)))) w).
Proof.
  intros Hp Hq. unfold result. wrun. rewrite Hp, Hq. cbn [existsb work_up_to].
  rewrite is_task_refl. cbn [orb]. by wrun.
Qed.

Ltac go :=
  repeat first [ prim | match goal with H : self _ = _ |- _ => rewrite H end
               | match goal with H : lists _ !! _ = _ |- _ => rewrite H end ].

(** The first [next] on a loader just built over the one-file list
    [[path]]: the shard is loaded, nothing further is requested, and the
    [for] loop starts on its batches. *)
Lemma first_resume_single_shard w1 l path d n size sh nw t :
  lists w1 !! l = Some [path] →
  disk (host w1) !! path = Some d →
  core_restriction (host w1) = None →
  well_formed (args (host w1)) n d →
  (1 ≤ size)%Z → (0 ≤ nw)%Z →
  self w1 = mkLoader nw l size false sh 0 0 None PyNone None →
  ∃ d' W,
    well_formed (args (host w1)) n d'
    ∧ resume (S (S t)) Created w1
      = for_batch_in_dataset 0 (mkDataLoader (mkDataset d') size nw)
          (batches_of (mkDataLoader (mkDataset d') size nw))
          (while_future_dataset (S t)) W
    ∧ host W = host w1
    ∧ future_dataset (self W) = None
    ∧ dataset (self W) = Obj (mkDataLoader (mkDataset d') size nw)
    ∧ file_index (self W) = 0%Z ∧ sample_index (self W) = 0%Z
    ∧ batch_size (self W) = size.
Proof.
  intros Hl1 Hd Hg Hwf Hsize Hnw Hself. unfold resume.
  unfold _create_poolworker_if_not_exists at 1. go.
  unfold _fetch_future_dataset_or_none at 1. go.
  change (false || (0 <? Z.of_nat (length [path]))%Z) with true. cbv iota.
  change ([path] !! Z.to_nat (0 `mod` Z.of_nat (length [path]))) with (Some path).
  cbv iota. unfold submit at 1. go.
  rewrite while_S. go.
  erewrite result_only_queued by (fields; done). go.
  unfold run_task. fields.
  match goal with |- context [_singlefile_dataloader_factory path size sh nw ?w0] =>
    destruct (factory_spec path size sh nw w0 d n) as (d' & rng & Hrun & Hwf');
      [done..|lia|done|]; rewrite Hrun
  end.
  simpl in Hwf'. go.
  unfold _fetch_future_dataset_or_none at 1. go.
  change (false || (0 + 1 <? Z.of_nat (length [path]))%Z) with false. cbv iota. go.
  eexists d', _. split; [done|]. split; [reflexivity|].
  fields. rewrite Hself. by split_and!.
Qed.

(** C5: a loader built over a one-element shard list, not looping, and
    then iterated to its end gives exactly [n / size] batches of exactly
    [size] samples each, for a shard of [n] samples and a batch size
    [size >= 1]; a trailing partial batch is not given out.  The shard file
    is on disk with six columns of [n] rows, the guard against core
    restriction returns, and [bound], the limit on loop turns, is large
    enough for the run to end. *)
Theorem single_shard_batches (w : World) (l : loc) (path : string) (d : Shard)
    (n : nat) (size : Z) (sh : bool) (nw : Z) (bound : nat) :
  lists w !! l = Some [path] →
  disk (host w) !! path = Some d →
  core_restriction (host w) = None →
  well_formed (args (host w)) n d →
  (1 ≤ size)%Z → (0 ≤ nw)%Z →
  (n / Z.to_nat size + 2 ≤ bound)%nat →
  ∃ bs w',
    (BertMultiFileDataloader__init__ l size sh false nw
       ≫= λ _, consume bound BertMultiFileDataloader__iter__ bound) w
      = (inr (Some bs), w')
    ∧ length bs = (n / Z.to_nat size)%nat
    ∧ Forall (λ b, length b = Z.to_nat size) bs.
Proof.
  intros Hl Hd Hg Hwf Hsize Hnw Hbound.
  destruct (init_spec l size sh false nw w [path] Hl)
    as (w1 & Hinit & Hhost & Hself & _ & _ & _ & Hlists & _).
  assert (Hl1 : lists w1 !! l = Some [path]).
  { rewrite Hlists. destruct sh; [|done]. by rewrite lookup_insert_eq. }
  rewrite bind_eq, Hinit. clear Hinit Hlists Hl.
  rewrite <- Hhost in Hd, Hg, Hwf. clear Hhost.
  destruct bound as [|[|bound]]; [lia..|].
  rewrite consume_S. unfold BertMultiFileDataloader__iter__.
  unfold consume_from. rewrite bind_eq.
  destruct (first_resume_single_shard w1 l path d n size sh nw bound)
    as (d' & W & Hwf' & -> & HhostW & Hfut & Hds & _); try done.
  set (dl := mkDataLoader (mkDataset d') size nw) in *.
  destruct (batches_of_spec dl) as [Hlen Hall]; [simpl; lia|].
  simpl in Hlen, Hall. unfold BertSingleFileDataset__len__ in *. simpl in Hlen, Hall.
  rewrite (proj1 Hwf') in *.
  destruct (stream_rest 0 dl d' n (S bound) bound (batches_of dl) (S bound) W)
    as (bs & w' & Hstream & Hbs); try done.
  { by rewrite HhostW. }
  { eapply Forall_impl; [exact Hall|]. by intros b [_ ?]. }
  { by rewrite Hds. }
  { lia. }
  unfold consume_from in Hstream. rewrite bind_eq in Hstream.
  exists bs, w'. split; [exact Hstream|]. split.
  - by rewrite <- (Forall2_length _ _ _ Hbs).
  - clear Hstream Hlen. revert Hall. induction Hbs as [|idxs b rest bs Hb _ IH]; [done|].
    intros [[Hidxs _] Hall]%Forall_cons. constructor; [lia|by apply IH].
Qed.

(** ** What the pieces of the generator touch *)

Lemma set_np_same w : w = set_np (np_random w) w.
Proof. by destruct w. Qed.

Lemma only_np_bind {A B} (m : py World A) (k : A → py World B) :
  only_np m → (∀ a, only_np (k a)) → only_np (m ≫= k).
Proof.
  intros Hm Hk w. rewrite bind_eq. destruct (Hm w) as [rng Hw].
  destruct (m w) as [[e|a] w']; simpl in Hw; subst w'; [by exists rng|].
  destruct (Hk a (set_np rng w)) as [rng' ->]. by exists rng'.
Qed.

Lemma only_np_pure {A} (r : exn + A) : only_np (λ w, (r, w)).
Proof. intros w. exists (np_random w). apply set_np_same. Qed.

Lemma only_np_ensure : only_np ensure_no_core_restriction.
Proof.
  intros w. exists (np_random w). unfold ensure_no_core_restriction.
  destruct (core_restriction (host w)); apply set_np_same.
Qed.

Lemma only_np_h5py path : only_np (h5py_File path).
Proof.
  intros w. exists (np_random w). unfold h5py_File.
  destruct (disk (host w) !! path); apply set_np_same.
Qed.

Lemma only_np_shuffle indices : only_np (numpy_random_shuffle indices).
Proof.
  intros w. unfold numpy_random_shuffle.
  destruct (shuffled indices (np_random w)) as [x rng]. by exists rng.
Qed.

Lemma factory_world path size sh nw : 
  only_np (_singlefile_dataloader_factory path size sh nw).
Proof.
  unfold _singlefile_dataloader_factory, BertSingleFileDataset__init__.
  repeat first
    [ apply only_np_bind; [|intros ?]
    | apply only_np_ensure | apply only_np_h5py | apply only_np_shuffle
    | apply (only_np_pure (A := _))
    | match goal with |- only_np (if ?b then _ else _) => destruct b end ].
Qed.

Lemma run_task_world t w : ∃ rng, (run_task t w).2 = set_np rng w.
Proof. apply factory_world. Qed.

Lemma work_up_to_world f q w :
  ∃ q' rng, work_up_to f q w = (inr q', set_np rng w).
Proof.
  revert w. induction q as [|t q IH]; intros w.
  { exists [], (np_random w). simpl. rewrite run_ret. by destruct w. }
  simpl. destruct (is_task f t).
  { exists q, (np_random w). rewrite run_ret. by destruct w. }
  rewrite bind_eq. unfold attempt at 1.
  destruct (run_task_world t w) as [rng ->].
  destruct (IH (set_np rng w)) as (q' & rng' & ->). by exists q', rng'.
Qed.

Lemma result_world f w :
  ∃ p' rng, (result f w).2 = set_np rng (with_self (set_pool p') w).
Proof.
  unfold result. wrun.
  destruct (pool (self w)) as [p|] eqn:Hp.
  - destruct (existsb (is_task f) (queue p)).
    + rewrite bind_eq.
      destruct (work_up_to_world f (queue p) w) as (q' & rng & ->). wrun.
      match goal with |- context [run_task f ?W] =>
        destruct (run_task_world f W) as [rng' Hw]
      end.
      destruct (run_task f _) as [[e|dl] w']; simpl in Hw; subst w';
        by eexists _, rng'.
    + wrun. destruct (run_task_world f w) as [rng Hw].
      destruct (run_task f w) as [[e|dl] w']; simpl in Hw; subst w';
        exists (Some p), rng; simpl; by rewrite <- Hp; destruct w as [? ? ? ? []].
  - wrun. destruct (run_task_world f w) as [rng Hw].
    destruct (run_task f w) as [[e|dl] w']; simpl in Hw; subst w';
      exists None, rng; simpl; by rewrite <- Hp; destruct w as [? ? ? ? []].
Qed.

Lemma fetch_outcomes index w :
  (∃ e, _fetch_future_dataset_or_none index w = (inl e, w))
  ∨ _fetch_future_dataset_or_none index w
    = (inr tt, with_self (set_future_dataset None) w)
  ∨ ∃ p file,
      pool (self w) = Some p
      ∧ let t := mkTask (submitted p) index file (batch_size (self w))
                        (shuffle (self w)) (num_workers (self w)) in
        _fetch_future_dataset_or_none index w
        = (inr tt,
           with_self (set_future_dataset (Some t))
             (record_peaks
                (with_self
                   (set_pool (Some (mkPool (queue p ++ [t]) (S (submitted p)))))
                   w))).
Proof.
  unfold _fetch_future_dataset_or_none. wrun.
  destruct (lists w !! files (self w)) as [fl|]; [|left; by eexists].
  destruct (loop (self w) || (index <? Z.of_nat (length fl))%Z).
  2:{ right. left. by wrun. }
  destruct fl as [|f0 fl]; [left; by eexists|].
  destruct ((f0 :: fl) !! _) as [file|]; [|left; by eexists].
  rewrite bind_eq. unfold submit.
  destruct (pool (self w)) as [p|] eqn:Hp; [|left; by eexists].
  right. right. exists p, file. split; [done|]. by wrun.
Qed.

(** ** One load ahead, two datasets at most *)

Ltac bounds :=
  unfold step_ok, within_bounds in *;
  do 3 (unfold in_flight_now, resident_now in *; fields);
  simpl; lia.

Lemma for_batch_ok src dl rest cont w :
  within_bounds w → dataset (self w) = Obj dl → file_index (self w) = src →
  prefetch_one_ahead src (self w) →
  (∀ w1, loop_head w1 → step_ok (cont w1)) →
  step_ok (for_batch_in_dataset src dl rest cont w).
Proof.
  intros Hb Hds Hsrc Hpre Hcont. unfold for_batch_in_dataset.
  destruct rest as [|idxs rest].
  - wrun. apply Hcont. split; [exact Hb|]. fields.
    unfold prefetch_one_ahead in Hpre. rewrite Hsrc.
    destruct (future_dataset (self w)); [|done]. by destruct Hpre.
  - wrun. destruct (fetch _ _ idxs) as [e|b]; wrun; unfold step_ok; simpl; [done|].
    by split.
Qed.

Lemma while_ok turns : ∀ w, loop_head w → step_ok (while_future_dataset turns w).
Proof.
  induction turns as [|turns IH]; intros w [Hb Hfut]; [by wrun|].
  rewrite while_S. wrun.
  destruct Hb as (Hb1 & Hb2 & Hb3 & Hb4).
  destruct (future_dataset (self w)) as [f|] eqn:Hf.
  2:{ (* the shard list is used up: reset *)
      unfold reset, _destroy_datasets_if_exist, _destroy_poolworker_if_exists.
      wrun. unfold step_ok, within_bounds.
      unfold in_flight_now, resident_now in *.
      destruct (dataset (self w)) eqn:Hds; wrun; simpl; fields;
        rewrite ?Hds; destruct (pool (self w)); simpl in *; lia. }
  destruct Hfut as (Hidx & p & Hp & Hq). wrun.
  assert (Hdel : dataset (self w) = Deleted
               ∨ (match dataset (self w) with
                  | Deleted => raise (AttributeError "dataset")
                  | _ => modify (with_self (set_dataset Deleted))
                  end) w = (inr tt, with_self (set_dataset Deleted) w)).
  { destruct (dataset (self w)); [by left|by right|by right]. }
  destruct Hdel as [Hdel|Hdel].
  { rewrite Hdel. wrun. unfold step_ok, within_bounds; simpl. done. }
  rewrite Hdel. wrun.
  erewrite result_only_queued by (fields; done).
  match goal with |- context [run_task f ?W] =>
    destruct (run_task_world f W) as [rng Hw];
    destruct (run_task f W) as [[e|dl] w1] eqn:Hrun; simpl in Hw; subst w1
  end.
  { bounds. }
  wrun.
  match goal with |- context [_fetch_future_dataset_or_none ?i ?W] =>
    destruct (fetch_outcomes i W) as [[e ->]|[->|(p2 & file & Hp2 & ->)]]
  end.
  - bounds.
  - wrun. apply for_batch_ok; fields; try done;
      first [ bounds | unfold prefetch_one_ahead; by fields ].
  - simpl in Hp2. injection Hp2 as <-. fields.
    wrun. apply for_batch_ok; fields; try done;
      first [ bounds
            | unfold prefetch_one_ahead; fields;
              split; [by rewrite Hidx|by eexists]
            ].
Qed.

Lemma resume_ok turns fr w :
  streaming_invariant w fr → step_ok (resume turns fr w).
Proof.
  intros [Hb Hfr]. destruct fr as [|src dl rest|]; unfold resume.
  - destruct Hfr as (Hp & Hds & Hf). destruct Hb as (Hb1 & Hb2 & _ & _).
    unfold _create_poolworker_if_not_exists. wrun. rewrite Hp. wrun.
    match goal with |- context [_fetch_future_dataset_or_none ?i ?W] =>
      destruct (fetch_outcomes i W) as [[e ->]|[->|(p2 & file & Hp2 & ->)]]
    end.
    + unfold step_ok, within_bounds, in_flight_now, resident_now. fields.
      rewrite Hds. simpl. lia.
    + apply while_ok. split; [|by fields].
      unfold within_bounds, in_flight_now, resident_now. fields.
      rewrite Hds. simpl. lia.
    + simpl in Hp2. injection Hp2 as <-. fields.
      apply while_ok. split.
      * unfold within_bounds. do 3 (unfold in_flight_now, resident_now; fields).
        rewrite Hds. simpl. lia.
      * fields. split; [done|by eexists].
  - destruct Hfr as (Hds & Hsrc & Hpre). wrun.
    apply for_batch_ok; fields; try done.
    intros w1. apply while_ok.
  - by wrun.
Qed.

(** C7, amended: in every state reached during one iteration begun on a
    torn-down loader, no more than one load has ever been awaited-for at a
    time and no more than two shard datasets held, now or before
    ([within_bounds], on the history variables and the current counts); and
    while the generator is parked in a shard [src], that shard's loader is
    the current dataset and the load under way, if there is one, is the
    only one queued and is for index [src + 1]. *)
Theorem prefetch_stays_one_ahead (w0 w : World) (fr : Frame) :
  torn_down (self w0) →
  (peak_in_flight w0 ≤ 1)%nat → (peak_resident w0 ≤ 2)%nat →
  rtc iter_step (w0, BertMultiFileDataloader__iter__) (w, fr) →
  streaming_invariant w fr.
Proof.
  intros Htd Hp1 Hp2 Hreach.
  change (streaming_invariant (w, fr).1 (w, fr).2).
  revert Hreach. generalize (w, fr). clear w fr. apply rtc_ind_r.
  { split; [|done].
    destruct Htd as (Hp & Hds & Hf). unfold within_bounds, in_flight_now, resident_now.
    simpl. rewrite Hp, Hds. simpl. lia. }
  intros [w1 fr1] [w2 fr2] _ Hstep IH. simpl in *.
  pose proof (resume_ok) as Hok.
  inversion Hstep as [turns ? ? b ? ? Hrun|turns ? ? r ? Hrun Hend]; subst.
  - specialize (Hok turns fr1 w1 IH). rewrite Hrun in Hok. exact Hok.
  - specialize (Hok turns fr1 w1 IH). rewrite Hrun in Hok. unfold step_ok in Hok.
    simpl in Hok. split; [|done].
    destruct r as [e|[b fr'| |]]; try done. by destruct (Hend b fr').
Qed.

(** ** forward *)

Lemma for_batch_dataset src dl rest cont w :
  holds_dataset (self w) →
  (∀ w1, yields_with_dataset (cont w1)) →
  yields_with_dataset (for_batch_in_dataset src dl rest cont w).
Proof.
  intros Hds Hcont. unfold for_batch_in_dataset. destruct rest as [|idxs rest].
  - wrun. apply Hcont.
  - wrun. by destruct (fetch _ _ idxs).
Qed.

Lemma while_dataset turns : ∀ w, yields_with_dataset (while_future_dataset turns w).
Proof.
  induction turns as [|turns IH]; intros w; [by wrun|].
  rewrite while_S. wrun.
  destruct (future_dataset (self w)) as [f|].
  2:{ rewrite bind_eq. by destruct (reset w) as [[e|[]] w']. }
  rewrite bind_eq.
  destruct (dataset (self w)); wrun; [done|..].
  all: match goal with |- context [result ?f0 ?W] =>
         destruct (result_world f0 W) as (p' & rng & Hw);
         destruct (result f0 W) as [[e|dl] w1]; simpl in Hw; subst w1; [done|]
       end.
  all: wrun.
  all: match goal with |- context [_fetch_future_dataset_or_none ?i ?W] =>
         destruct (fetch_outcomes i W) as [[e ->]|[->|(p2 & file & Hp2 & ->)]]
       end; [done|..].
  all: apply for_batch_dataset; [by unfold holds_dataset; fields|exact IH].
Qed.

Lemma resume_dataset turns fr w :
  fr = Created ∨ holds_dataset (self w) →
  yields_with_dataset (resume turns fr w).
Proof.
  intros Hfr. destruct fr as [|src dl rest|]; unfold resume.
  - rewrite bind_eq.
    destruct (_create_poolworker_if_not_exists w) as [[e|[]] w1]; [done|]. wrun.
    destruct (_fetch_future_dataset_or_none _ w1) as [[e|[]] w2]; [done|].
    apply while_dataset.
  - destruct Hfr as [?|Hds]; [done|]. wrun.
    apply for_batch_dataset; [by unfold holds_dataset in *; fields|].
    apply while_dataset.
  - by wrun.
Qed.

Lemma draw_batches_S turns k fr :
  draw_batches turns (S k) fr = then_draw (resume turns fr) turns k.
Proof. reflexivity. Qed.

Ltac wrun_in H :=
  repeat first [ rewrite bind_eq in H | rewrite run_ret in H
               | rewrite run_gets in H | rewrite run_modify in H
               | rewrite run_lift in H | rewrite run_raise in H ].

Lemma forward_enumerate_draws bound count k : ∀ idx fr w steps bs fr' w1,
  Z.to_nat (count - idx) = k → (idx ≤ count)%Z →
  draw_batches bound (S k) fr w = (inr (Some (bs, fr')), w1) →
  (k < steps)%nat →
  forward_enumerate bound count idx fr steps w = (inr (Some bs), w1).
Proof.
  induction k as [|k IH]; intros idx fr w steps bs fr' w1 Hk Hidx Hdraw Hsteps.
  - destruct steps as [|steps]; [lia|].
    cbn [forward_enumerate]. rewrite draw_batches_S in Hdraw. unfold then_draw in Hdraw.
    rewrite bind_eq in Hdraw. rewrite bind_eq. revert Hdraw.
    destruct (resume bound fr w) as [[e|[b fr1| |]] w2]; try done.
    intros Hdraw. cbn [draw_batches] in Hdraw. wrun_in Hdraw.
    cbn [fmap option_fmap option_map] in Hdraw.
    injection Hdraw as <- <- <-.
    destruct (Z.leb_spec count idx); [done|lia].
  - destruct steps as [|steps]; [lia|].
    cbn [forward_enumerate]. rewrite draw_batches_S in Hdraw. unfold then_draw in Hdraw.
    rewrite bind_eq in Hdraw. rewrite bind_eq. revert Hdraw.
    destruct (resume bound fr w) as [[e|[b fr1| |]] w2]; try done.
    destruct (Z.leb_spec count idx); [lia|].
    intros Hdraw. rewrite bind_eq in Hdraw.
    destruct (draw_batches bound (S k) fr1 w2) as [[e|[[bs1 fr2]|]] w3] eqn:Hrest;
      wrun_in Hdraw; try done.
    cbn [fmap option_fmap option_map] in Hdraw. injection Hdraw as <- <- <-.
    rewrite bind_eq.
    rewrite (IH (idx + 1)%Z fr1 w2 steps bs1 fr2 w3); [by wrun|lia|lia|done|lia].
Qed.

Lemma draw_batches_dataset turns k : ∀ fr w bs fr' w1,
  fr = Created ∨ holds_dataset (self w) →
  draw_batches turns (S k) fr w = (inr (Some (bs, fr')), w1) →
  holds_dataset (self w1) ∧ length bs = S k.
Proof.
  induction k as [|k IH]; intros fr w bs fr' w1 Hfr Hdraw;
    rewrite draw_batches_S in Hdraw; unfold then_draw in Hdraw;
    rewrite bind_eq in Hdraw;
    pose proof (resume_dataset turns fr w Hfr) as Hds; revert Hdraw Hds;
    destruct (resume turns fr w) as [[e|[b fr1| |]] w2]; try done;
    unfold yields_with_dataset; cbn [fst snd]; intros Hdraw Hds.
  - cbn [draw_batches] in Hdraw. wrun_in Hdraw.
    cbn [fmap option_fmap option_map] in Hdraw. by injection Hdraw as <- <- <-.
  - rewrite bind_eq in Hdraw.
    destruct (draw_batches turns (S k) fr1 w2) as [[e|[[bs1 fr2]|]] w3] eqn:Hrest;
      wrun_in Hdraw; try done.
    cbn [fmap option_fmap option_map] in Hdraw. injection Hdraw as <- <- <-.
    destruct (IH fr1 w2 bs1 fr2 w3) as [? Hlen]; [by right|done|].
    split; [done|]. simpl. by rewrite Hlen.
Qed.

Lemma teardown_after_draws {A} (x : A) (w1 : World) :
  holds_dataset (self w1) →
  (_destroy_datasets_if_exist;; _destroy_poolworker_if_exists;; ret x) w1
  = (inr x, torn w1).
Proof.
  intros Hds. unfold _destroy_datasets_if_exist, _destroy_poolworker_if_exists.
  wrun. unfold holds_dataset in Hds.
  by destruct (dataset (self w1)) eqn:Hd.
Qed.

Lemma forward_after_draws (bound : nat) (count : Z) (w w1 : World)
    (bs : list Batch) (fr : Frame) :
  (0 ≤ count)%Z → (Z.to_nat count < bound)%nat →
  draw_batches bound (S (Z.to_nat count)) BertMultiFileDataloader__iter__ w
    = (inr (Some (bs, fr)), w1) →
  forward bound count w = (inr (Some bs), torn w1).
Proof.
  intros Hcount Hbound Hdraw.
  destruct (draw_batches_dataset _ _ _ _ _ _ _ (or_introl eq_refl) Hdraw)
    as [Hds Hlen].
  unfold forward. rewrite bind_eq.
  rewrite (forward_enumerate_draws bound count (Z.to_nat count) 0
             BertMultiFileDataloader__iter__ w bound bs fr w1);
    [|f_equal; lia|lia|done|lia].
  by apply teardown_after_draws.
Qed.

(** C6, amended: when [count >= 0] and the iteration yields [count + 1]
    batches from the state [w], leaving the state [w1], then
    [forward(count)] draws and drops just these [count + 1] batches, and
    ends with the cursor as it stands in [w1] (the position [count] batches
    on, since the cursor moves past a batch only when the next is asked
    for), not reset, and with pool, dataset and pending load all [None]. *)
Theorem forward_draws_one_more (bound : nat) (count : Z) (w w1 : World)
    (bs : list Batch) (fr : Frame) :
  (0 ≤ count)%Z → (Z.to_nat count < bound)%nat →
  draw_batches bound (S (Z.to_nat count)) BertMultiFileDataloader__iter__ w
    = (inr (Some (bs, fr)), w1) →
  ∃ w2, forward bound count w = (inr (Some bs), w2)
      ∧ length bs = S (Z.to_nat count)
      ∧ file_index (self w2) = file_index (self w1)
      ∧ sample_index (self w2) = sample_index (self w1)
      ∧ pool (self w2) = None ∧ dataset (self w2) = PyNone
      ∧ future_dataset (self w2) = None.
Proof.
  intros Hcount Hbound Hdraw. exists (torn w1).
  split; [by eapply forward_after_draws|].
  split.
  - by destruct (draw_batches_dataset _ _ _ _ _ _ _ (or_introl eq_refl) Hdraw).
  - unfold torn. by fields.
Qed.

Lemma draw_within_shard src dl d n t : ∀ k rest w t',
  dl_dataset dl = mkDataset d →
  well_formed (args (host w)) n d →
  Forall (Forall (λ i, (i < n)%nat)) rest →
  (k < length rest)%nat →
  ∃ bs fr' w',
    then_draw (for_batch_in_dataset src dl rest (while_future_dataset (S t')))
              (S t) k w = (inr (Some (bs, fr')), w')
    ∧ file_index (self w') = file_index (self w)
    ∧ sample_index (self w')
      = (sample_index (self w) + Z.of_nat k * batch_size (self w))%Z.
Proof.
  induction k as [|k IH]; intros rest w t' Hdl Hwf Hall Hk;
    (destruct rest as [|idxs rest]; [simpl in Hk; lia|]);
    apply Forall_cons in Hall as [Hidxs Hall];
    destruct (fetch_spec _ d n idxs Hwf Hidxs) as (b & Hb & Hlen);
    unfold then_draw, for_batch_in_dataset; wrun; rewrite Hdl, Hb; wrun.
  - cbn [draw_batches]. wrun. eexists _, _, _. split; [done|]. split; [done|]. lia.
  - rewrite draw_batches_S. unfold resume.
    destruct (IH rest
                (with_self (set_sample_index
                              (sample_index (self w) + batch_size (self w))) w) t)
      as (bs & fr' & w' & Hrun & Hfi & Hsi); try done.
    { simpl in Hk. lia. }
    unfold then_draw in *. rewrite bind_eq in Hrun. rewrite bind_eq. wrun.
    destruct (for_batch_in_dataset src dl rest (while_future_dataset (S t)) _)
      as [[e|o] w''].
    { done. }
    rewrite Hrun. wrun. cbn [fmap option_fmap option_map].
    eexists _, _, _. split; [done|]. split; [exact Hfi|].
    rewrite Hsi. fields. lia.
Qed.

(** X19: on a loader built with [loop=False] over a one-file list whose
    shard has more than [count] whole batches, [forward(count)], for
    [count >= 0], draws [count + 1] batches and leaves the cursor in the
    first shard, [count] batches on: [file_index = 0] and
    [sample_index = count * size]. *)
Lemma forward_within_single_shard (w : World) (l : loc) (path : string)
    (d : Shard) (n : nat) (size : Z) (sh : bool) (nw : Z) (count : Z)
    (bound : nat) :
  lists w !! l = Some [path] →
  disk (host w) !! path = Some d →
  core_restriction (host w) = None →
  well_formed (args (host w)) n d →
  (1 ≤ size)%Z → (0 ≤ nw)%Z →
  (0 ≤ count)%Z → (Z.to_nat count < n / Z.to_nat size)%nat →
  (Z.to_nat count + 2 ≤ bound)%nat →
  ∃ bs w2,
    (BertMultiFileDataloader__init__ l size sh false nw
       ≫= λ _, forward bound count) w = (inr (Some bs), w2)
    ∧ length bs = S (Z.to_nat count)
    ∧ file_index (self w2) = 0%Z
    ∧ sample_index (self w2) = (count * size)%Z
    ∧ pool (self w2) = None ∧ dataset (self w2) = PyNone
    ∧ future_dataset (self w2) = None.
Proof.
  intros Hl Hd Hg Hwf Hsize Hnw Hcount Hin Hbound.
  destruct (init_spec l size sh false nw w [path] Hl)
    as (w1 & Hinit & Hhost & Hself & _ & _ & _ & Hlists & _).
  assert (Hl1 : lists w1 !! l = Some [path]).
  { rewrite Hlists. destruct sh; [|done]. by rewrite lookup_insert_eq. }
  rewrite bind_eq, Hinit. clear Hinit Hlists Hl.
  rewrite <- Hhost in Hd, Hg, Hwf. clear Hhost.
  destruct bound as [|[|t]]; [lia..|].
  destruct (first_resume_single_shard w1 l path d n size sh nw t)
    as (d' & W & Hwf' & Hfirst & HhostW & Hfut & Hds & Hfi & Hsi & Hbs); try done.
  set (dl := mkDataLoader (mkDataset d') size nw) in *.
  destruct (batches_of_spec dl) as [Hlen Hall]; [simpl; lia|].
  simpl in Hlen, Hall. unfold BertSingleFileDataset__len__ in *. simpl in Hlen, Hall.
  rewrite (proj1 Hwf') in *.
  destruct (draw_within_shard 0 dl d' n (S t) (Z.to_nat count) (batches_of dl) W t)
    as (bs & fr' & w' & Hdraw & Hfi' & Hsi'); try done.
  { by rewrite HhostW. }
  { eapply Forall_impl; [exact Hall|]. by intros b [_ ?]. }
  { lia. }
  unfold then_draw in Hdraw. rewrite bind_eq, <- Hfirst in Hdraw.
  assert (Hdraw' : draw_batches (S (S t)) (S (Z.to_nat count))
                     BertMultiFileDataloader__iter__ w1
                   = (inr (Some (bs, fr')), w')).
  { rewrite draw_batches_S. unfold then_draw. by rewrite bind_eq. }
  exists bs, (torn w'). split; [by apply (forward_after_draws _ _ _ _ _ fr'); try lia|].
  split; [by destruct (draw_batches_dataset _ _ _ _ _ _ _ (or_introl eq_refl) Hdraw')|].
  unfold torn. fields. rewrite Hfi', Hsi', Hfi, Hsi, Hbs.
  split; [done|]. split; [lia|done].
Qed.

(** C10: the constructor keeps the caller's list object itself as
    [self.files].  With [shuffle=True] that object then holds a permutation
    of what it held, the one [random.shuffle] makes from the pending draws,
    and every other list object is as before; with [shuffle=False] the
    store of list objects is unchanged. *)
Theorem constructor_shuffles_callers_list (w : World) (l : loc)
    (fl : list string) (size : Z) (sh lp : bool) (nw : Z) :
  lists w !! l = Some fl →
  ∃ w', BertMultiFileDataloader__init__ l size sh lp nw w = (inr tt, w')
      ∧ files (self w') = l
      ∧ if sh
        then ∃ fl', lists w' !! l = Some fl' ∧ fl' ≡ₚ fl
                  ∧ fl' = (shuffled fl (py_random w)).1
                  ∧ ∀ l', l' ≠ l → lists w' !! l' = lists w !! l'
        else lists w' = lists w.
Proof.
  intros Hl.
  destruct (init_spec l size sh lp nw w fl Hl)
    as (w' & Hinit & _ & Hself & _ & _ & _ & Hlists & _).
  exists w'. split; [done|]. split; [by rewrite Hself|].
  destruct sh; [|done]. exists (shuffled fl (py_random w)).1.
  rewrite Hlists. split; [by rewrite lookup_insert_eq|].
  split; [apply shuffled_Permutation|]. split; [done|].
  intros l' Hne. by rewrite lookup_insert_ne.
Qed.

(** ** The statements at work *)

Lemma example_shard_well_formed n : well_formed (mkArgs 4 2) n (example_shard n).
Proof.
  unfold well_formed, example_shard. simpl.
  rewrite !length_fmap, !length_seq. split_and!; try done.
  apply Forall2_fmap, Forall_Forall2_diag, Forall_forall.
  intros k _. by eexists.
Qed.

Lemma single_shard_batches_witness :
  lists example_world !! 8%nat = Some ["a.h5"]
  ∧ disk (host example_world) !! "a.h5" = Some (example_shard 5)
  ∧ core_restriction (host example_world) = None
  ∧ well_formed (args (host example_world)) 5 (example_shard 5)
  ∧ (1 ≤ 2)%Z ∧ (0 ≤ 1)%Z ∧ (5 / Z.to_nat 2 + 2 ≤ 4)%nat
  ∧ ∃ bs w',
      (BertMultiFileDataloader__init__ 8 2 true false 1
         ≫= λ _, consume 4 BertMultiFileDataloader__iter__ 4) example_world
        = (inr (Some bs), w')
      ∧ length bs = (5 / Z.to_nat 2)%nat
      ∧ Forall (λ b, length b = Z.to_nat 2) bs.
Proof.
  assert (H4 : well_formed (args (host example_world)) 5 (example_shard 5))
    by apply example_shard_well_formed.
  assert (H7 : (5 / Z.to_nat 2 + 2 ≤ 4)%nat) by (vm_compute; lia).
  split_and!; [reflexivity|reflexivity|reflexivity|exact H4|lia|lia|exact H7|].
  apply (single_shard_batches example_world 8 "a.h5" (example_shard 5) 5 2 true
           1 4); [reflexivity|reflexivity|reflexivity|exact H4|lia|lia|exact H7].
Defined.

Example single_shard_batches_example :
  drawn ((BertMultiFileDataloader__init__ 8 2 false false 1
            ≫= λ _, consume 4 BertMultiFileDataloader__iter__ 4) example_world)
  = Some 2%nat.
Proof. vm_compute. reflexivity. Qed.

(** C6, as stated, fails: [forward(1)] draws two batches; and on a stream
    of three batches [forward(7)] draws the three and leaves the cursor
    reset. *)
Lemma forward_draws_count_plus_one :
  drawn (forward 10 1 example_built) = Some 2%nat
  ∧ cursor (forward 10 1 example_built).2 = (0, 2)%Z
  ∧ drawn (forward 10 7 example_built) = Some 3%nat
  ∧ cursor (forward 10 2 example_built).2 = (1, 0)%Z
  ∧ cursor (forward 10 7 example_built).2 = (0, 0)%Z.
Proof. vm_compute. done. Qed.

Lemma forward_draws_one_more_witness :
  (0 ≤ 1)%Z ∧ (Z.to_nat 1 < 10)%nat
  ∧ draw_batches 10 (S (Z.to_nat 1)) BertMultiFileDataloader__iter__ example_built
    = (inr (Some (drawn_batches (draw_batches 10 2 Created example_built))),
       (draw_batches 10 2 Created example_built).2)
  ∧ ∃ w2, forward 10 1 example_built
          = (inr (Some (drawn_batches (draw_batches 10 2 Created example_built)).1),
             w2)
      ∧ length (drawn_batches (draw_batches 10 2 Created example_built)).1
        = S (Z.to_nat 1)
      ∧ file_index (self w2)
        = file_index (self (draw_batches 10 2 Created example_built).2)
      ∧ sample_index (self w2)
        = sample_index (self (draw_batches 10 2 Created example_built).2)
      ∧ pool (self w2) = None ∧ dataset (self w2) = PyNone
      ∧ future_dataset (self w2) = None.
Proof.
  assert (Hdraw :
    draw_batches 10 (S (Z.to_nat 1)) BertMultiFileDataloader__iter__ example_built
    = (inr (Some ((drawn_batches (draw_batches 10 2 Created example_built)).1,
                  (drawn_batches (draw_batches 10 2 Created example_built)).2)),
       (draw_batches 10 2 Created example_built).2))
    by (vm_compute; reflexivity).
  assert (H1 : (0 ≤ 1)%Z) by lia.
  assert (H2 : (Z.to_nat 1 < 10)%nat) by (vm_compute; lia).
  split_and!; [exact H1|exact H2|vm_compute; reflexivity|].
  exact (forward_draws_one_more 10 1 example_built
           (draw_batches 10 2 Created example_built).2
           (drawn_batches (draw_batches 10 2 Created example_built)).1
           (drawn_batches (draw_batches 10 2 Created example_built)).2
           H1 H2 Hdraw).
Defined.

(** C7, as stated, fails: when the consumer leaves an iteration after its
    first batch and begins another, [__iter__] asks for the current shard
    while the load of the next one is still awaited: two loads in flight,
    three datasets held. *)
Lemma restarted_iteration_overlaps_loads :
  torn_down (self example_built)
  ∧ is_Some (yielded (resume 5 Created example_built))
  ∧ peak_in_flight (resume 5 Created example_built).2 = 1%nat
  ∧ is_Some (yielded (resume 5 Created (resume 5 Created example_built).2))
  ∧ peak_in_flight (resume 5 Created (resume 5 Created example_built).2).2 = 2%nat
  ∧ peak_resident (resume 5 Created (resume 5 Created example_built).2).2 = 3%nat.
Proof. vm_compute. split_and!; by eauto. Qed.

Lemma prefetch_stays_one_ahead_witness :
  torn_down (self example_built)
  ∧ (peak_in_flight example_built ≤ 1)%nat
  ∧ (peak_resident example_built ≤ 2)%nat
  ∧ rtc iter_step (example_built, BertMultiFileDataloader__iter__)
        ((resume 5 Created example_built).2, parked (resume 5 Created example_built))
  ∧ streaming_invariant (resume 5 Created example_built).2
                        (parked (resume 5 Created example_built)).
Proof.
  assert (Htd : torn_down (self example_built)) by (by vm_compute).
  assert (Hp1 : (peak_in_flight example_built ≤ 1)%nat) by (vm_compute; lia).
  assert (Hp2 : (peak_resident example_built ≤ 2)%nat) by (vm_compute; lia).
  assert (Hreach :
    rtc iter_step (example_built, BertMultiFileDataloader__iter__)
        ((resume 5 Created example_built).2, parked (resume 5 Created example_built))).
  { apply rtc_once.
    apply (iter_yield 5 example_built Created
             (default [] (yielded (resume 5 Created example_built)))).
    vm_compute. reflexivity. }
  split_and!; [exact Htd|exact Hp1|exact Hp2|exact Hreach|].
  exact (prefetch_stays_one_ahead example_built _ _ Htd Hp1 Hp2 Hreach).
Defined.

Lemma constructor_shuffles_callers_list_witness :
  lists example_world !! 7%nat = Some ["a.h5"; "b.h5"]
  ∧ ∃ w', BertMultiFileDataloader__init__ 7 2 true false 1 example_world = (inr tt, w')
      ∧ files (self w') = 7%nat
      ∧ ∃ fl', lists w' !! 7%nat = Some fl' ∧ fl' ≡ₚ ["a.h5"; "b.h5"]
             ∧ fl' = (shuffled ["a.h5"; "b.h5"] (py_random example_world)).1
             ∧ ∀ l', l' ≠ 7%nat → lists w' !! l' = lists example_world !! l'.
Proof.
  split; [reflexivity|].
  apply (constructor_shuffles_callers_list example_world 7 ["a.h5"; "b.h5"] 2
           true false 1).
  reflexivity.
Defined.

Example constructor_shuffles_example :
  lists (BertMultiFileDataloader__init__ 7 2 true false 1 example_world).2 !! 7%nat
    = Some ["b.h5"; "a.h5"]
  ∧ lists (BertMultiFileDataloader__init__ 7 2 false false 1 example_world).2 !! 7%nat
    = Some ["a.h5"; "b.h5"].
Proof. vm_compute. done. Qed.

(** ** More on the label reconstruction *)

Lemma masked_token_count_find (a : Args) (masked_positions : tensor) :
  _get_masked_token_count a masked_positions
  = default (max_predictions_per_seq a)
      ((λ r, Z.of_nat r.1) <$> list_find (λ p, p = 0%Z) masked_positions).
Proof.
  rewrite masked_token_count_head. unfold nonzero. rewrite head_nonzero_from.
  by destruct (list_find _ masked_positions) as [[k x]|].
Qed.

Lemma slice_to_elem_of {A} (l : list A) n x : x ∈ slice_to l n → x ∈ l.
Proof.
  intros [i Hi]%list_elem_of_lookup. apply list_elem_of_lookup. exists i.
  by apply slice_to_lookup in Hi.
Qed.

(** No listed position is zero. *)
Lemma listed_nonzero (a : Args) (masked_positions : tensor) :
  Forall (λ p, p ≠ 0%Z)
    (slice_to masked_positions (_get_masked_token_count a masked_positions)).
Proof.
  rewrite masked_token_count_find.
  destruct (list_find _ masked_positions) as [[k x]|] eqn:Hfind; simpl.
  - apply list_find_Some in Hfind as (_ & _ & Hbefore).
    unfold slice_to. destruct (Z.ltb_spec (Z.of_nat k) 0); [lia|].
    rewrite Nat2Z.id. apply Forall_forall. intros p [i Hi]%list_elem_of_lookup.
    apply lookup_take_Some in Hi as [Hi Hlt]. by apply (Hbefore i).
  - apply list_find_None in Hfind. apply Forall_forall. intros p Hp.
    apply slice_to_elem_of in Hp. rewrite Forall_forall in Hfind. by apply Hfind.
Qed.

Lemma index_put_length (t : tensor) (idx vals : list Z) (t' : tensor) :
  index_put t idx vals = inr t' → length t' = length t.
Proof.
  revert t vals. induction idx as [|p idx IH]; intros t vals; simpl.
  { by intros [= <-]. }
  destruct vals as [|v vals]; [by intros [= <-]|].
  destruct (wrap_index (length t) p) as [e|k]; [done|].
  intros H. apply IH in H. by rewrite length_insert in H.
Qed.

Lemma index_put_entries (t : tensor) (idx vals : list Z) (t' : tensor) :
  index_put t idx vals = inr t' →
  ∀ j v, t' !! j = Some v → t !! j = Some v ∨ v ∈ vals.
Proof.
  revert t vals. induction idx as [|p idx IH]; intros t vals; simpl.
  { intros [= <-] j v Hj. by left. }
  destruct vals as [|v0 vals]; [intros [= <-] j v Hj; by left|].
  destruct (wrap_index (length t) p) as [e|k]; [done|].
  intros H j v Hj. destruct (IH _ _ H j v Hj) as [Hin|Hin].
  - apply list_lookup_insert_Some in Hin as [(_ & <- & _)|[_ Hin]].
    + right. by left.
    + by left.
  - right. by right.
Qed.

Lemma index_put_other (t : tensor) (idx vals : list Z) (t' : tensor) (j : nat) :
  index_put t idx vals = inr t' →
  Forall (λ p, wrap_index (length t) p ≠ inr j) idx →
  t' !! j = t !! j.
Proof.
  revert t vals. induction idx as [|p idx IH]; intros t vals; simpl.
  { by intros [= <-]. }
  destruct vals as [|v0 vals]; [by intros [= <-]|].
  intros H [Hp Hall]%Forall_cons.
  destruct (wrap_index (length t) p) as [e|k] eqn:Hk; [done|].
  rewrite (IH _ _ H) by (by rewrite length_insert).
  apply list_lookup_insert_ne. congruence.
Qed.

(** An index out of range among the writes makes the whole assignment
    raise. *)
Lemma index_put_raises (t : tensor) (idx vals : list Z) (p : Z) :
  length vals = length idx → p ∈ idx →
  (p < - Z.of_nat (length t) ∨ Z.of_nat (length t) ≤ p)%Z →
  index_put t idx vals = inl (IndexError "index out of range in self").
Proof.
  revert t vals. induction idx as [|q idx IH]; intros t vals Hlen Hin Hout.
  { by apply elem_of_nil in Hin. }
  destruct vals as [|v vals]; [done|]. simpl in Hlen. simpl.
  unfold wrap_index at 1.
  destruct ((q <? - Z.of_nat (length t)) || (Z.of_nat (length t) <=? q))%Z eqn:Hq;
    [done|].
  apply elem_of_cons in Hin as [->|Hin].
  { exfalso. apply orb_false_iff in Hq as [H1 H2]. lia. }
  apply IH; [lia|done|by rewrite length_insert].
Qed.

Lemma setitem_unfold (t : tensor) (idx vals : list Z) (t' : tensor) :
  setitem t idx vals = inr t' →
  ∃ vals', index_put t idx vals' = inr t' ∧ ∀ v, v ∈ vals' → v ∈ vals.
Proof.
  unfold setitem. case_bool_decide as Hlen.
  { intros H. by exists vals. }
  destruct vals as [|v [|]]; [done| |done].
  intros H. exists (replicate (length idx) v). split; [done|].
  intros v' [-> _]%elem_of_replicate. by left.
Qed.

Lemma build_unfold (a : Args) (masked_positions masked_values labels : tensor) :
  _build_masked_lm_labels a masked_positions masked_values = inr labels →
  (0 ≤ max_seq_length a)%Z
  ∧ setitem (replicate (Z.to_nat (max_seq_length a)) (-1)%Z)
      (slice_to masked_positions (_get_masked_token_count a masked_positions))
      (slice_to masked_values (_get_masked_token_count a masked_positions))
    = inr labels.
Proof.
  unfold _build_masked_lm_labels, ones_times_minus_one.
  destruct (Z.ltb_spec (max_seq_length a) 0); [done|].
  cbn [mbind sum_bind]. by split.
Qed.

(** X7: whenever the label vector is built, for whatever positions and
    values, it has length [max_seq_length] and each of its entries is -1 or
    one of the masked values. *)
Theorem labels_shape (a : Args) (masked_positions masked_values labels : tensor) :
  _build_masked_lm_labels a masked_positions masked_values = inr labels →
  length labels = Z.to_nat (max_seq_length a)
  ∧ Forall (λ v, v = (-1)%Z ∨ v ∈ masked_values) labels.
Proof.
  intros [Hpos Hset]%build_unfold.
  apply setitem_unfold in Hset as (vals' & Hput & Hvals).
  split.
  - apply index_put_length in Hput. by rewrite length_replicate in Hput.
  - apply Forall_forall. intros v [j Hj]%list_elem_of_lookup.
    destruct (index_put_entries _ _ _ _ Hput j v Hj) as [Hblank|Hin].
    + left. by apply lookup_replicate in Hblank as [-> _].
    + right. by eapply slice_to_elem_of, Hvals.
Qed.

Lemma labels_shape_witness :
  _build_masked_lm_labels (mkArgs 6 3) [3; 3; 0]%Z [7; 8; 0]%Z
  = inr [-1; -1; -1; 8; -1; -1]%Z
  ∧ length [-1; -1; -1; 8; -1; -1]%Z = Z.to_nat (max_seq_length (mkArgs 6 3))
  ∧ Forall (λ v, v = (-1)%Z ∨ v ∈ [7; 8; 0]%Z) [-1; -1; -1; 8; -1; -1]%Z.
Proof.
  split; [reflexivity|].
  apply (labels_shape (mkArgs 6 3) [3; 3; 0]%Z [7; 8; 0]%Z). reflexivity.
Defined.

(** X8: when no masked position is negative, entry 0 of the label vector
    that is built is -1: a zero among the positions ends the list of listed
    positions, so token 0 is never labelled. *)
Theorem position_zero_never_labelled
    (a : Args) (masked_positions masked_values labels : tensor) :
  _build_masked_lm_labels a masked_positions masked_values = inr labels →
  Forall (λ p, 0 ≤ p)%Z masked_positions →
  (0 < max_seq_length a)%Z →
  labels !! 0%nat = Some (-1)%Z.
Proof.
  intros [Hpos Hset]%build_unfold Hnn HL.
  apply setitem_unfold in Hset as (vals' & Hput & _).
  rewrite (index_put_other _ _ _ _ 0 Hput).
  { apply lookup_replicate_2. lia. }
  pose proof (listed_nonzero a masked_positions) as Hnz.
  rewrite Forall_forall in Hnz, Hnn. apply Forall_forall. intros p Hp.
  specialize (Hnz p Hp). apply slice_to_elem_of in Hp. specialize (Hnn p Hp).
  unfold wrap_index. destruct (_ || _); [done|].
  destruct (Z.ltb_spec p 0); [lia|]. intros [= Hz]. lia.
Qed.

Lemma position_zero_never_labelled_witness :
  _build_masked_lm_labels (mkArgs 4 3) [0; 2; 0]%Z [7; 8; 0]%Z
  = inr [-1; -1; -1; -1]%Z
  ∧ Forall (λ p, 0 ≤ p)%Z [0; 2; 0]%Z
  ∧ (0 < max_seq_length (mkArgs 4 3))%Z
  ∧ [-1; -1; -1; -1]%Z !! 0%nat = Some (-1)%Z.
Proof.
  assert (Hnn : Forall (λ p, 0 ≤ p)%Z [0; 2; 0]%Z) by (repeat constructor; lia).
  assert (HL : (0 < max_seq_length (mkArgs 4 3))%Z) by (simpl; lia).
  split_and!; [reflexivity|done|done|].
  apply (position_zero_never_labelled (mkArgs 4 3) [0; 2; 0]%Z [7; 8; 0]%Z);
    [reflexivity|done|done].
Defined.

Lemma masked_token_count_app (a : Args) (pre post : tensor) :
  Forall (λ p, p ≠ 0%Z) pre →
  _get_masked_token_count a (pre ++ 0%Z :: post) = Z.of_nat (length pre).
Proof.
  intros Hpre. rewrite masked_token_count_find.
  assert (list_find (λ p, p = 0%Z) (pre ++ 0%Z :: post) = Some (length pre, 0%Z))
    as ->; [|done].
  apply list_find_Some. split_and!.
  - by rewrite list_lookup_middle.
  - done.
  - intros j y Hj Hlt. rewrite lookup_app_l in Hj by done.
    rewrite Forall_forall in Hpre. apply Hpre. apply list_elem_of_lookup. by exists j.
Qed.

(** X9: what stands after the first zero of the masked positions has no
    effect on the outcome: two position vectors that agree up to and
    including their first zero give the same labels, or the same failure,
    for the same masked values. *)
Theorem padding_is_ignored (a : Args) (pre post post' masked_values : tensor) :
  Forall (λ p, p ≠ 0%Z) pre →
  _build_masked_lm_labels a (pre ++ 0%Z :: post) masked_values
  = _build_masked_lm_labels a (pre ++ 0%Z :: post') masked_values.
Proof.
  intros Hpre. unfold _build_masked_lm_labels.
  rewrite !masked_token_count_app by done.
  unfold slice_to at 1 3. destruct (Z.ltb_spec (Z.of_nat (length pre)) 0); [lia|].
  rewrite Nat2Z.id. by rewrite !take_app_length.
Qed.

Lemma padding_is_ignored_witness :
  Forall (λ p, p ≠ 0%Z) [5; 3]%Z
  ∧ _build_masked_lm_labels (mkArgs 6 3) ([5; 3]%Z ++ 0%Z :: [])%list [50; 30; 0; 0]%Z
    = _build_masked_lm_labels (mkArgs 6 3) ([5; 3]%Z ++ 0%Z :: [99]%Z)%list [50; 30; 0; 0]%Z.
Proof.
  assert (H : Forall (λ p, p ≠ 0%Z) [5; 3]%Z) by (repeat constructor; lia).
  split; [done|].
  apply (padding_is_ignored (mkArgs 6 3) [5; 3]%Z [] [99]%Z [50; 30; 0; 0]%Z H).
Defined.

(** X10: when one of the listed positions
    [masked_positions[:masked_token_count]] is [max_seq_length] or more, or
    below [-max_seq_length], the reconstruction raises [IndexError] (for
    masked values as many as the positions and a [max_seq_length] that is
    not negative). *)
Theorem out_of_range_position_raises
    (a : Args) (masked_positions masked_values : tensor) (p : Z) :
  (0 ≤ max_seq_length a)%Z →
  length masked_values = length masked_positions →
  p ∈ slice_to masked_positions (_get_masked_token_count a masked_positions) →
  (p < - max_seq_length a ∨ max_seq_length a ≤ p)%Z →
  ∃ msg, _build_masked_lm_labels a masked_positions masked_values
         = inl (IndexError msg).
Proof.
  intros Hpos Hlen Hin Hout. eexists.
  unfold _build_masked_lm_labels, ones_times_minus_one.
  destruct (Z.ltb_spec (max_seq_length a) 0); [lia|].
  cbn [mbind sum_bind]. unfold setitem.
  rewrite bool_decide_eq_true_2 by (by apply slice_to_length).
  apply (index_put_raises _ _ _ p); [by apply slice_to_length|done|].
  rewrite length_replicate. lia.
Qed.

Lemma out_of_range_position_raises_witness :
  (0 ≤ max_seq_length (mkArgs 4 3))%Z
  ∧ length [7; 8; 0]%Z = length [2; 4; 0]%Z
  ∧ 4%Z ∈ slice_to [2; 4; 0]%Z (_get_masked_token_count (mkArgs 4 3) [2; 4; 0]%Z)
  ∧ (4 < - max_seq_length (mkArgs 4 3) ∨ max_seq_length (mkArgs 4 3) ≤ 4)%Z
  ∧ ∃ msg, _build_masked_lm_labels (mkArgs 4 3) [2; 4; 0]%Z [7; 8; 0]%Z
           = inl (IndexError msg).
Proof.
  assert (H1 : (0 ≤ max_seq_length (mkArgs 4 3))%Z) by (simpl; lia).
  assert (H3 : 4%Z ∈ slice_to [2; 4; 0]%Z
                       (_get_masked_token_count (mkArgs 4 3) [2; 4; 0]%Z))
    by (vm_compute; by repeat constructor).
  assert (H4 : (4 < - max_seq_length (mkArgs 4 3) ∨ max_seq_length (mkArgs 4 3) ≤ 4)%Z)
    by (right; simpl; lia).
  split_and!; [done|reflexivity|done|done|].
  apply (out_of_range_position_raises (mkArgs 4 3) [2; 4; 0]%Z [7; 8; 0]%Z 4);
    [done|reflexivity|done|done].
Defined.

(** ** Batches in row order *)

Lemma batch_sampler_concat size sampler batch :
  (0 < size)%nat → (length batch < size)%nat →
  ∃ tail, (batch ++ sampler)%list
          = (concat (batch_sampler size sampler batch) ++ tail)%list
        ∧ (length tail < size)%nat.
Proof.
  intros Hsize. revert batch.
  induction sampler as [|idx sampler IH]; intros batch Hb.
  { exists batch. simpl. by rewrite app_nil_r. }
  simpl. rewrite length_app. simpl.
  destruct (Nat.eqb_spec (length batch + 1) size) as [Hfull|Hopen].
  - destruct (IH []) as (tail & Heq & Hlen); [simpl; lia|]. simpl in Heq.
    exists tail. split; [|done]. simpl. rewrite <- !app_assoc. simpl. by rewrite <- Heq.
  - destruct (IH (batch ++ [idx])%list) as (tail & Heq & Hlen);
      [rewrite length_app; simpl; lia|].
    exists tail. split; [|done]. rewrite <- Heq, <- app_assoc. done.
Qed.

Lemma length_concat_uniform {A} (size : nat) (bs : list (list A)) :
  Forall (λ b, length b = size) bs → length (concat bs) = (length bs * size)%nat.
Proof.
  induction 1 as [|b bs Hb _ IH]; [done|]. simpl. rewrite length_app, IH, Hb. lia.
Qed.

Lemma batches_are_consecutive_aux (dl : DataLoader) :
  (0 < dl_batch_size dl)%Z →
  let n := BertSingleFileDataset__len__ (dl_dataset dl) in
  let size := Z.to_nat (dl_batch_size dl) in
  concat (batches_of dl) = seq 0 (n / size * size).
Proof.
  intros Hpos n size.
  destruct (batches_of_spec dl Hpos) as [Hlen Hall]. fold n size in Hlen, Hall.
  assert (Hsize : (0 < size)%nat) by (unfold size; lia).
  destruct (batch_sampler_concat size (seq 0 n) []) as (tail & Heq & Htail);
    [done|simpl; lia|].
  change (seq 0 n = (concat (batches_of dl) ++ tail)%list) in Heq.
  assert (Hcat : length (concat (batches_of dl)) = (n / size * size)%nat).
  { rewrite (length_concat_uniform size), Hlen; [done|].
    eapply Forall_impl; [exact Hall|]. by intros b [? _]. }
  rewrite <- (take_app_length (concat (batches_of dl)) tail), <- Heq, Hcat.
  rewrite take_seq. f_equal.
  pose proof (Nat.div_mod n size) as Hdiv. nia.
Qed.

(** X11: the index batches a shard's loader asks for (batch size [B > 0],
    [drop_last=True], no sampler of its own) are, put end to end, the rows
    [0 .. (N / B) * B - 1] in order: [N / B] batches of [B] rows each, the
    last [N mod B] rows left out. *)
Theorem batches_are_consecutive (dl : DataLoader) :
  (0 < dl_batch_size dl)%Z →
  let n := BertSingleFileDataset__len__ (dl_dataset dl) in
  let size := Z.to_nat (dl_batch_size dl) in
  concat (batches_of dl) = seq 0 (n / size * size)
  ∧ length (batches_of dl) = (n / size)%nat
  ∧ Forall (λ b, length b = size) (batches_of dl).
Proof.
  intros Hpos n size. split; [by apply batches_are_consecutive_aux|].
  destruct (batches_of_spec dl Hpos) as [Hlen Hall]. split; [done|].
  eapply Forall_impl; [exact Hall|]. by intros b [? _].
Qed.

Lemma batches_are_consecutive_witness :
  (0 < dl_batch_size (mkDataLoader (mkDataset (example_shard 5)) 2 0))%Z
  ∧ concat (batches_of (mkDataLoader (mkDataset (example_shard 5)) 2 0))
    = seq 0 (5 / 2 * 2)
  ∧ length (batches_of (mkDataLoader (mkDataset (example_shard 5)) 2 0))
    = (5 / 2)%nat
  ∧ Forall (λ b, length b = 2%nat)
      (batches_of (mkDataLoader (mkDataset (example_shard 5)) 2 0)).
Proof.
  assert (H : (0 < dl_batch_size (mkDataLoader (mkDataset (example_shard 5)) 2 0))%Z)
    by (simpl; lia).
  split; [done|].
  apply (batches_are_consecutive (mkDataLoader (mkDataset (example_shard 5)) 2 0) H).
Defined.

(** ** Shuffling a shard *)

Lemma rows_at {A} (column rows : list A) (indices : list nat) k i :
  Forall2 (λ i r, column !! i = Some r) indices rows →
  indices !! k = Some i → row rows k = row column i.
Proof.
  intros HF Hk. destruct (Forall2_lookup_l _ _ _ _ _ HF Hk) as (r & Hr & Hc).
  unfold row. by rewrite Hr, Hc.
Qed.

(** X12: a shard read with [shuffle=True], from a file of six columns of
    [n] rows, has [n] samples still, and there is one permutation of
    [0 .. n-1], the one [numpy.random.shuffle] makes of the worker's draws,
    such that sample [k] of the dataset is sample [indices[k]] of the file:
    the six columns move together. *)
Theorem shuffle_keeps_samples_whole (path : string) (w : World) (d : Shard) (n : nat) :
  disk (host w) !! path = Some d →
  core_restriction (host w) = None →
  six_columns n d →
  ∃ ds rng,
    let indices := (shuffled (seq 0 n) (np_random w)).1 in
    BertSingleFileDataset__init__ path true w = (inr ds, set_np rng w)
    ∧ indices ≡ₚ seq 0 n
    ∧ BertSingleFileDataset__len__ ds = n
    ∧ ∀ a k i, indices !! k = Some i →
        BertSingleFileDataset__getitem__ a ds k
        = BertSingleFileDataset__getitem__ a (mkDataset d) i.
Proof.
  intros Hd Hg (H1 & H2 & H3 & H4 & H5 & H6).
  unfold BertSingleFileDataset__init__.
  unfold ensure_no_core_restriction at 1. rewrite bind_eq, Hg.
  unfold h5py_File at 1. rewrite bind_eq, Hd.
  unfold numpy_random_shuffle at 1. rewrite bind_eq. rewrite H1.
  pose proof (shuffled_Permutation (seq 0 n) (np_random w)) as Hperm.
  destruct (shuffled (seq 0 n) (np_random w)) as [indices rng].
  simpl in Hperm. cbn [fst].
  assert (Hidx : Forall (λ i, (i < n)%nat) indices).
  { apply Forall_forall. intros i Hi. rewrite Hperm in Hi.
    apply elem_of_seq in Hi. lia. }
  destruct (take_rows_spec (input_ids d) indices) as (c1 & E1 & F1); [by rewrite H1|].
  destruct (take_rows_spec (segment_ids d) indices) as (c2 & E2 & F2); [by rewrite H2|].
  destruct (take_rows_spec (input_mask d) indices) as (c3 & E3 & F3); [by rewrite H3|].
  destruct (take_rows_spec (masked_lm_positions d) indices) as (c4 & E4 & F4); [by rewrite H4|].
  destruct (take_rows_spec (masked_lm_ids d) indices) as (c5 & E5 & F5); [by rewrite H5|].
  destruct (take_rows_spec (next_sentence_labels d) indices) as (c6 & E6 & F6); [by rewrite H6|].
  rewrite E1, E2, E3, E4, E5, E6. wrun.
  exists (mkDataset (mkShard c1 c2 c3 c4 c5 c6)), rng. split; [done|].
  split; [done|]. split.
  - unfold BertSingleFileDataset__len__. simpl.
    by rewrite <- (Forall2_length _ _ _ F1), Hperm, length_seq.
  - intros a k i Hk. unfold BertSingleFileDataset__getitem__. simpl.
    by rewrite (rows_at _ _ _ _ _ F1 Hk), (rows_at _ _ _ _ _ F2 Hk),
      (rows_at _ _ _ _ _ F3 Hk), (rows_at _ _ _ _ _ F4 Hk),
      (rows_at _ _ _ _ _ F5 Hk), (rows_at _ _ _ _ _ F6 Hk).
Qed.

Lemma shuffle_keeps_samples_whole_witness :
  disk (host example_world) !! "b.h5" = Some (example_shard 3)
  ∧ core_restriction (host example_world) = None
  ∧ six_columns 3 (example_shard 3)
  ∧ ∃ ds rng,
      let indices := (shuffled (seq 0 3) (np_random example_world)).1 in
      BertSingleFileDataset__init__ "b.h5" true example_world
        = (inr ds, set_np rng example_world)
      ∧ indices ≡ₚ seq 0 3
      ∧ BertSingleFileDataset__len__ ds = 3%nat
      ∧ ∀ a k i, indices !! k = Some i →
          BertSingleFileDataset__getitem__ a ds k
          = BertSingleFileDataset__getitem__ a (mkDataset (example_shard 3)) i.
Proof.
  assert (H : six_columns 3 (example_shard 3)) by (by repeat split).
  split_and!; [reflexivity|reflexivity|done|].
  apply (shuffle_keeps_samples_whole "b.h5" example_world (example_shard 3) 3);
    [reflexivity|reflexivity|done].
Defined.

(** ** A shard that cannot be loaded *)

(** X13: over a list whose first file is not on disk, a loader just built
    raises the [OSError] of the load at the first [next], not before; and
    since [self.dataset] was deleted ahead of the load, [reset()], a new
    iteration and [forward] all raise [AttributeError] from then on. *)
Theorem failed_load_breaks_loader (w : World) (l : loc) (fl : list string)
    (path : string) (size : Z) (sh lp : bool) (nw : Z) (turns : nat) :
  lists w !! l = Some fl → fl !! 0%nat = Some path →
  disk (host w) !! path = None →
  core_restriction (host w) = None →
  self w = mkLoader nw l size lp sh 0 0 None PyNone None →
  ∃ w', resume (S turns) BertMultiFileDataloader__iter__ w = (inl (OSError path), w')
      ∧ (reset w').1 = inl (AttributeError "dataset")
      ∧ (∀ turns', (resume (S turns') BertMultiFileDataloader__iter__ w').1
                   = inl (AttributeError "dataset"))
      ∧ ∀ bound count, (forward (S bound) count w').1
                       = inl (AttributeError "dataset").
Proof.
  intros Hl Hpath Hd Hg Hself.
  destruct fl as [|p0 fl]; [done|]. injection Hpath as ->.
  eexists. split; [|split; [|split]].
  - unfold BertMultiFileDataloader__iter__, resume.
    unfold _create_poolworker_if_not_exists at 1. go.
    unfold _fetch_future_dataset_or_none at 1. go.
    rewrite orb_true_r. rewrite Zmod_0_l. change ((path :: fl) !! Z.to_nat 0) with (Some path). cbv iota.
    unfold submit at 1. go.
    rewrite while_S. go.
    erewrite result_only_queued by (fields; done). go.
    unfold run_task, _singlefile_dataloader_factory. fields.
    unfold ensure_no_core_restriction at 1. go. rewrite Hg.
    unfold BertSingleFileDataset__init__.
    unfold ensure_no_core_restriction at 1. go. rewrite Hg.
    unfold h5py_File at 1. go. rewrite Hd. reflexivity.
  - unfold reset, _destroy_datasets_if_exist. wrun. reflexivity.
  - intros turns'. unfold BertMultiFileDataloader__iter__, resume.
    unfold _create_poolworker_if_not_exists at 1. wrun.
    unfold _fetch_future_dataset_or_none at 1. wrun. rewrite Hself. fields.
    rewrite Hl. rewrite orb_true_r. rewrite Zmod_0_l.
    change ((path :: fl) !! Z.to_nat 0) with (Some path). cbv iota.
    unfold submit at 1. wrun.
    rewrite while_S. wrun. reflexivity.
  - intros bound count. unfold forward. rewrite bind_eq.
    cbn [forward_enumerate]. rewrite bind_eq.
    unfold BertMultiFileDataloader__iter__, resume.
    unfold _create_poolworker_if_not_exists at 1. wrun.
    unfold _fetch_future_dataset_or_none at 1. wrun. rewrite Hself. fields.
    rewrite Hl. rewrite orb_true_r. rewrite Zmod_0_l.
    change ((path :: fl) !! Z.to_nat 0) with (Some path). cbv iota.
    unfold submit at 1. wrun.
    rewrite while_S. wrun. reflexivity.
Qed.

Lemma failed_load_breaks_loader_witness :
  let w := mkWorld example_host {[9%nat := ["c.h5"]]} [] []
             (mkLoader 1 9 2 false false 0 0 None PyNone None) 0 0 in
  lists w !! 9%nat = Some ["c.h5"] ∧ ["c.h5"] !! 0%nat = Some "c.h5"
  ∧ disk (host w) !! "c.h5" = None
  ∧ core_restriction (host w) = None
  ∧ self w = mkLoader 1 9 2 false false 0 0 None PyNone None
  ∧ ∃ w', resume 3 BertMultiFileDataloader__iter__ w = (inl (OSError "c.h5"), w')
      ∧ (reset w').1 = inl (AttributeError "dataset")
      ∧ (∀ turns', (resume (S turns') BertMultiFileDataloader__iter__ w').1
                   = inl (AttributeError "dataset"))
      ∧ ∀ bound count, (forward (S bound) count w').1
                       = inl (AttributeError "dataset").
Proof.
  intros w. split_and!; [reflexivity..|].
  apply (failed_load_breaks_loader w 9 ["c.h5"] "c.h5" 2 false false 1 2);
    reflexivity.
Defined.

(** ** An empty list of shards *)

(** X14: over an empty list of files, the first [next] on a loader just
    built ends the iteration at once and leaves the loader as it was when
    [loop=False], and raises [ZeroDivisionError] when [loop=True]. *)
Theorem iteration_over_no_files (w : World) (l : loc) (size : Z) (sh lp : bool)
    (nw : Z) (turns : nat) :
  lists w !! l = Some [] →
  self w = mkLoader nw l size lp sh 0 0 None PyNone None →
  if lp
  then ∃ msg, (resume (S turns) BertMultiFileDataloader__iter__ w).1
              = inl (ZeroDivisionError msg)
  else resume (S turns) BertMultiFileDataloader__iter__ w = (inr StopIteration, w).
Proof.
  intros Hl Hself. unfold BertMultiFileDataloader__iter__, resume.
  destruct lp; [eexists|];
    unfold _create_poolworker_if_not_exists at 1; go;
    unfold _fetch_future_dataset_or_none at 1; go; cbn [orb].
  - by wrun.
  - change (0 <? Z.of_nat (length []))%Z with false. cbv iota. go.
    rewrite while_S. go. rewrite reset_spec by (fields; by rewrite ?Hself). wrun.
    f_equal. destruct w as [h ls pr nr s p1 p2]. simpl in *. by subst s.
Qed.

Lemma iteration_over_no_files_witness :
  let w := mkWorld example_host {[9%nat := []]} [] []
             (mkLoader 1 9 2 false false 0 0 None PyNone None) 0 0 in
  lists w !! 9%nat = Some []
  ∧ self w = mkLoader 1 9 2 false false 0 0 None PyNone None
  ∧ resume 1 BertMultiFileDataloader__iter__ w = (inr StopIteration, w).
Proof.
  intros w. split_and!; [reflexivity..|].
  apply (iteration_over_no_files w 9 2 false false 1 0); reflexivity.
Defined.

(** ** With [loop=True] the iteration has no end *)

Lemma fetch_outcomes_loop index w :
  loop (self w) = true →
  (∃ e, _fetch_future_dataset_or_none index w = (inl e, w))
  ∨ ∃ p file,
      pool (self w) = Some p
      ∧ let t := mkTask (submitted p) index file (batch_size (self w))
                        (shuffle (self w)) (num_workers (self w)) in
        _fetch_future_dataset_or_none index w
        = (inr tt,
           with_self (set_future_dataset (Some t))
             (record_peaks
                (with_self
                   (set_pool (Some (mkPool (queue p ++ [t]) (S (submitted p)))))
                   w))).
Proof.
  intros Hloop. unfold _fetch_future_dataset_or_none. wrun.
  destruct (lists w !! files (self w)) as [fl|]; [|left; by eexists].
  rewrite Hloop. cbn [orb].
  destruct fl as [|f0 fl]; [left; by eexists|].
  destruct ((f0 :: fl) !! _) as [file|]; [|left; by eexists].
  rewrite bind_eq. unfold submit.
  destruct (pool (self w)) as [p|] eqn:Hp; [|left; by eexists].
  right. exists p, file. split; [done|]. by wrun.
Qed.

Lemma for_batch_goes_on src dl rest cont w :
  loop (self w) = true → is_Some (future_dataset (self w)) →
  (∀ w1, loop (self w1) = true → is_Some (future_dataset (self w1)) →
         goes_on (cont w1)) →
  goes_on (for_batch_in_dataset src dl rest cont w).
Proof.
  intros Hloop Hfut Hcont. unfold for_batch_in_dataset.
  destruct rest as [|idxs rest].
  - wrun. apply Hcont; by fields.
  - wrun. destruct (fetch _ _ idxs) as [e|b]; wrun; unfold goes_on; simpl; [done|].
    by split_and!.
Qed.

Lemma while_goes_on turns : ∀ w,
  loop (self w) = true → is_Some (future_dataset (self w)) →
  goes_on (while_future_dataset turns w).
Proof.
  induction turns as [|turns IH]; intros w Hloop [f Hf]; [by wrun|].
  rewrite while_S. wrun. rewrite Hf. rewrite bind_eq.
  destruct (dataset (self w)); wrun; [done|..].
  all: match goal with |- context [result ?f0 ?W] =>
         destruct (result_world f0 W) as (p' & rng & Hw);
         destruct (result f0 W) as [[e|dl] w1]; simpl in Hw; subst w1; [done|]
       end.
  all: wrun.
  all: match goal with |- context [_fetch_future_dataset_or_none ?i ?W] =>
         destruct (fetch_outcomes_loop i W) as [[e ->]|(p2 & file & Hp2 & ->)];
           [by fields|done|]
       end.
  all: apply for_batch_goes_on; [by fields|by fields|exact IH].
Qed.

Lemma resume_goes_on turns fr w :
  loop (self w) = true →
  fr = Created ∨ (fr ≠ Finished ∧ is_Some (future_dataset (self w))) →
  goes_on (resume turns fr w).
Proof.
  intros Hloop Hfr. destruct fr as [|src dl rest|]; unfold resume.
  - unfold _create_poolworker_if_not_exists. wrun.
    destruct (pool (self w)); wrun.
    all: match goal with |- context [_fetch_future_dataset_or_none ?i ?W] =>
           destruct (fetch_outcomes_loop i W) as [[e ->]|(p2 & file & Hp2 & ->)];
             [by fields|done|]
         end.
    all: apply while_goes_on; by fields.
  - destruct Hfr as [?|[_ Hfut]]; [done|]. wrun.
    apply for_batch_goes_on; [by fields|by fields|]. apply while_goes_on.
  - by destruct Hfr as [?|[? _]].
Qed.

Lemma consume_goes_on turns steps : ∀ fr w,
  loop (self w) = true →
  fr = Created ∨ (fr ≠ Finished ∧ is_Some (future_dataset (self w))) →
  match (consume turns fr steps w).1 with
  | inr (Some _) => False
  | _ => True
  end.
Proof.
  induction steps as [|steps IH]; intros fr w Hloop Hfr; [done|].
  rewrite consume_S. unfold consume_from. rewrite bind_eq.
  pose proof (resume_goes_on turns fr w Hloop Hfr) as Hgo. revert Hgo.
  destruct (resume turns fr w) as [[e|[b fr1| |]] w2]; unfold goes_on; simpl; try done.
  intros (Hfr1 & Hloop2 & Hfut2). rewrite bind_eq.
  specialize (IH fr1 w2 Hloop2 (or_intror (conj Hfr1 Hfut2))).
  by destruct (consume turns fr1 steps w2) as [[e|[bs|]] w3].
Qed.

(** X15: with [loop=True] an iteration never ends with [StopIteration]:
    whatever the bounds, driving the generator to its end does not
    complete; it raises or goes on. *)
Theorem looping_iteration_never_ends (w : World) (turns steps : nat) :
  loop (self w) = true →
  ∀ bs w', consume turns BertMultiFileDataloader__iter__ steps w ≠ (inr (Some bs), w').
Proof.
  intros Hloop bs w' Hrun.
  pose proof (consume_goes_on turns steps BertMultiFileDataloader__iter__ w Hloop
                (or_introl eq_refl)) as H.
  by rewrite Hrun in H.
Qed.

Lemma looping_iteration_never_ends_witness :
  let w := mkWorld example_host {[8%nat := ["a.h5"]]} [] []
             (mkLoader 1 8 2 true false 0 0 None PyNone None) 0 0 in
  loop (self w) = true
  ∧ ∀ bs w', consume 4 BertMultiFileDataloader__iter__ 9 w ≠ (inr (Some bs), w').
Proof.
  intros w. split; [reflexivity|].
  apply (looping_iteration_never_ends w 4 9). reflexivity.
Defined.

(** Over a one-shard list of five samples, two to a batch, a looping loader
    gives a fifth batch: the first batch of the shard's third pass. *)
Example looping_wraps_around :
  let w := mkWorld example_host {[8%nat := ["a.h5"]]} [] []
             (mkLoader 1 8 2 true false 0 0 None PyNone None) 0 0 in
  let r := draw_batches 4 5 BertMultiFileDataloader__iter__ w in
  length (drawn_batches r).1 = 5%nat
  ∧ (drawn_batches r).1 !! 4%nat = (drawn_batches r).1 !! 0%nat
  ∧ cursor r.2 = (2, 0)%Z.
Proof. vm_compute. done. Qed.

(** ** When the iteration ends *)

Lemma for_batch_ends_reset src dl rest cont w :
  (∀ w1, ends_reset (cont w1)) →
  ends_reset (for_batch_in_dataset src dl rest cont w).
Proof.
  intros Hcont. unfold for_batch_in_dataset. destruct rest as [|idxs rest].
  - wrun. apply Hcont.
  - wrun. by destruct (fetch _ _ idxs).
Qed.

Lemma while_ends_reset turns : ∀ w, ends_reset (while_future_dataset turns w).
Proof.
  induction turns as [|turns IH]; intros w; [by wrun|].
  rewrite while_S. wrun.
  destruct (future_dataset (self w)) as [f|].
  2:{ rewrite bind_eq.
      assert (dataset (self w) = Deleted ∨ dataset (self w) ≠ Deleted) as [Hd|Hd]
        by (destruct (dataset (self w)); [by left|by right..]).
      - unfold reset, _destroy_datasets_if_exist. wrun. by rewrite Hd.
      - rewrite reset_spec by done. wrun. unfold ends_reset, torn_down, cursor.
        by fields. }
  rewrite bind_eq.
  destruct (dataset (self w)); wrun; [done|..].
  all: match goal with |- context [result ?f0 ?W] =>
         destruct (result f0 W) as [[e|dl] w1]; [done|]
       end.
  all: wrun.
  all: match goal with |- context [_fetch_future_dataset_or_none ?i ?W] =>
         destruct (_fetch_future_dataset_or_none i W) as [[e|[]] w2]; [done|]
       end.
  all: apply for_batch_ends_reset; exact IH.
Qed.

Lemma resume_ends_reset turns fr w :
  fr ≠ Finished → ends_reset (resume turns fr w).
Proof.
  intros Hfr. destruct fr as [|src dl rest|]; unfold resume; [| |done].
  - rewrite bind_eq.
    destruct (_create_poolworker_if_not_exists w) as [[e|[]] w1]; [done|]. wrun.
    destruct (_fetch_future_dataset_or_none _ w1) as [[e|[]] w2]; [done|].
    apply while_ends_reset.
  - wrun. apply for_batch_ends_reset. apply while_ends_reset.
Qed.

Lemma consume_ends_reset turns steps : ∀ fr w bs w',
  fr ≠ Finished →
  consume turns fr steps w = (inr (Some bs), w') →
  torn_down (self w') ∧ cursor w' = (0, 0)%Z.
Proof.
  induction steps as [|steps IH]; intros fr w bs w' Hfr; [done|].
  rewrite consume_S. unfold consume_from. rewrite bind_eq.
  pose proof (resume_ends_reset turns fr w Hfr) as Hend. revert Hend.
  destruct (resume turns fr w) as [[e|[b fr1| |]] w2]; unfold ends_reset; simpl;
    try done.
  - intros Hfr1. rewrite bind_eq.
    destruct (consume turns fr1 steps w2) as [[e|[bs1|]] w3] eqn:Hrest; wrun; try done.
    intros [= <- <-]. by eapply IH.
  - intros Hreset. wrun. by intros [= <- <-].
Qed.

(** [forward] on a stream that ends before the count is reached. *)
Lemma forward_enumerate_to_the_end turns count steps : ∀ idx fr w bs w',
  consume turns fr steps w = (inr (Some bs), w') →
  (Z.of_nat (length bs) ≤ count - idx)%Z →
  forward_enumerate turns count idx fr steps w = (inr (Some bs), w').
Proof.
  induction steps as [|steps IH]; intros idx fr w bs w'; [done|].
  rewrite consume_S. unfold consume_from. cbn [forward_enumerate].
  rewrite !bind_eq.
  destruct (resume turns fr w) as [[e|[b fr1| |]] w2]; try done.
  rewrite bind_eq.
  destruct (consume turns fr1 steps w2) as [[e|[bs1|]] w3] eqn:Hrest; wrun; try done.
  cbn [fmap option_fmap option_map]. intros [= <- <-] Hlen. simpl in Hlen.
  destruct (Z.leb_spec count idx); [lia|].
  rewrite bind_eq, (IH (idx + 1)%Z fr1 w2 bs1 w3 Hrest) by lia. by wrun.
Qed.

(** X16: when the whole iteration from a state gives no more batches than
    [count], [forward(count)] draws them all, and leaves what the finished
    iteration leaves: pool, dataset and pending load [None] and the cursor
    back at (0, 0), not at the end of the stream. *)
Theorem forward_past_the_end (bound : nat) (count : Z) (w w' : World)
    (bs : list Batch) :
  consume bound BertMultiFileDataloader__iter__ bound w = (inr (Some bs), w') →
  (Z.of_nat (length bs) ≤ count)%Z →
  forward bound count w = (inr (Some bs), w')
  ∧ torn_down (self w') ∧ cursor w' = (0, 0)%Z.
Proof.
  intros Hrun Hlen.
  assert (Hfr : BertMultiFileDataloader__iter__ ≠ Finished) by done.
  destruct (consume_ends_reset _ _ _ _ _ _ Hfr Hrun) as [Htd Hcur].
  split; [|done].
  unfold forward. rewrite bind_eq.
  rewrite (forward_enumerate_to_the_end _ _ _ 0 _ _ _ _ Hrun) by lia.
  destruct Htd as (Hp & Hds & Hf).
  unfold _destroy_datasets_if_exist, _destroy_poolworker_if_exists. wrun.
  rewrite Hds. wrun. f_equal.
  destruct w' as [h ls pr nr s p1 p2]. destruct s. simpl in *. by subst.
Qed.

(** ** A count below zero *)

(** X17: a [count] below zero is a count of zero: [forward] does then the
    same as [forward(0)], which draws one batch when there is one. *)
Theorem forward_nonpositive_count (bound : nat) (count : Z) (w : World) :
  (count ≤ 0)%Z → forward bound count w = forward bound 0 w.
Proof.
  intros Hcount. unfold forward. rewrite !bind_eq.
  destruct bound as [|bound]; [done|]. cbn [forward_enumerate]. rewrite !bind_eq.
  destruct (resume (S bound) BertMultiFileDataloader__iter__ w)
    as [[e|[b fr1| |]] w2]; try done.
  destruct (Z.leb_spec count 0); [done|lia].
Qed.

Lemma forward_nonpositive_count_witness :
  (-3 ≤ 0)%Z ∧ forward 4 (-3) example_built = forward 4 0 example_built.
Proof.
  split; [lia|]. apply (forward_nonpositive_count 4 (-3) example_built). lia.
Defined.

Example forward_negative_count_example :
  drawn (forward 4 (-3) example_built) = Some 1%nat.
Proof. vm_compute. reflexivity. Qed.

Lemma forward_past_the_end_witness :
  consume 6 BertMultiFileDataloader__iter__ 6 example_built
  = (inr (Some (consumed (consume 6 Created 6 example_built))),
     (consume 6 Created 6 example_built).2)
  ∧ (Z.of_nat (length (consumed (consume 6 Created 6 example_built))) ≤ 5)%Z
  ∧ forward 6 5 example_built
    = (inr (Some (consumed (consume 6 Created 6 example_built))),
       (consume 6 Created 6 example_built).2)
  ∧ torn_down (self (consume 6 Created 6 example_built).2)
  ∧ cursor (consume 6 Created 6 example_built).2 = (0, 0)%Z.
Proof.
  assert (Hrun : consume 6 BertMultiFileDataloader__iter__ 6 example_built
                 = (inr (Some (consumed (consume 6 Created 6 example_built))),
                    (consume 6 Created 6 example_built).2))
    by (vm_compute; reflexivity).
  assert (Hlen : (Z.of_nat (length (consumed (consume 6 Created 6 example_built)))
                  ≤ 5)%Z) by (vm_compute; discriminate).
  split; [exact Hrun|]. split; [exact Hlen|].
  exact (forward_past_the_end 6 5 example_built _ _ Hrun Hlen).
Defined.

Lemma forward_within_single_shard_witness :
  lists example_world !! 8%nat = Some ["a.h5"]
  ∧ disk (host example_world) !! "a.h5" = Some (example_shard 5)
  ∧ core_restriction (host example_world) = None
  ∧ well_formed (args (host example_world)) 5 (example_shard 5)
  ∧ (1 ≤ 2)%Z ∧ (0 ≤ 1)%Z ∧ (0 ≤ 1)%Z
  ∧ (Z.to_nat 1 < 5 / Z.to_nat 2)%nat
  ∧ (Z.to_nat 1 + 2 ≤ 4)%nat
  ∧ ∃ bs w2,
      (BertMultiFileDataloader__init__ 8 2 false false 1
         ≫= λ _, forward 4 1) example_world = (inr (Some bs), w2)
      ∧ length bs = S (Z.to_nat 1)
      ∧ file_index (self w2) = 0%Z
      ∧ sample_index (self w2) = (1 * 2)%Z
      ∧ pool (self w2) = None ∧ dataset (self w2) = PyNone
      ∧ future_dataset (self w2) = None.
Proof.
  assert (H4 : well_formed (args (host example_world)) 5 (example_shard 5))
    by apply example_shard_well_formed.
  assert (H8 : (Z.to_nat 1 < 5 / Z.to_nat 2)%nat) by (vm_compute; lia).
  assert (H9 : (Z.to_nat 1 + 2 ≤ 4)%nat) by (vm_compute; lia).
  split_and!;
    [reflexivity|reflexivity|reflexivity|exact H4|lia|lia|lia|exact H8|exact H9|].
  apply (forward_within_single_shard example_world 8 "a.h5" (example_shard 5) 5 2
           false 1 1 4);
    [reflexivity|reflexivity|reflexivity|exact H4|lia|lia|lia|exact H8|exact H9].
Defined.

(** ** From the first shard to the last *)

Lemma factory_spec_plain path size sh nw w d n :
  disk (host w) !! path = Some d →
  core_restriction (host w) = None →
  well_formed (args (host w)) n d →
  (0 < size)%Z → (0 ≤ nw)%Z →
  ∃ d' rng,
    _singlefile_dataloader_factory path size sh nw w
      = (inr (mkDataLoader (mkDataset d') size nw), set_np rng w)
    ∧ well_formed (args (host w)) n d'
    ∧ (sh = false → d' = d).
Proof.
  intros Hd Hg Hwf Hsize Hnw. destruct sh.
  - destruct (factory_spec path size true nw w d n) as (d' & rng & Hrun & Hwf');
      try done.
    by exists d', rng.
  - exists d, (np_random w). split; [|done].
    unfold _singlefile_dataloader_factory, BertSingleFileDataset__init__.
    unfold ensure_no_core_restriction, h5py_File. wrun. rewrite Hg. wrun.
    rewrite Hg. wrun. rewrite Hd. wrun.
    unfold DataLoader__init__.
    destruct (Z.ltb_spec nw 0); [lia|]. destruct (Z.leb_spec size 0); [lia|].
    f_equal. by destruct w.
Qed.

Lemma fetch_length a ds idxs b :
  fetch a ds idxs = inr b → length b = length idxs.
Proof.
  revert b. induction idxs as [|i idxs IH]; intros b; simpl.
  { by intros [= <-]. }
  destruct (BertSingleFileDataset__getitem__ a ds i) as [e|s]; [done|].
  cbn [mbind sum_bind]. destruct (fetch a ds idxs) as [e|b']; [done|].
  cbn [fmap sum_fmap]. intros [= <-]. simpl. by rewrite (IH b').
Qed.

Lemma chunks_count h size sh nw fl chunks :
  (1 ≤ size)%Z →
  Forall2 (shard_chunk h size sh nw) fl chunks →
  length (concat chunks) = batches_in h size fl
  ∧ Forall (λ b, length b = Z.to_nat size) (concat chunks).
Proof.
  intros Hsize. unfold batches_in.
  induction 1 as [|path chunk fl chunks Hchunk _ [IH1 IH2]]; [done|].
  destruct Hchunk as (d & d' & Hd & _ & Hrows & Hfetch).
  destruct (batches_of_spec (mkDataLoader (mkDataset d') size nw)) as [Hlen Hall];
    [simpl; lia|].
  simpl in Hlen, Hall. unfold BertSingleFileDataset__len__ in Hlen. simpl in Hlen.
  assert (samples_in h path = length (input_ids d)) as Hsamples
    by (unfold samples_in; by rewrite Hd).
  simpl. rewrite length_app, IH1, Hsamples.
  rewrite <- (Forall2_length _ _ _ Hfetch), Hlen, Hrows. split; [done|].
  apply Forall_app. split; [|done].
  clear Hlen. induction Hfetch as [|idxs b rest bs Hb _ IH]; [done|].
  apply Forall_cons in Hall as [[Hidxs _] Hall].
  constructor; [|by apply IH]. by rewrite (fetch_length _ _ _ _ Hb).
Qed.

Lemma fetch_next h fl size sh nw i j w p :
  set_up h fl size sh nw i w →
  pool (self w) = Some p → queue p = [] →
  ∃ w2, _fetch_future_dataset_or_none (Z.of_nat j) w = (inr tt, w2)
      ∧ at_shard h fl size sh nw i j w2
      ∧ sample_index (self w2) = sample_index (self w)
      ∧ dataset (self w2) = dataset (self w).
Proof.
  intros (Hh & Hl & Hloop & Hb & Hs & Hn & Hfi & Hds) Hp Hq.
  unfold _fetch_future_dataset_or_none. wrun. rewrite Hl, Hloop. cbn [orb].
  destruct (Z.ltb_spec (Z.of_nat j) (Z.of_nat (length fl))) as [Hlt|Hge].
  - destruct (lookup_lt_is_Some_2 fl j) as [path Hpath]; [lia|].
    rewrite Z.mod_small by lia. rewrite Nat2Z.id, Hpath.
    destruct fl as [|f0 fl']; [done|]. cbv iota.
    rewrite bind_eq. unfold submit. rewrite Hp, Hb, Hs, Hn, Hq. wrun.
    eexists. split; [reflexivity|].
    unfold at_shard, set_up, pending. fields. rewrite Hpath.
    split_and!; try done. eexists _, _. by split_and!.
  - wrun. eexists. split; [reflexivity|].
    unfold at_shard, set_up, pending. fields. rewrite lookup_ge_None_2 by lia.
    by split_and!.
Qed.

(** One turn of the [while] loop, up to the head of its [for] loop. *)
Lemma while_turn h fl size sh nw i w tK path d n :
  core_restriction h = None → (1 ≤ size)%Z → (0 ≤ nw)%Z →
  at_shard h fl size sh nw i i w →
  fl !! i = Some path → disk h !! path = Some d →
  well_formed (args h) n d →
  ∃ d' W src,
    while_future_dataset (S tK) w
    = for_batch_in_dataset src (mkDataLoader (mkDataset d') size nw)
        (batches_of (mkDataLoader (mkDataset d') size nw))
        (while_future_dataset tK) W
    ∧ at_shard h fl size sh nw i (S i) W
    ∧ well_formed (args h) n d'
    ∧ (sh = false → d' = d)
    ∧ sample_index (self W) = sample_index (self w).
Proof.
  intros Hg Hsize Hnw Hat Hpath Hd Hwf.
  pose proof Hat as ((Hh & Hl & Hloop & Hb & Hs & Hn & Hfi & Hds) & Hpend).
  unfold pending in Hpend. rewrite Hpath in Hpend.
  destruct Hpend as (t & p & Hfut & Htf & Htb & Hts & Htn & Hp & Hq).
  rewrite while_S. wrun. rewrite Hfut. rewrite bind_eq.
  assert (Hdel : (match dataset (self w) with
                  | Deleted => raise (AttributeError "dataset")
                  | _ => modify (with_self (set_dataset Deleted))
                  end) w = (inr tt, with_self (set_dataset Deleted) w)).
  { by destruct (dataset (self w)). }
  rewrite Hdel. wrun.
  erewrite result_only_queued by (fields; done).
  unfold run_task. rewrite Htf, Htb, Hts, Htn.
  match goal with |- context [_singlefile_dataloader_factory path size sh nw ?w0] =>
    destruct (factory_spec_plain path size sh nw w0 d n)
      as (d' & rng & Hrun & Hwf' & Hplain);
      [fields; by rewrite Hh..|lia|done|]; rewrite Hrun
  end.
  wrun. rewrite Hfi.
  replace (Z.of_nat i + 1)%Z with (Z.of_nat (S i)) by lia.
  match goal with |- context [_fetch_future_dataset_or_none _ ?w0] =>
    destruct (fetch_next h fl size sh nw i (S i) w0 (mkPool [] (submitted p)))
      as (W & Hfetch & HatW & Hsi & _);
      [unfold set_up; fields; by split_and!|done|done|]; rewrite Hfetch
  end.
  exists d', W, (t_index t). split; [done|]. split; [done|].
  fields. simpl in Hwf'. rewrite Hh in Hwf'. by split_and!.
Qed.

Lemma consume_from_eq (o : py World Outcome) turns steps w :
  consume_from o turns steps w
  = match o w with
    | (inl e, w') => (inl e, w')
    | (inr Unfinished, w') => (inr None, w')
    | (inr StopIteration, w') => (inr (Some []), w')
    | (inr (Yield b fr'), w') =>
        match consume turns fr' steps w' with
        | (inl e, w'') => (inl e, w'')
        | (inr more, w'') => (inr (cons b <$> more), w'')
        end
    end.
Proof.
  unfold consume_from. rewrite bind_eq.
  by destruct (o w) as [[e|[b fr'| |]] w'].
Qed.

(** The rest of a shard, then the shards after it. *)
Lemma stream_run h fl size sh nw turns0 i src dl d' n :
  dl_dataset dl = mkDataset d' →
  well_formed (args h) n d' →
  (length fl - S i < turns0)%nat →
  (∀ w tK steps,
     at_shard h fl size sh nw (S i) (S i) w →
     (length fl - S i < tK)%nat →
     (batches_in h size (drop (S i) fl) ≤ steps)%nat →
     finishes h size sh nw [] (drop (S i) fl)
       (consume_from (while_future_dataset tK) turns0 steps w)) →
  ∀ rest w tK steps,
    at_shard h fl size sh nw i (S i) w →
    Forall (Forall (λ k, (k < n)%nat)) rest →
    (length fl - S i < tK)%nat →
    (length rest + batches_in h size (drop (S i) fl) ≤ steps)%nat →
    ∃ chunk,
      Forall2 (λ idxs b, fetch (args h) (mkDataset d') idxs = inr b) rest chunk
      ∧ finishes h size sh nw chunk (drop (S i) fl)
          (consume_from (for_batch_in_dataset src dl rest (while_future_dataset tK))
                        turns0 steps w).
Proof.
  intros Hdl Hwf Hturns Hnext.
  induction rest as [|idxs rest IH]; intros w tK steps Hat Hall HtK Hsteps.
  - exists []. split; [constructor|].
    destruct Hat as ((Hh & Hl & Hloop & Hb & Hs & Hn & Hfi & Hds) & Hpend).
    assert (Heq : consume_from
                    (for_batch_in_dataset src dl [] (while_future_dataset tK))
                    turns0 steps w
                  = consume_from (while_future_dataset tK) turns0 steps
                      (with_self (set_sample_index 0)
                         (with_self (set_file_index (file_index (self w) + 1)) w))).
    { unfold consume_from, for_batch_in_dataset. by wrun. }
    rewrite Heq. apply Hnext; [|done|simpl in Hsteps; lia].
    unfold at_shard, set_up, pending in *. fields.
    split_and!; try done. lia.
  - apply Forall_cons in Hall as [Hidxs Hall].
    destruct (fetch_spec _ d' n idxs Hwf Hidxs) as (b & Hb & Hlen).
    destruct steps as [|steps]; [simpl in Hsteps; lia|].
    pose proof Hat as ((Hh & Hl & Hloop & Hbs & Hs & Hn & Hfi & Hds) & Hpend).
    destruct (IH (with_self (set_sample_index
                               (sample_index (self w) + batch_size (self w))) w)
                 turns0 steps) as (chunk & Hchunk & Hfin).
    { unfold at_shard, set_up, pending in *. by fields. }
    { done. }
    { done. }
    { simpl in Hsteps. lia. }
    exists (b :: chunk). split; [by constructor|].
    destruct Hfin as (chunks & Hrun & Hchunks & Htd & Hcur).
    rewrite consume_from_eq.
    assert (Hfirst : for_batch_in_dataset src dl (idxs :: rest)
                       (while_future_dataset tK) w
                     = (inr (Yield b (Suspended src dl rest)), w)).
    { unfold for_batch_in_dataset. wrun. rewrite Hh, Hdl, Hb. by wrun. }
    rewrite Hfirst, consume_S.
    assert (Hnext' : consume_from (resume turns0 (Suspended src dl rest)) turns0 steps w
                   = consume_from
                       (for_batch_in_dataset src dl rest (while_future_dataset turns0))
                       turns0 steps
                       (with_self (set_sample_index
                                     (sample_index (self w) + batch_size (self w))) w)).
    { unfold consume_from, resume. by wrun. }
    rewrite Hnext'.
    destruct (consume_from _ turns0 steps _) as [[e|more] w3]; simpl in Hrun; [done|].
    injection Hrun as ->. exists chunks. by split_and!.
Qed.

(** From the head of the [while] loop at shard [i] to the end. *)
Lemma head_run h fl size sh nw turns0 :
  core_restriction h = None → Forall (loadable h) fl →
  (1 ≤ size)%Z → (0 ≤ nw)%Z → (length fl < turns0)%nat →
  ∀ k i w tK steps,
    (length fl - i = k)%nat →
    at_shard h fl size sh nw i i w →
    (k < tK)%nat →
    (batches_in h size (drop i fl) ≤ steps)%nat →
    finishes h size sh nw [] (drop i fl)
      (consume_from (while_future_dataset tK) turns0 steps w).
Proof.
  intros Hg Hload Hsize Hnw Hturns.
  induction k as [|k IH]; intros i w tK steps Hk Hat HtK Hsteps.
  - destruct tK as [|tK]; [lia|].
    destruct Hat as ((Hh & Hl & Hloop & Hb & Hs & Hn & Hfi & Hds) & Hpend).
    unfold pending in Hpend. rewrite lookup_ge_None_2 in Hpend by lia.
    rewrite drop_ge by lia. exists []. split_and!; [|constructor|..].
    all: unfold consume_from; rewrite while_S; wrun; rewrite Hpend; wrun;
      rewrite reset_spec by done; wrun; unfold torn_down, cursor; by fields.
  - destruct tK as [|tK]; [lia|].
    destruct (lookup_lt_is_Some_2 fl i) as [path Hpath]; [lia|].
    rewrite (drop_S _ _ _ Hpath) in *.
    rewrite Forall_forall in Hload.
    destruct (Hload path) as (d & Hd & Hwf);
      [apply list_elem_of_lookup; by exists i|].
    destruct (while_turn h fl size sh nw i w tK path d _ Hg Hsize Hnw Hat Hpath Hd Hwf)
      as (d' & W & src & Hturn & HatW & Hwf' & Hplain & _).
    set (dl := mkDataLoader (mkDataset d') size nw) in *.
    destruct (batches_of_spec dl) as [Hlen Hall]; [simpl; lia|].
    simpl in Hlen, Hall. unfold BertSingleFileDataset__len__ in Hlen, Hall.
    simpl in Hlen, Hall. rewrite (proj1 Hwf') in Hlen, Hall.
    assert (Hin : batches_in h size (path :: drop (S i) fl)
                  = (length (batches_of dl) + batches_in h size (drop (S i) fl))%nat).
    { unfold batches_in. simpl. unfold samples_in at 1. by rewrite Hd, Hlen. }
    destruct (stream_run h fl size sh nw turns0 i src dl d' _ eq_refl Hwf')
      with (rest := batches_of dl) (w := W) (tK := tK) (steps := steps)
      as (chunk & Hchunk & chunks & Hrun & Hchunks & Htd & Hcur).
    { lia. }
    { intros w1 tK1 steps1 Hat1 HtK1 Hsteps1. apply (IH (S i)); [lia|done|lia|done]. }
    { done. }
    { eapply Forall_impl; [exact Hall|]. by intros ? [_ ?]. }
    { lia. }
    { lia. }
    exists (chunk :: chunks).
    assert (Heq : consume_from (while_future_dataset (S tK)) turns0 steps w
                = consume_from
                    (for_batch_in_dataset src dl (batches_of dl)
                       (while_future_dataset tK)) turns0 steps W).
    { unfold consume_from. by rewrite !bind_eq, Hturn. }
    rewrite Heq. split_and!; try done.
    constructor; [|done].
    exists d, d'. split_and!; try done. by rewrite (proj1 Hwf').
Qed.

Lemma loadable_Permutation h fl fl' :
  fl' ≡ₚ fl → Forall (loadable h) fl → Forall (loadable h) fl'.
Proof. by intros ->. Qed.

Lemma batches_in_Permutation h size fl fl' :
  fl' ≡ₚ fl → batches_in h size fl' = batches_in h size fl.
Proof. unfold batches_in. by intros ->. Qed.

(** X18: a loader built with [loop=False] over a list of shard files that
    are all on disk, and then iterated to its end, gives one pass over each
    file in the order of the list as the constructor leaves it: for each file
    the batches, in order, of a dataset of as many rows as the file has (the
    file's content itself when [shuffle=False]).  That makes the sum over
    the files of [N / size] batches, each of [size] samples; and the loader
    ends reset, with the cursor at (0, 0). *)
Theorem all_shards_in_list_order (w : World) (l : loc) (fl : list string)
    (size : Z) (sh : bool) (nw : Z) (bound : nat) :
  lists w !! l = Some fl →
  Forall (loadable (host w)) fl →
  core_restriction (host w) = None →
  (1 ≤ size)%Z → (0 ≤ nw)%Z →
  (length fl + batches_in (host w) size fl + 2 ≤ bound)%nat →
  ∃ chunks w',
    (BertMultiFileDataloader__init__ l size sh false nw
       ≫= λ _, consume bound BertMultiFileDataloader__iter__ bound) w
      = (inr (Some (concat chunks)), w')
    ∧ Forall2 (shard_chunk (host w) size sh nw)
        (if sh then (shuffled fl (py_random w)).1 else fl) chunks
    ∧ length (concat chunks) = batches_in (host w) size fl
    ∧ Forall (λ b, length b = Z.to_nat size) (concat chunks)
    ∧ torn_down (self w') ∧ cursor w' = (0, 0)%Z.
Proof.
  intros Hl Hload Hg Hsize Hnw Hbound.
  destruct (init_spec l size sh false nw w fl Hl)
    as (w1 & Hinit & Hhost & Hself & _ & _ & _ & Hlists & _).
  set (fl' := if sh then (shuffled fl (py_random w)).1 else fl).
  assert (Hperm : fl' ≡ₚ fl).
  { unfold fl'. destruct sh; [apply shuffled_Permutation|done]. }
  assert (Hl1 : lists w1 !! l = Some fl').
  { rewrite Hlists. unfold fl'. destruct sh; [|done]. by rewrite lookup_insert_eq. }
  rewrite bind_eq, Hinit. clear Hinit Hlists Hl.
  apply (loadable_Permutation _ _ _ Hperm) in Hload.
  rewrite <- (batches_in_Permutation _ _ _ _ Hperm) in *.
  rewrite <- (Permutation_length Hperm) in Hbound.
  destruct bound as [|bound]; [lia|].
  rewrite consume_S. unfold BertMultiFileDataloader__iter__.
  assert (Hc : _create_poolworker_if_not_exists w1
             = (inr tt, with_self (set_pool (Some (mkPool [] 0))) w1)).
  { unfold _create_poolworker_if_not_exists. rewrite bind_eq, run_gets.
    destruct (pool (self w1)) eqn:Hp; [by rewrite Hself in Hp|]. by wrun. }
  assert (Hfi0 : file_index (self (with_self (set_pool (Some (mkPool [] 0))) w1))
                 = Z.of_nat 0).
  { fields. by rewrite Hself. }
  destruct (fetch_next (host w) fl' size sh nw 0 0
              (with_self (set_pool (Some (mkPool [] 0))) w1) (mkPool [] 0))
    as (W & Hfetch & HatW & _ & _).
  { unfold set_up. fields. rewrite Hself. fields. by split_and!. }
  { by fields. }
  { done. }
  remember (with_self (set_pool (Some (mkPool [] 0))) w1) as W0 eqn:HW0.
  assert (Heq : consume_from (resume (S bound) Created) (S bound) bound w1
              = consume_from (while_future_dataset (S bound)) (S bound) bound W).
  { unfold consume_from, resume. rewrite !bind_eq, Hc.
    rewrite bind_eq, run_gets. by rewrite bind_eq, Hfi0, Hfetch. }
  rewrite Heq.
  destruct (head_run (host w) fl' size sh nw (S bound) Hg Hload Hsize Hnw ltac:(lia)
              (length fl') 0%nat W (S bound) bound)
    as (chunks & Hrun & Hchunks & Htd & Hcur); [lia|done|lia|rewrite drop_0; lia|].
  rewrite drop_0 in Hchunks. simpl in Hrun.
  destruct (chunks_count _ _ _ _ _ _ Hsize Hchunks) as [Hcount Hsizes].
  exists chunks, (consume_from (while_future_dataset (S bound)) (S bound) bound W).2.
  split_and!; try done.
  by destruct (consume_from _ _ _ W) as [r w']; simpl in *; subst r.
Qed.

Lemma all_shards_in_list_order_witness :
  lists example_world !! 7%nat = Some ["a.h5"; "b.h5"]
  ∧ Forall (loadable (host example_world)) ["a.h5"; "b.h5"]
  ∧ core_restriction (host example_world) = None
  ∧ (1 ≤ 2)%Z ∧ (0 ≤ 1)%Z
  ∧ (length ["a.h5"; "b.h5"] + batches_in (host example_world) 2 ["a.h5"; "b.h5"] + 2
     ≤ 7)%nat
  ∧ ∃ chunks w',
      (BertMultiFileDataloader__init__ 7 2 false false 1
         ≫= λ _, consume 7 BertMultiFileDataloader__iter__ 7) example_world
        = (inr (Some (concat chunks)), w')
      ∧ Forall2 (shard_chunk (host example_world) 2 false 1) ["a.h5"; "b.h5"] chunks
      ∧ length (concat chunks)
        = batches_in (host example_world) 2 ["a.h5"; "b.h5"]
      ∧ Forall (λ b, length b = Z.to_nat 2) (concat chunks)
      ∧ torn_down (self w') ∧ cursor w' = (0, 0)%Z.
Proof.
  assert (H2 : Forall (loadable (host example_world)) ["a.h5"; "b.h5"]).
  { repeat constructor.
    - exists (example_shard 5). split; [reflexivity|apply example_shard_well_formed].
    - exists (example_shard 3). split; [reflexivity|apply example_shard_well_formed]. }
  assert (H6 : (length ["a.h5"; "b.h5"]
                + batches_in (host example_world) 2 ["a.h5"; "b.h5"] + 2 ≤ 7)%nat)
    by (vm_compute; lia).
  split_and!; [reflexivity|exact H2|reflexivity|lia|lia|exact H6|].
  apply (all_shards_in_list_order example_world 7 ["a.h5"; "b.h5"] 2 false 1 7);
    [reflexivity|exact H2|reflexivity|lia|lia|exact H6].
Defined.

Example all_shards_example :
  drawn ((BertMultiFileDataloader__init__ 7 2 false false 1
            ≫= λ _, consume 7 BertMultiFileDataloader__iter__ 7) example_world)
  = Some 3%nat.
Proof. vm_compute. reflexivity. Qed.

(** ** Where an iteration begins *)




(** ** An iteration begun further on in the list *)

(** X23: an iteration begun on a torn-down, non-looping loader whose
    cursor is at shard [i], and driven to its end, gives one pass over each
    of the files from index [i] on, in list order, none over the files
    before; and the loader ends reset, with the cursor at (0, 0). *)
Theorem iteration_resumes_at_file_index (w : World) (fl : list string) (size : Z)
    (sh : bool) (nw : Z) (i bound : nat) :
  set_up (host w) fl size sh nw i w → torn_down (self w) →
  Forall (loadable (host w)) fl →
  core_restriction (host w) = None →
  (1 ≤ size)%Z → (0 ≤ nw)%Z →
  (length fl + batches_in (host w) size (drop i fl) + 2 ≤ bound)%nat →
  ∃ chunks w',
    consume bound BertMultiFileDataloader__iter__ bound w
      = (inr (Some (concat chunks)), w')
    ∧ Forall2 (shard_chunk (host w) size sh nw) (drop i fl) chunks
    ∧ torn_down (self w') ∧ cursor w' = (0, 0)%Z.
Proof.
  intros Hset (Hp & Hds & Hfut) Hload Hg Hsize Hnw Hbound.
  pose proof Hset as (_ & Hl & Hloop & Hbs & Hs & Hnws & Hfi & _).
  destruct bound as [|bound]; [lia|].
  rewrite consume_S. unfold BertMultiFileDataloader__iter__.
  assert (Hc : _create_poolworker_if_not_exists w
             = (inr tt, with_self (set_pool (Some (mkPool [] 0))) w)).
  { unfold _create_poolworker_if_not_exists. rewrite bind_eq, run_gets, Hp. by wrun. }
  assert (Hfi0 : file_index (self (with_self (set_pool (Some (mkPool [] 0))) w))
                 = Z.of_nat i) by (by fields).
  destruct (fetch_next (host w) fl size sh nw i i
              (with_self (set_pool (Some (mkPool [] 0))) w) (mkPool [] 0))
    as (W & Hfetch & HatW & _ & _).
  { unfold set_up in *. fields. split_and!; try done. by rewrite Hds. }
  { by fields. }
  { done. }
  remember (with_self (set_pool (Some (mkPool [] 0))) w) as W0 eqn:HW0.
  assert (Heq : consume_from (resume (S bound) Created) (S bound) bound w
              = consume_from (while_future_dataset (S bound)) (S bound) bound W).
  { unfold consume_from, resume. rewrite !bind_eq, Hc.
    rewrite bind_eq, run_gets. by rewrite bind_eq, Hfi0, Hfetch. }
  rewrite Heq.
  destruct (head_run (host w) fl size sh nw (S bound) Hg Hload Hsize Hnw ltac:(lia)
              (length fl - i)%nat i W (S bound) bound)
    as (chunks & Hrun & Hchunks & Htd & Hcur); [done|done|lia|lia|].
  simpl in Hrun.
  exists chunks, (consume_from (while_future_dataset (S bound)) (S bound) bound W).2.
  split_and!; try done.
  by destruct (consume_from _ _ _ W) as [r w']; simpl in *; subst r.
Qed.

Lemma iteration_resumes_at_file_index_witness :
  let w := (forward 10 2 example_built).2 in
  cursor w = (1, 0)%Z
  ∧ set_up (host w) ["a.h5"; "b.h5"] 2 false 1 1 w ∧ torn_down (self w)
  ∧ Forall (loadable (host w)) ["a.h5"; "b.h5"]
  ∧ core_restriction (host w) = None
  ∧ (1 ≤ 2)%Z ∧ (0 ≤ 1)%Z
  ∧ (length ["a.h5"; "b.h5"] + batches_in (host w) 2 (drop 1 ["a.h5"; "b.h5"]) + 2
     ≤ 6)%nat
  ∧ ∃ chunks w',
      consume 6 BertMultiFileDataloader__iter__ 6 w = (inr (Some (concat chunks)), w')
      ∧ Forall2 (shard_chunk (host w) 2 false 1) (drop 1 ["a.h5"; "b.h5"]) chunks
      ∧ torn_down (self w') ∧ cursor w' = (0, 0)%Z.
Proof.
  intros w.
  assert (H1 : set_up (host w) ["a.h5"; "b.h5"] 2 false 1 1 w)
    by (vm_compute; split_and!; done).
  assert (H2 : torn_down (self w)) by (by vm_compute).
  assert (H3 : Forall (loadable (host w)) ["a.h5"; "b.h5"]).
  { repeat constructor.
    - exists (example_shard 5). split; [reflexivity|apply example_shard_well_formed].
    - exists (example_shard 3). split; [reflexivity|apply example_shard_well_formed]. }
  assert (H7 : (length ["a.h5"; "b.h5"]
                + batches_in (host w) 2 (drop 1 ["a.h5"; "b.h5"]) + 2 ≤ 6)%nat)
    by (vm_compute; lia).
  split_and!; [reflexivity|exact H1|exact H2|exact H3|reflexivity|lia|lia|exact H7|].
  apply (iteration_resumes_at_file_index w ["a.h5"; "b.h5"] 2 false 1 1 6);
    [exact H1|exact H2|exact H3|reflexivity|lia|lia|exact H7].
Defined.

End DatasetProperties.
